(** * Scheduling and recurrence engine of the Telegram reminder bot (src/bot.py),
    embedded in Rocq.

    Python [datetime] values are modelled with second precision: local
    calendar fields plus an optional fixed UTC offset in seconds (the tzinfo
    that [pytz] [localize] and [datetime.fromisoformat] attach is a fixed
    offset instance; [None] is a naive datetime). Arithmetic on an aware
    [datetime] (adding a [timedelta], [replace]) works on the local fields and
    keeps the same tzinfo, as CPython does. *)

From Stdlib Require Import ZArith Lia.
From Stdlib Require Import Ascii.
From stdpp Require Import base gmap strings list.
From Stdlib Require Import Sorted Permutation.

Open Scope Z_scope.

(* ------------------------------------------------------------------ *)
(** ** Calendar arithmetic (Python's proleptic Gregorian calendar) *)

Definition is_leap (y : Z) : bool :=
  (Z.eqb (y mod 4) 0 && negb (Z.eqb (y mod 100) 0)) || Z.eqb (y mod 400) 0.

(** [calendar.monthrange(year, month)[1]]: number of days of the month. *)
Definition days_in_month (y m : Z) : Z :=
  if Z.eqb m 2 then (if is_leap y then 29 else 28)
  else if Z.eqb m 4 || Z.eqb m 6 || Z.eqb m 9 || Z.eqb m 11 then 30
  else 31.

(** Days since 1970-01-01 of a civil date. *)
Definition days_from_civil (y m d : Z) : Z :=
  let y' := if m <=? 2 then y - 1 else y in
  let era := y' / 400 in
  let yoe := y' - era * 400 in
  let mp := (m + 9) mod 12 in
  let doy := (153 * mp + 2) / 5 + d - 1 in
  let doe := yoe * 365 + yoe / 4 - yoe / 100 + doy in
  era * 146097 + doe - 719468.

(** Inverse of [days_from_civil]: (year, month, day). *)
Definition civil_from_days (z : Z) : Z * Z * Z :=
  let z' := z + 719468 in
  let era := z' / 146097 in
  let doe := z' - era * 146097 in
  let yoe := (doe - doe / 1460 + doe / 36524 - doe / 146096) / 365 in
  let y := yoe + era * 400 in
  let doy := doe - (365 * yoe + yoe / 4 - yoe / 100) in
  let mp := (5 * doy + 2) / 153 in
  let d := doy - (153 * mp + 2) / 5 + 1 in
  let m := if mp <? 10 then mp + 3 else mp - 9 in
  (if m <=? 2 then y + 1 else y, m, d).

Record datetime := mkdt {
  dt_year : Z; dt_month : Z; dt_day : Z;
  dt_hour : Z; dt_minute : Z; dt_second : Z;
  dt_offset : option Z   (** tzinfo: [None] = naive, [Some o] = fixed UTC offset [o] seconds *)
}.

Definition local_seconds (t : datetime) : Z :=
  days_from_civil (dt_year t) (dt_month t) (dt_day t) * 86400
  + dt_hour t * 3600 + dt_minute t * 60 + dt_second t.

Definition of_local_seconds (s : Z) (off : option Z) : datetime :=
  let '(y, m, d) := civil_from_days (s / 86400) in
  let r := s mod 86400 in
  mkdt y m d (r / 3600) ((r mod 3600) / 60) (r mod 60) off.

(** [t + timedelta(seconds=n)]: local arithmetic, same tzinfo. *)
Definition add_seconds (t : datetime) (n : Z) : datetime :=
  of_local_seconds (local_seconds t + n) (dt_offset t).

(** [t.utcoffset()] ([timedelta(0)] never arises for naive values in the callers). *)
Definition utcoffset (t : datetime) : Z :=
  match dt_offset t with Some o => o | None => 0 end.

(** [t.astimezone(pytz.UTC)] read as seconds since the epoch. *)
Definition to_utc (t : datetime) : Z := local_seconds t - utcoffset t.

(** A time zone of the tz database restricted to one daylight-saving
    period: standard offset, summer offset, and the UTC instants at which
    summer time starts and ends. *)
Record zone := mkzone {
  z_std : Z; z_dst : Z; z_dst_start : Z; z_dst_end : Z
}.

Definition in_dst (z : zone) (u : Z) : bool := (z_dst_start z <=? u) && (u <? z_dst_end z).

Definition zone_offset_at (z : zone) (u : Z) : Z := if in_dst z u then z_dst z else z_std z.

(** [utc_instant.astimezone(zone)]: the local wall clock of the zone at [u]. *)
Definition local_in_zone (z : zone) (u : Z) : datetime :=
  let off := zone_offset_at z u in of_local_seconds (u + off) (Some off).

(** [pytz] [zone.localize(naive)] with its default [is_dst=False]: the
    standard offset when standard time is valid at that wall clock (this also
    resolves the repeated hour), else the summer offset, and the standard
    offset inside the skipped hour. *)
Definition localize (z : zone) (t : datetime) : datetime :=
  let l := local_seconds t in
  let off :=
    if negb (in_dst z (l - z_std z)) then z_std z
    else if in_dst z (l - z_dst z) then z_dst z
    else z_std z in
  {| dt_year := dt_year t; dt_month := dt_month t; dt_day := dt_day t;
     dt_hour := dt_hour t; dt_minute := dt_minute t; dt_second := dt_second t;
     dt_offset := Some off |}.

(* ------------------------------------------------------------------ *)
(** ** [calculate_next_occurrence] *)

(** What the Python function produces: a datetime, the [None] it returns
    when [recurrence_type] is none of its three units, the [ValueError]
    raised by [calendar.monthrange] / [datetime.replace] on an out-of-range
    month or year, or the [OverflowError] raised by [timedelta] (more than
    999999999 days) or by [datetime + timedelta] (a year outside 1..9999). *)
Inductive next_result :=
| NextTime (t : datetime)
| NoneReturned
| NextValueError
| NextOverflowError.

(** [last_time + timedelta(days=days)]. *)
Definition add_days (last_time : datetime) (days : Z) : next_result :=
  if 999999999 <? Z.abs days then NextOverflowError
  else
    let r := add_seconds last_time (days * 86400) in
    if (dt_year r <? 1) || (9999 <? dt_year r) then NextOverflowError else NextTime r.

Definition set_date (t : datetime) (y m d : Z) : datetime :=
  {| dt_year := y; dt_month := m; dt_day := d;
     dt_hour := dt_hour t; dt_minute := dt_minute t; dt_second := dt_second t;
     dt_offset := dt_offset t |}.

Definition calculate_next_occurrence (last_time : datetime) (recurrence_type : string)
    (interval : Z) : next_result :=
  if String.eqb recurrence_type "day" then
    add_days last_time interval
  else if String.eqb recurrence_type "week" then
    add_days last_time (interval * 7)
  else if String.eqb recurrence_type "month" then
    let year := dt_year last_time in
    let month := dt_month last_time + interval in
    let '(year, month) :=
      if 12 <? month then
        let year := year + month / 12 in
        let month := month mod 12 in
        if Z.eqb month 0 then (year - 1, 12) else (year, month)
      else (year, month) in
    if (month <? 1) || (12 <? month) || (year <? 1) || (9999 <? year) then NextValueError
    else
      let day := Z.min (dt_day last_time) (days_in_month year month) in
      let next_time := set_date last_time year month day in
      match dt_offset next_time with
      | Some _ =>
          let old_offset := utcoffset last_time in
          let new_offset := utcoffset next_time in
          if negb (Z.eqb old_offset new_offset)
          then NextTime (add_seconds next_time (old_offset - new_offset))
          else NextTime next_time
      | None => NextTime next_time
      end
  else NoneReturned.

(** America/New_York in 2024: EST (UTC-5) and EDT (UTC-4) from
    2024-03-10 07:00 UTC to 2024-11-03 06:00 UTC. *)
Definition new_york_2024 : zone :=
  mkzone (-18000) (-14400) 1710054000 1730613600.

Definition nine_am_0309 : datetime := localize new_york_2024 (mkdt 2024 3 9 9 0 0 None).

(* ------------------------------------------------------------------ *)
(** ** Persisted state: the [users] and [reminders] tables (migrations.py) *)

Inductive status := Pending | Completed | Cancelled.

Definition status_eqb (a b : status) : bool :=
  match a, b with
  | Pending, Pending | Completed, Completed | Cancelled, Cancelled => true
  | _, _ => false
  end.

(** A [reminders] row after migrations 001 and 003: there is no chat id
    column. *)
Record row := mkrow {
  r_id : string;
  r_user : Z;
  r_message : string;
  r_time : datetime;                  (** [reminder_time], stored as [isoformat()] *)
  r_status : status;
  r_priority : string;
  r_rtype : option string;            (** [recurrence_type] *)
  r_rint : option Z;                  (** [recurrence_interval] *)
  r_end : option datetime;            (** [recurrence_end_date] *)
  r_parent : option string            (** [parent_reminder_id] *)
}.

(** A [users] row after migration 004. *)
Record user := mkuser {
  u_id : Z;
  u_tz : option string;
  u_max : Z;                          (** [max_reminders] *)
  u_count : Z                         (** [reminder_count] *)
}.

Record db := mkdb { users : list user; rows : list row }.

(** Trigger [update_reminder_count_insert] / [update_reminder_count_delete]:
    add [k] to [reminder_count] of every user row with that [user_id]. *)
Definition bump_count (uid : Z) (k : Z) (us : list user) : list user :=
  map (fun u => if Z.eqb (u_id u) uid
                then mkuser (u_id u) (u_tz u) (u_max u) (u_count u + k) else u) us.

Definition find_user (uid : Z) (us : list user) : option user :=
  List.find (fun u => Z.eqb (u_id u) uid) us.

Definition find_row (rid : string) (rs : list row) : option row :=
  List.find (fun r => String.eqb (r_id r) rid) rs.

Definition set_status (s : status) (r : row) : row :=
  mkrow (r_id r) (r_user r) (r_message r) (r_time r) s (r_priority r)
        (r_rtype r) (r_rint r) (r_end r) (r_parent r).

(** [UPDATE reminders SET status = s WHERE <sel r> AND status = 'pending'],
    run through the [AFTER UPDATE] trigger that decrements the owner's count
    once per row leaving [pending]. Returns the new state and the row count. *)
Definition update_status_step (sel : row -> bool) (s : status) (r : row) (acc : db * nat)
    : db * nat :=
  let '(d', n) := acc in
  if sel r && status_eqb (r_status r) Pending then
    (mkdb (if status_eqb s Pending then users d' else bump_count (r_user r) (-1) (users d'))
          (set_status s r :: rows d'), S n)
  else (mkdb (users d') (r :: rows d'), n).

Definition update_status (sel : row -> bool) (s : status) (d : db) : db * nat :=
  fold_right (update_status_step sel s) (mkdb (users d) [], 0%nat) (rows d).

(* ------------------------------------------------------------------ *)
(** ** Effects: Python exceptions over the process state *)

Inductive exn :=
| DatabaseError
| ReminderLimitError
| AttributeError
| ValueError
| TypeError
| SendError               (** [context.bot.send_message] raising (network) *)
| UnknownTimeZoneError
| OverflowError.

(** What the bot sends through [context.bot.send_message]. *)
Inductive text :=
| ReminderText (priority message : string)       (** "{emoji} Reminder: {message}" *)
| MissedText (at_ : datetime) (message : string)  (** "Missed Reminder from ...:\n{message}" *)
| NextOccurrenceWarning.                         (** "Failed to schedule next occurrence ..." *)

(** Replies through [query.edit_message_text] / [update.message.reply_text]. *)
Inductive reply :=
| ReplyRecurrenceUpdated | ReplyUpdateFailed
| ReplyPriorityUpdated (p : string)
| ReplyCancelled (rid : string) | ReplyNotFound
| ReplyTimezoneSet (tz : string) | ReplyOther.

(** Arguments bound into a [threading.Timer] for [send_reminder]. *)
Record send_args := mkargs {
  a_chat : Z; a_user : Z; a_id : string; a_message : string; a_priority : string;
  a_rtype : option string; a_rint : option Z; a_last : datetime
}.

(** A started, not cancelled, not yet fired [threading.Timer]. *)
Record timer := mktimer { t_handle : nat; t_due : Z; t_args : send_args }.

(** The dict stored in [active_reminders[reminder_id]]. *)
Record entry := mkentry {
  e_timer : nat;                 (** ['timer']: handle of the Timer object *)
  e_scheduled : datetime;
  e_user : Z; e_chat : Z; e_message : string; e_priority : string;
  e_rtype : option string; e_rint : option Z
}.

Record world := mkworld {
  w_db : db;
  w_active : gmap string entry;  (** the global [active_reminders] *)
  w_timers : list timer;         (** live timers, newest first *)
  w_handle : nat;                (** next timer handle *)
  w_now : Z;                     (** [datetime.now(pytz.UTC)], seconds *)
  w_sink_ok : bool;              (** whether [send_message] currently succeeds *)
  w_sent : list (Z * text);      (** delivered messages (chat id, text), newest first *)
  w_replies : list reply;        (** replies to the user, newest first *)
  w_uuids : list string          (** successive values of [str(uuid.uuid4())[:8]] *)
}.

Inductive outcome (A : Type) := Ret (a : A) | Raise (e : exn).
Arguments Ret {A} a.
Arguments Raise {A} e.

Definition M (A : Type) : Type := world -> outcome A * world.

Global Instance M_ret : MRet M := fun A a w => (Ret a, w).
Global Instance M_bind : MBind M := fun A B k m w =>
  match m w with
  | (Ret a, w') => k a w'
  | (Raise e, w') => (Raise e, w')
  end.
Global Instance M_throw : MThrow exn M := fun A e w => (Raise e, w).

Definition get : M world := fun w => (Ret w, w).
Definition modify (f : world -> world) : M unit := fun w => (Ret tt, f w).

(** [try: m  except Exception: handler] *)
Definition try_except {A} (m : M A) (handler : exn -> M A) : M A :=
  fun w => match m w with
           | (Raise e, w') => handler e w'
           | r => r
           end.

Definition set_db (d : db) (w : world) : world :=
  mkworld d (w_active w) (w_timers w) (w_handle w) (w_now w) (w_sink_ok w)
          (w_sent w) (w_replies w) (w_uuids w).
Definition set_active (a : gmap string entry) (w : world) : world :=
  mkworld (w_db w) a (w_timers w) (w_handle w) (w_now w) (w_sink_ok w)
          (w_sent w) (w_replies w) (w_uuids w).
Definition set_timers (ts : list timer) (h : nat) (w : world) : world :=
  mkworld (w_db w) (w_active w) ts h (w_now w) (w_sink_ok w)
          (w_sent w) (w_replies w) (w_uuids w).
Definition push_sent (m : Z * text) (w : world) : world :=
  mkworld (w_db w) (w_active w) (w_timers w) (w_handle w) (w_now w) (w_sink_ok w)
          (m :: w_sent w) (w_replies w) (w_uuids w).
Definition push_reply (r : reply) (w : world) : world :=
  mkworld (w_db w) (w_active w) (w_timers w) (w_handle w) (w_now w) (w_sink_ok w)
          (w_sent w) (r :: w_replies w) (w_uuids w).
Definition set_uuids (l : list string) (w : world) : world :=
  mkworld (w_db w) (w_active w) (w_timers w) (w_handle w) (w_now w) (w_sink_ok w)
          (w_sent w) (w_replies w) l.

(** [context.bot.send_message(chat_id=..., text=...)] *)
Definition send_message (chat : Z) (t : text) : M unit :=
  w ← get;
  if w_sink_ok w then modify (push_sent (chat, t)) else mthrow SendError.

Definition reply_text (r : reply) : M unit := modify (push_reply r).

(** [str(uuid.uuid4())[:8]] *)
Definition fresh_id : M string :=
  w ← get;
  match w_uuids w with
  | x :: rest => modify (set_uuids rest) ;; mret x
  | [] => mret "00000000"%string
  end.

(* ------------------------------------------------------------------ *)
(** ** Store operations (the [@safe_db_operation] functions)

    Each call runs in its own connection and commits as a whole; an
    [sqlite3.Error] (constraint violation, unknown column) is retried and
    surfaces as [DatabaseError] with nothing written. *)

Definition valid_priority (p : string) : bool :=
  String.eqb p "high" || String.eqb p "medium" || String.eqb p "low".

Definition valid_rtype (t : option string) : bool :=
  match t with
  | None => true
  | Some s => String.eqb s "day" || String.eqb s "week" || String.eqb s "month"
  end.

Definition valid_rint (n : option Z) : bool :=
  match n with None => true | Some k => 0 <? k end.

(** The [CHECK] constraints of the [reminders] table. *)
Definition row_checks (r : row) : bool :=
  valid_priority (r_priority r) && valid_rtype (r_rtype r) && valid_rint (r_rint r).

(** The [CHECK (reminder_count >= 0)] of the [users] table. *)
Definition users_checks (us : list user) : bool :=
  forallb (fun u => 0 <=? u_count u) us.

Definition save_reminder (user_id : Z) (reminder_id message : string) (reminder_time : datetime)
    (priority : string) (recurrence_type : option string) (recurrence_interval : option Z)
    (parent_id : option string) : M bool :=
  w ← get;
  let d := w_db w in
  match find_user user_id (users d) with
  | None => mthrow DatabaseError
  | Some u =>
      if u_max u <=? u_count u then mthrow ReminderLimitError
      else
        let r := mkrow reminder_id user_id message reminder_time Pending priority
                       recurrence_type recurrence_interval None parent_id in
        match find_row reminder_id (rows d) with
        | Some _ => mthrow DatabaseError          (** PRIMARY KEY violated *)
        | None =>
            if row_checks r then
              modify (set_db (mkdb (bump_count user_id 1 (users d)) (rows d ++ [r]))) ;;
              mret true
            else mthrow DatabaseError
        end
  end.

(** Run a status [UPDATE]; its trigger may violate the count constraint. *)
Definition run_status_update (sel : row -> bool) (s : status) : M bool :=
  w ← get;
  let '(d', n) := update_status sel s (w_db w) in
  if users_checks (users d') then modify (set_db d') ;; mret (Nat.ltb 0 n)
  else mthrow DatabaseError.

(** Python truthiness of the optional [user_id] argument. *)
Definition truthy_user (user_id : option Z) : option Z :=
  match user_id with Some u => if Z.eqb u 0 then None else Some u | None => None end.

Definition delete_reminder (reminder_id : string) (user_id : option Z) : M bool :=
  match truthy_user user_id with
  | Some u => run_status_update (fun r => String.eqb (r_id r) reminder_id && Z.eqb (r_user r) u) Cancelled
  | None => run_status_update (fun r => String.eqb (r_id r) reminder_id) Cancelled
  end.

Definition mark_reminder_complete (reminder_id : string) : M bool :=
  run_status_update (fun r => String.eqb (r_id r) reminder_id) Completed.

(** [DELETE FROM reminders WHERE status IN ('completed', 'cancelled') AND
    reminder_time < cutoff], the cutoff being [datetime.now() - timedelta(days)]
    (a naive datetime: the stored and the cutoff [isoformat()] strings are
    compared on their local date and time). *)
Definition cleanup_old_reminders (cutoff : datetime) : M nat :=
  w ← get;
  let d := w_db w in
  let old r := negb (status_eqb (r_status r) Pending) &&
               (local_seconds (r_time r) <? local_seconds cutoff) in
  modify (set_db (mkdb (users d) (List.filter (fun r => negb (old r)) (rows d)))) ;;
  mret (List.length (List.filter old (rows d))).

Definition get_user_timezone (user_id : Z) : M (option string) :=
  w ← get;
  mret (match find_user user_id (users (w_db w)) with Some u => u_tz u | None => None end).

Definition pending_sel (reminder_id : string) (user_id : option Z) (r : row) : bool :=
  String.eqb (r_id r) reminder_id && status_eqb (r_status r) Pending &&
  match truthy_user user_id with Some u => Z.eqb (r_user r) u | None => true end.

(** [get_reminder_by_id]: the row iff it is pending ([priority or 'medium']
    changes nothing, the column is never null after migration 003). *)
Definition get_reminder_by_id (reminder_id : string) (user_id : option Z) : M (option row) :=
  w ← get;
  mret (List.find (pending_sel reminder_id user_id) (rows (w_db w))).

(** A decimal digit character. *)
Definition digit (n : Z) : Ascii.ascii := Ascii.ascii_of_nat (48 + Z.to_nat n).

(** Two zero-padded digits ([%02d], as [%d], [%m], [%I], [%M] print). *)
Definition two_digits (n : Z) : string :=
  String (digit (n / 10)) (String (digit (n mod 10)) EmptyString).

Fixpoint decimal_digits (fuel : nat) (n : Z) (acc : string) : string :=
  match fuel with
  | O => acc
  | S f =>
      let acc' := String (digit (n mod 10)) acc in
      if n <? 10 then acc' else decimal_digits f (n / 10) acc'
  end.

(** [str(n)] of a Python [int]. *)
Definition py_str_int (n : Z) : string :=
  let m := Z.abs n in
  let s := decimal_digits (S (Z.to_nat (Z.log2 m))) m EmptyString in
  if n <? 0 then String "-" s else s.

(** A time of day or a date field as [%02d] prints it; a year as [%04d]. *)
Definition four_digits (n : Z) : string :=
  String.append (two_digits (n / 100)) (two_digits (n mod 100)).

(** The [+HH:MM] (or [+HH:MM:SS]) suffix of [isoformat()] for [utcoffset()] [o]. *)
Definition utc_offset_text (o : Z) : string :=
  let a := Z.abs o in
  String (if o <? 0 then "-"%char else "+"%char)
    (String.append (two_digits (a / 3600))
       (String ":" (String.append (two_digits ((a mod 3600) / 60))
          (if a mod 60 =? 0 then EmptyString else String ":" (two_digits (a mod 60)))))).

(** [t.isoformat()] (no microseconds at this precision). *)
Definition isoformat (t : datetime) : string :=
  String.append (four_digits (dt_year t))
    (String "-" (String.append (two_digits (dt_month t))
      (String "-" (String.append (two_digits (dt_day t))
        (String "T" (String.append (two_digits (dt_hour t))
          (String ":" (String.append (two_digits (dt_minute t))
            (String ":" (String.append (two_digits (dt_second t))
              (match dt_offset t with Some o => utc_offset_text o | None => EmptyString end))))))))))).

(** The values [update_reminder] receives as keyword arguments: a [str], an
    [int] or a [datetime]. *)
Inductive value := VStr (s : string) | VInt (n : Z) | VTime (t : datetime).

(** The parameter bound for a value: a [datetime] is first replaced by its
    [isoformat()]; a column of [TEXT] affinity stores an [int] as its
    decimal text. *)
Definition bound_text (v : value) : string :=
  match v with VStr s => s | VInt n => py_str_int n | VTime t => isoformat t end.

(** The columns of the [reminders] table after migration 003. *)
Inductive column :=
| ColId | ColUserId | ColMessage | ColReminderTime | ColCreatedAt | ColStatus
| ColPriority | ColRecurrenceType | ColRecurrenceInterval | ColRecurrenceEndDate
| ColParentReminderId.

#[global] Instance column_eq_dec : EqDecision column.
Proof. solve_decision. Defined.

(** SQLite matches identifiers ignoring ASCII case. *)
Definition fold_byte (a : Ascii.ascii) : Ascii.ascii :=
  let n := Ascii.nat_of_ascii a in
  if ((65 <=? n) && (n <=? 90))%nat then Ascii.ascii_of_nat (n + 32)%nat else a.

Fixpoint fold_ident (s : string) : string :=
  match s with EmptyString => EmptyString | String a rest => String (fold_byte a) (fold_ident rest) end.

Definition column_names : list (string * column) :=
  [("id", ColId); ("user_id", ColUserId); ("message", ColMessage);
   ("reminder_time", ColReminderTime); ("created_at", ColCreatedAt); ("status", ColStatus);
   ("priority", ColPriority); ("recurrence_type", ColRecurrenceType);
   ("recurrence_interval", ColRecurrenceInterval);
   ("recurrence_end_date", ColRecurrenceEndDate);
   ("parent_reminder_id", ColParentReminderId)]%string.

(** The column a [SET {key} = ?] clause names; [None] is sqlite's
    [no such column]. *)
Definition column_of (key : string) : option column :=
  option_map snd (List.find (fun nc => String.eqb (fold_ident key) (fst nc)) column_names).

Definition status_of_text (s : string) : option status :=
  if String.eqb s "pending" then Some Pending
  else if String.eqb s "completed" then Some Completed
  else if String.eqb s "cancelled" then Some Cancelled
  else None.

(** [SET key = ?] on one row. [None] is a [sqlite3.Error]: no such column,
    or the [CHECK] on [status] failing. [created_at] is not read anywhere and
    is not part of [row]. The [INTEGER] columns are given [int] values and
    the [TIMESTAMP] columns [datetime] values: SQLite would keep another
    value there as one of a type the code never reads back from them (text
    in [user_id], an [int] in [reminder_time], ...), which [row] does not
    represent; those calls, like a key naming the hidden [rowid], are
    outside this model (no caller of [update_reminder] makes one). *)
Definition set_field (r : row) (key : string) (v : value) : option row :=
  match column_of key with
  | None => None
  | Some c =>
      match c with
      | ColId =>
          Some (mkrow (bound_text v) (r_user r) (r_message r) (r_time r) (r_status r) (r_priority r)
                      (r_rtype r) (r_rint r) (r_end r) (r_parent r))
      | ColMessage =>
          Some (mkrow (r_id r) (r_user r) (bound_text v) (r_time r) (r_status r) (r_priority r)
                      (r_rtype r) (r_rint r) (r_end r) (r_parent r))
      | ColStatus =>
          match status_of_text (bound_text v) with
          | Some st =>
              Some (mkrow (r_id r) (r_user r) (r_message r) (r_time r) st (r_priority r)
                          (r_rtype r) (r_rint r) (r_end r) (r_parent r))
          | None => None
          end
      | ColPriority =>
          Some (mkrow (r_id r) (r_user r) (r_message r) (r_time r) (r_status r) (bound_text v)
                      (r_rtype r) (r_rint r) (r_end r) (r_parent r))
      | ColRecurrenceType =>
          Some (mkrow (r_id r) (r_user r) (r_message r) (r_time r) (r_status r) (r_priority r)
                      (Some (bound_text v)) (r_rint r) (r_end r) (r_parent r))
      | ColParentReminderId =>
          Some (mkrow (r_id r) (r_user r) (r_message r) (r_time r) (r_status r) (r_priority r)
                      (r_rtype r) (r_rint r) (r_end r) (Some (bound_text v)))
      | ColCreatedAt => Some r
      | ColUserId =>
          match v with
          | VInt n => Some (mkrow (r_id r) n (r_message r) (r_time r) (r_status r) (r_priority r)
                                  (r_rtype r) (r_rint r) (r_end r) (r_parent r))
          | _ => None
          end
      | ColRecurrenceInterval =>
          match v with
          | VInt n => Some (mkrow (r_id r) (r_user r) (r_message r) (r_time r) (r_status r)
                                  (r_priority r) (r_rtype r) (Some n) (r_end r) (r_parent r))
          | _ => None
          end
      | ColReminderTime =>
          match v with
          | VTime t => Some (mkrow (r_id r) (r_user r) (r_message r) t (r_status r) (r_priority r)
                                   (r_rtype r) (r_rint r) (r_end r) (r_parent r))
          | _ => None
          end
      | ColRecurrenceEndDate =>
          match v with
          | VTime t => Some (mkrow (r_id r) (r_user r) (r_message r) (r_time r) (r_status r)
                                   (r_priority r) (r_rtype r) (r_rint r) (Some t) (r_parent r))
          | _ => None
          end
      end
  end.

(** Of two assignments to the same column, SQLite keeps the rightmost; a
    key naming no column is kept, to fail. *)
Fixpoint effective (cl : list (string * value)) : list (string * value) :=
  match cl with
  | [] => []
  | (k, v) :: rest =>
      if existsb (fun kv => match column_of k, column_of (fst kv) with
                            | Some c, Some c' => if decide (c = c') then true else false
                            | _, _ => false
                            end) rest
      then effective rest else (k, v) :: effective rest
  end.

Fixpoint set_fields (r : row) (cl : list (string * value)) : option row :=
  match cl with
  | [] => Some r
  | (k, v) :: rest => match set_field r k v with Some r' => set_fields r' rest | None => None end
  end.

(** The [(key, value)] pairs kept by the [if value is not None] filter. *)
Fixpoint set_clauses (updates : list (string * option value)) : list (string * value) :=
  match updates with
  | [] => []
  | (k, Some v) :: rest => (k, v) :: set_clauses rest
  | (_, None) :: rest => set_clauses rest
  end.

(** The [UPDATE] over the rows: each selected row gets the assignments and
    must pass the [CHECK]s, and a new [id] must not be the [id] of another
    row ([PRIMARY KEY]; [ids] are the ids before the update). Returns the
    rows, the owners ([NEW.user_id]) whose count the [AFTER UPDATE] trigger
    decrements for each row leaving [pending], and the row count. *)
Fixpoint apply_update (sel : row -> bool) (cl : list (string * value)) (ids : list string)
    (rs : list row) : option (list row * list Z * nat) :=
  match rs with
  | [] => Some ([], [], 0%nat)
  | r :: rest =>
      match apply_update sel cl ids rest with
      | None => None
      | Some (rest', dec, n) =>
          if sel r then
            match set_fields r (effective cl) with
            | Some r' =>
                if row_checks r' &&
                   (String.eqb (r_id r') (r_id r) || negb (existsb (String.eqb (r_id r')) ids))
                then Some (r' :: rest',
                           (if status_eqb (r_status r') Pending then dec else r_user r' :: dec),
                           S n)
                else None
            | None => None
            end
          else Some (r :: rest', dec, n)
      end
  end.

Definition update_reminder (reminder_id : string) (user_id : option Z)
    (updates : list (string * option value)) : M bool :=
  match updates with
  | [] => mret false
  | _ =>
      match set_clauses updates with
      | [] => mret false
      | cl =>
          w ← get;
          let d := w_db w in
          match apply_update (pending_sel reminder_id user_id) cl (map r_id (rows d)) (rows d) with
          | Some (rs', dec, n) =>
              let us' := fold_right (fun u us => bump_count u (-1) us) (users d) dec in
              if users_checks us' then modify (set_db (mkdb us' rs')) ;; mret (Nat.ltb 0 n)
              else mthrow DatabaseError
          | None => mthrow DatabaseError
          end
      end
  end.

(** A record of [get_all_pending_reminders]: no chat id, no end date. *)
Record pending := mkpending {
  p_id : string; p_user : Z; p_message : string; p_time : datetime;
  p_timezone : option string; p_priority : string;
  p_rtype : option string; p_rint : option Z
}.

Fixpoint insert_by_time (p : pending) (l : list pending) : list pending :=
  match l with
  | [] => [p]
  | q :: rest => if local_seconds (p_time q) <=? local_seconds (p_time p)
                 then q :: insert_by_time p rest else p :: l
  end.

(** [SELECT ... FROM reminders r JOIN users u ... WHERE r.status = 'pending'
    ORDER BY r.reminder_time ASC]. *)
Definition get_all_pending_reminders : M (list pending) :=
  w ← get;
  let d := w_db w in
  let joined :=
    flat_map (fun r =>
      if status_eqb (r_status r) Pending then
        match find_user (r_user r) (users d) with
        | Some u => [mkpending (r_id r) (r_user r) (r_message r) (r_time r) (u_tz u)
                               (r_priority r) (r_rtype r) (r_rint r)]
        | None => []
        end
      else []) (rows d) in
  mret (fold_right insert_by_time [] joined).

(** Ordering of two datetimes the way Python compares them. *)
Definition dt_le (a b : datetime) : M bool :=
  match dt_offset a, dt_offset b with
  | Some _, Some _ => mret (to_utc a <=? to_utc b)
  | None, None => mret (local_seconds a <=? local_seconds b)
  | _, _ => mthrow TypeError
  end.

Definition should_create_next_occurrence (reminder_id : string) (next_time : datetime) : M bool :=
  w ← get;
  match find_row reminder_id (rows (w_db w)) with
  | None => mret true
  | Some r => match r_end r with None => mret true | Some e => dt_le next_time e end
  end.

(* ------------------------------------------------------------------ *)
(** ** Scheduler *)

(** The zones [pytz.timezone] knows in this development. *)
Definition tz_database (name : string) : option zone :=
  if String.eqb name "America/New_York" then Some new_york_2024
  else if String.eqb name "UTC" then Some (mkzone 0 0 0 0)
  else None.

(** [pytz.timezone(name)]; an unknown name, or [None], raises. *)
Definition pytz_timezone (name : option string) : M zone :=
  match name with
  | Some n => match tz_database n with Some z => mret z | None => mthrow UnknownTimeZoneError end
  | None => mthrow UnknownTimeZoneError
  end.

Definition schedule_reminder (chat_id user_id : Z) (reminder_id : string) (reminder_time : datetime)
    (message priority : string) (recurrence_type : option string)
    (recurrence_interval : option Z) : M unit :=
  reminder_time ←
    (match dt_offset reminder_time with
     | None => tz ← get_user_timezone user_id; z ← pytz_timezone tz; mret (localize z reminder_time)
     | Some _ => mret reminder_time
     end);
  w ← get;
  let now_utc := w_now w in
  let reminder_time_utc := to_utc reminder_time in
  let delay := reminder_time_utc - now_utc in
  if 0 <? delay then
    let h := w_handle w in
    let args := mkargs chat_id user_id reminder_id message priority
                       recurrence_type recurrence_interval reminder_time in
    modify (set_active (<[reminder_id := mkentry h reminder_time user_id chat_id message priority
                                          recurrence_type recurrence_interval]> (w_active w))) ;;
    w ← get;
    modify (set_timers (mktimer h (now_utc + delay) args :: w_timers w) (S h))
  else mret tt.

(** [Timer.cancel()]: the timer thread will not run its function. *)
Definition cancel_timer (h : nat) : M unit :=
  w ← get;
  modify (set_timers (List.filter (fun t => negb (Nat.eqb (t_handle t) h)) (w_timers w)) (w_handle w)).

Definition del_active (reminder_id : string) : M unit :=
  w ← get; modify (set_active (delete reminder_id (w_active w))).

(** [calculate_next_occurrence] as its callers see it: [timedelta(days=None)]
    and [month + None] raise [TypeError]; the [None] it returns for an
    unknown unit (excluded by the [CHECK] on [recurrence_type]) is taken as a
    [TypeError] of the caller. *)
Definition next_occurrence (last_time : datetime) (recurrence_type : string)
    (recurrence_interval : option Z) : M datetime :=
  match recurrence_interval with
  | None => mthrow TypeError
  | Some n =>
      match calculate_next_occurrence last_time recurrence_type n with
      | NextTime t => mret t
      | NoneReturned => mthrow TypeError
      | NextValueError => mthrow ValueError
      | NextOverflowError => mthrow OverflowError
      end
  end.

(** Python truthiness of [recurrence_type]. *)
Definition truthy_str (s : option string) : option string :=
  match s with Some x => if String.eqb x "" then None else Some x | None => None end.

Definition send_reminder (a : send_args) : M unit :=
  let reminder_id := a_id a in
  try_except
    (send_message (a_chat a) (ReminderText (a_priority a) (a_message a)) ;;
     del_active reminder_id ;;
     match truthy_str (a_rtype a) with
     | Some rt =>
         next_time ← next_occurrence (a_last a) rt (a_rint a);
         ok ← should_create_next_occurrence reminder_id next_time;
         if negb ok then (mark_reminder_complete reminder_id ;; mret tt)
         else
           next_reminder_id ← fresh_id;
           try_except
             (save_reminder (a_user a) next_reminder_id (a_message a) next_time
                (a_priority a) (a_rtype a) (a_rint a) (Some reminder_id) ;;
              schedule_reminder (a_chat a) (a_user a) next_reminder_id next_time
                (a_message a) (a_priority a) (a_rtype a) (a_rint a))
             (fun _ => send_message (a_chat a) NextOccurrenceWarning) ;;
           mark_reminder_complete reminder_id ;; mret tt
     | None => mark_reminder_complete reminder_id ;; mret tt
     end)
    (fun _ => del_active reminder_id).

Definition find_timer (h : nat) (ts : list timer) : option timer :=
  List.find (fun t => Nat.eqb (t_handle t) h) ts.

(** The timer thread with handle [h] runs: it is no longer live and calls
    [send_reminder] with its bound arguments. *)
Definition fire_timer (h : nat) : M unit :=
  w ← get;
  match find_timer h (w_timers w) with
  | None => mret tt
  | Some t => cancel_timer h ;; send_reminder (t_args t)
  end.

Definition reschedule_reminder (reminder_id : string) (new_time : option datetime) : M bool :=
  w ← get;
  match w_active w !! reminder_id with
  | None => mret false
  | Some e =>
      cancel_timer (e_timer e) ;;
      let scheduled_time := match new_time with Some t => t | None => e_scheduled e end in
      schedule_reminder (e_chat e) (e_user e) reminder_id scheduled_time (e_message e)
        (e_priority e) (e_rtype e) (e_rint e) ;;
      mret true
  end.

(* ------------------------------------------------------------------ *)
(** ** Recovery sweep ([handle_missed_reminders]) *)

(** The body of the [for reminder in reminders] loop. *)
Definition handle_one (now : Z) (p : pending) : M unit :=
  reminder_time ←
    (match dt_offset (p_time p) with
     | None => z ← pytz_timezone (p_timezone p); mret (localize z (p_time p))
     | Some _ => mret (p_time p)
     end);
  let reminder_time_utc := to_utc reminder_time in
  if reminder_time_utc <? now then
    send_message (p_user p) (MissedText reminder_time (p_message p)) ;;
    (match truthy_str (p_rtype p) with
     | Some rt =>
         next_time ← next_occurrence reminder_time rt (p_rint p);
         if now <? to_utc next_time then
           (should_create_next_occurrence (p_id p) next_time ≫= fun (ok : bool) =>
            if ok then
              (next_reminder_id ← fresh_id;
               save_reminder (p_user p) next_reminder_id (p_message p) next_time
                 (p_priority p) (p_rtype p) (p_rint p) (Some (p_id p)) ;;
               schedule_reminder (p_user p) (p_user p) next_reminder_id next_time
                 (p_message p) (p_priority p) (p_rtype p) (p_rint p))
            else mret tt)
         else mret tt
     | None => mret tt
     end) ;;
    mark_reminder_complete (p_id p) ;; mret tt
  else
    schedule_reminder (p_user p) (p_user p) (p_id p) reminder_time (p_message p)
      (p_priority p) (p_rtype p) (p_rint p).

Fixpoint for_each {A} (f : A -> M unit) (l : list A) : M unit :=
  match l with [] => mret tt | x :: rest => f x ;; for_each f rest end.

Definition handle_missed_reminders : M unit :=
  w ← get;
  let now := w_now w in
  try_except
    (reminders ← get_all_pending_reminders; for_each (handle_one now) reminders)
    (fun _ => mret tt).

(* ------------------------------------------------------------------ *)
(** ** Chat handlers: [button_callback] and the [/cancel] command *)

Definition underscore : Ascii.ascii := Ascii.ascii_of_nat 95.

(** Python [s.split(sep)] for a one-character separator. *)
Fixpoint split_on (sep : Ascii.ascii) (s : string) : list string :=
  match s with
  | EmptyString => [EmptyString]
  | String c rest =>
      if Ascii.eqb c sep then EmptyString :: split_on sep rest
      else match split_on sep rest with
           | x :: xs => String c x :: xs
           | [] => [String c EmptyString]
           end
  end.

Definition drop (n : nat) (s : string) : string := String.substring n (String.length s - n) s.

Definition digit_value (c : Ascii.ascii) : option Z :=
  let n := Z.of_nat (Ascii.nat_of_ascii c) in
  if (48 <=? n) && (n <=? 57) then Some (n - 48) else None.

(** Python [int(s)] on a string of decimal digits ([ValueError] otherwise). *)
Fixpoint digits_acc (acc : Z) (s : string) : option Z :=
  match s with
  | EmptyString => Some acc
  | String c rest => match digit_value c with
                     | Some d => digits_acc (acc * 10 + d) rest
                     | None => None
                     end
  end.

Definition py_int (s : string) : M Z :=
  match s with
  | EmptyString => mthrow ValueError
  | _ => match digits_acc 0 s with Some n => mret n | None => mthrow ValueError end
  end.

Definition set_user_timezone (user_id : Z) (tz : string) : M unit :=
  w ← get;
  let d := w_db w in
  let us :=
    match find_user user_id (users d) with
    | Some _ => map (fun u => if Z.eqb (u_id u) user_id
                              then mkuser (u_id u) (Some tz) (u_max u) (u_count u) else u) (users d)
    | None => users d ++ [mkuser user_id (Some tz) 50 0]
    end in
  modify (set_db (mkdb us (rows d))).

(** [button_callback], for a query with data [data] sent from chat
    [chat_id] by user [from_user]. The [edit_*] sub-branches after
    [edit_] are shadowed by it, and the per-user edit state it writes is
    not modelled. *)
Definition button_callback (chat_id from_user : Z) (data : string) : M unit :=
  if String.prefix "tz_" data then
    set_user_timezone from_user (drop 3 data) ;; reply_text (ReplyTimezoneSet (drop 3 data))
  else if String.prefix "edit_" data then
    reminder ← get_reminder_by_id (drop 5 data) None;
    match reminder with
    | None => reply_text ReplyNotFound
    | Some _ => reply_text ReplyOther
    end
  else if String.prefix "set_recur_" data then
    match split_on underscore data with
    | [_; reminder_id; rec_type; interval] =>
        (if String.eqb rec_type "none" then
             update_reminder reminder_id None
               [("recurrence_type", None); ("recurrence_interval", None)]
           else
             n ← py_int interval;
             update_reminder reminder_id None
               [("recurrence_type", Some (VStr rec_type)); ("recurrence_interval", Some (VInt n))])
          ≫= fun (success : bool) =>
        if success then
          (reminder ← get_reminder_by_id reminder_id None;
          (match reminder with
           | Some r =>
               (if String.eqb rec_type "none" then mret None
                else n ← py_int interval; mret (Some n)) ≫= fun rint =>
               schedule_reminder chat_id from_user reminder_id (r_time r) (r_message r)
                 (r_priority r) (if String.eqb rec_type "none" then None else Some rec_type) rint
           | None => mret tt
           end) ;;
          reply_text ReplyRecurrenceUpdated)
        else reply_text ReplyUpdateFailed
    | _ => mthrow ValueError     (** unpacking into four names *)
    end
  else if String.prefix "set_prio_" data then
    match split_on underscore data with
    | [_; reminder_id; priority] =>
        update_reminder reminder_id None [("priority", Some (VStr priority))]
          ≫= fun (success : bool) =>
        if success then reply_text (ReplyPriorityUpdated priority) else reply_text ReplyUpdateFailed
    | _ => mthrow ValueError     (** unpacking into three names *)
    end
  else if String.prefix "cancel_" data then
    let reminder_id := drop 7 data in
    delete_reminder reminder_id None ≫= fun (deleted : bool) =>
    if deleted then
      (w ← get;
       match w_active w !! reminder_id with
       | Some _ => mthrow AttributeError   (** [active_reminders[reminder_id].cancel()] on a dict *)
       | None => reply_text (ReplyCancelled reminder_id)
       end)
    else reply_text ReplyNotFound
  else mret tt.

(** The [/cancel <id>] command ([cancel_reminder]). *)
Definition cancel_reminder (args : list string) : M unit :=
  match args with
  | [] => reply_text ReplyOther
  | reminder_id :: _ =>
      delete_reminder reminder_id None ≫= fun (deleted : bool) =>
      if deleted then reply_text (ReplyCancelled reminder_id) else reply_text ReplyNotFound
  end.

(* ------------------------------------------------------------------ *)
(** ** Concrete states used by the examples *)

Definition alice : user := mkuser 42 (Some "America/New_York"%string) 50 1.

(** A daily reminder due 2024-03-09 09:00 New York time. *)
Definition daily_row : row :=
  mkrow "abcd1234" 42 "Call mom" nine_am_0309 Pending "medium"
        (Some "day"%string) (Some 1) None None.

Definition db1 : db := mkdb [alice] [daily_row].

(** Process state at UTC instant [now] over store [d], nothing armed. *)
Definition boot (d : db) (now : Z) : world :=
  mkworld d ∅ [] 0%nat now true [] [] ["e5f6a7b8"; "c9d0e1f2"; "a3b4c5d6"]%string.

(** 2024-03-08 12:00 UTC: the daily reminder is still in the future. *)
Definition before_due : Z := 1709899200.
(** 2024-03-12 12:00 UTC: three days after it was due. *)
Definition three_days_late : Z := 1710244800.

(** 2024-03-09 15:00 UTC: the daily reminder is an hour late, its next
    occurrence (10 March 09:00) still ahead. *)
Definition one_hour_late : Z := 1709996400.

(* ------------------------------------------------------------------ *)
(** ** Observers used by the statements *)

(** New York wall clock of the occurrence after [t]. *)
Definition next_local (z : zone) (t : datetime) (unit : string) (n : Z) : option datetime :=
  match calculate_next_occurrence t unit n with
  | NextTime r => Some (local_in_zone z (to_utc r))
  | _ => None
  end.

(** Live timers bound to reminder id [rid]. *)
Definition armed_count (rid : string) (w : world) : nat :=
  length (List.filter (fun t => String.eqb (a_id (t_args t)) rid) (w_timers w)).

Definition row_status (rid : string) (w : world) : option status :=
  option_map r_status (find_row rid (rows (w_db w))).

Definition pending_children (rid : string) (w : world) : nat :=
  length (List.filter (fun r => status_eqb (r_status r) Pending &&
                                match r_parent r with Some p => String.eqb p rid | None => false end)
                      (rows (w_db w))).

Definition set_sink_ok (b : bool) (w : world) : world :=
  mkworld (w_db w) (w_active w) (w_timers w) (w_handle w) (w_now w) b
          (w_sent w) (w_replies w) (w_uuids w).

(** The state after the startup sweep, with the daily reminder armed. *)
Definition armed_world : world := snd (handle_missed_reminders (boot db1 before_due)).

(** The aware datetime [schedule_reminder] computes its delay from: the
    given one, or a naive one localized in the owner's time zone. *)
Definition resolved_time (w : world) (user_id : Z) (t : datetime) : option datetime :=
  match dt_offset t with
  | Some _ => Some t
  | None =>
      match find_user user_id (users (w_db w)) with
      | Some u => match u_tz u with
                  | Some n => option_map (fun z => localize z t) (tz_database n)
                  | None => None
                  end
      | None => None
      end
  end.

(* ------------------------------------------------------------------ *)
(** ** The store calls and the cached [reminder_count] *)

(** Migration 004 on a store created by migrations 001-003: the new columns
    get their [DEFAULT]s ([max_reminders] 50, [reminder_count] 0) in every
    existing [users] row; nothing counts the rows already pending. *)
Definition migrate_004 (d : db) : db :=
  mkdb (map (fun u => mkuser (u_id u) (u_tz u) 50 0) (users d)) (rows d).





Definition is_pending_of (uid : Z) (r : row) : bool :=
  Z.eqb (r_user r) uid && status_eqb (r_status r) Pending.

(** Number of pending rows of user [uid]. *)
Fixpoint pending_of (uid : Z) (rs : list row) : nat :=
  match rs with
  | [] => 0%nat
  | r :: rest => ((if is_pending_of uid r then 1 else 0) + pending_of uid rest)%nat
  end.

(** Every row belongs to a known user, and every user's [reminder_count]
    is the number of its pending rows. *)
Definition count_inv (d : db) : Prop :=
  Forall (fun r => Exists (fun u => u_id u = r_user r) (users d)) (rows d) /\
  Forall (fun u => u_count u = Z.of_nat (pending_of (u_id u) (rows d))) (users d).

(** Number of rows of user [uid] that a status update with selector [sel]
    moves out of [pending]. *)
Fixpoint changed_of (sel : row -> bool) (uid : Z) (rs : list row) : nat :=
  match rs with
  | [] => 0%nat
  | r :: rest =>
      ((if sel r && status_eqb (r_status r) Pending && Z.eqb (r_user r) uid then 1 else 0)
       + changed_of sel uid rest)%nat
  end.

(** The [users] rows after the [AFTER UPDATE] trigger ran for those rows. *)
Definition dec_users (sel : row -> bool) (rs : list row) (us : list user) : list user :=
  map (fun u => mkuser (u_id u) (u_tz u) (u_max u)
                       (u_count u - Z.of_nat (changed_of sel (u_id u) rs))) us.

(** A row after the status update. *)
Definition status_row (sel : row -> bool) (s : status) (r : row) : row :=
  if sel r && status_eqb (r_status r) Pending then set_status s r else r.

Definition pre_004 : db := mkdb [mkuser 42 (Some "America/New_York"%string) 0 0] [daily_row].


(** The part of a run visible outside the process: the messages sent and the
    timers started by [m] from [w] are new entries in front of the old ones,
    each message going to a chat in [P], each timer bound to a chat id equal
    to its user id, in [P]. *)
Definition fp_at (P : Z -> Prop) {A} (m : M A) (w : world) : Prop :=
  exists new_s new_t,
    w_sent (snd (m w)) = new_s ++ w_sent w /\ w_timers (snd (m w)) = new_t ++ w_timers w /\
    Forall (fun s => P (fst s)) new_s /\
    Forall (fun t => a_chat (t_args t) = a_user (t_args t) /\ P (a_user (t_args t))) new_t.

Definition footprint (P : Z -> Prop) {A} (m : M A) : Prop := forall w, fp_at P m w.


(** The aware datetime the sweep computes for a pending record. *)
Definition pending_instant (p : pending) : option datetime :=
  match dt_offset (p_time p) with
  | Some _ => Some (p_time p)
  | None =>
      match p_timezone p with
      | Some n => option_map (fun z => localize z (p_time p)) (tz_database n)
      | None => None
      end
  end.

(** The record [get_all_pending_reminders] returns for [daily_row]. *)
Definition p_daily : pending :=
  mkpending "abcd1234" 42 "Call mom" nine_am_0309 (Some "America/New_York"%string) "medium"
            (Some "day"%string) (Some 1).

(* ------------------------------------------------------------------ *)
(** ** [get_user_reminders] *)

(** A dict of [get_user_reminders]; [datetime.fromisoformat] gives back
    the value stored by [isoformat()]. *)
Record user_reminder := mkur {
  ur_id : string; ur_message : string; ur_time : datetime; ur_status : status;
  ur_priority : string; ur_rtype : option string; ur_rint : option Z
}.

Definition to_user_reminder (r : row) : user_reminder :=
  mkur (r_id r) (r_message r) (r_time r) (r_status r) (r_priority r) (r_rtype r) (r_rint r).

Fixpoint insert_by_reminder_time (x : user_reminder) (l : list user_reminder)
    : list user_reminder :=
  match l with
  | [] => [x]
  | q :: rest => if local_seconds (ur_time q) <=? local_seconds (ur_time x)
                 then q :: insert_by_reminder_time x rest else x :: l
  end.

(** [SELECT ... FROM reminders WHERE user_id = ? AND status = 'pending'
    ORDER BY reminder_time ASC]: the [isoformat()] strings compare as their
    local date and time. *)
Definition get_user_reminders (user_id : Z) : M (list user_reminder) :=
  w ← get;
  mret (fold_right insert_by_reminder_time []
          (map to_user_reminder (List.filter (is_pending_of user_id) (rows (w_db w))))).





(** Reminder ids in the shape [str(uuid.uuid4())[:8]] gives them: no [_]. *)
Definition no_underscore_ids (d : db) : bool :=
  forallb (fun r => match String.index 0 "_" (r_id r) with None => true | Some _ => false end)
          (rows d).

(** The entry [schedule_reminder] stored for [daily_row] in [armed_world]. *)
Definition armed_entry : entry :=
  mkentry 0 nine_am_0309 42 42 "Call mom" "medium" (Some "day"%string) (Some 1).

(* ------------------------------------------------------------------ *)
(** ** Quick time buttons: [QUICK_TIMES] and [process_quick_time] *)

(** [QUICK_TIMES]: the keys and the labels of the reply keyboard. *)
Definition QUICK_TIMES : list (string * string) :=
  [("in_1_hour", "⏰ In 1 hour");
   ("in_2_hours", "⏰ In 2 hours");
   ("tonight", "🌙 Tonight (8 PM)");
   ("tomorrow_morning", "🌅 Tomorrow Morning (9 AM)");
   ("tomorrow_afternoon", "☀️ Tomorrow Afternoon (2 PM)");
   ("this_weekend", "🎉 This Weekend")]%string.

(** [QUICK_TIMES[key]]; every key the code looks up is present, so the
    [KeyError] branch is never taken. *)
Definition quick_time (key : string) : string :=
  match List.find (fun kv => String.eqb (fst kv) key) QUICK_TIMES with
  | Some (_, v) => v
  | None => EmptyString
  end.

(** [datetime.time] and [datetime.date] values. *)
Record time_of_day := mktime { tm_hour : Z; tm_minute : Z; tm_second : Z }.
Record date := mkdate { d_year : Z; d_month : Z; d_day : Z }.

(** [t.time()] and [t.date()]. *)
Definition time_part (t : datetime) : time_of_day := mktime (dt_hour t) (dt_minute t) (dt_second t).
Definition date_part (t : datetime) : date := mkdate (dt_year t) (dt_month t) (dt_day t).

(** [d.toordinal()] (1 for 0001-01-01, 719163 for 1970-01-01) and
    [d.weekday()] as CPython computes it: [(toordinal + 6) % 7], Monday 0. *)
Definition toordinal (d : date) : Z := days_from_civil (d_year d) (d_month d) (d_day d) + 719163.
Definition weekday (d : date) : Z := (toordinal d + 6) mod 7.

(** The returned dict [{'time': ..., 'date': ...}]. *)
Record quick_result := mkquick { qr_time : time_of_day; qr_date : date }.

Definition process_quick_time (text : string) (user_timezone : zone) : M (option quick_result) :=
  w ← get;
  let now := local_in_zone user_timezone (w_now w) in
  if String.eqb text (quick_time "in_1_hour") then
    mret (Some (mkquick (time_part (add_seconds now 3600)) (date_part now)))
  else if String.eqb text (quick_time "in_2_hours") then
    mret (Some (mkquick (time_part (add_seconds now (2 * 3600))) (date_part now)))
  else if String.eqb text (quick_time "tonight") then
    (* [datetime.strptime('8:00PM', '%I:%M%p').time()] *)
    mret (Some (mkquick (mktime 20 0 0) (date_part now)))
  else if String.eqb text (quick_time "tomorrow_morning") then
    (* [datetime.strptime('9:00AM', '%I:%M%p').time()] *)
    mret (Some (mkquick (mktime 9 0 0) (date_part (add_seconds now 86400))))
  else if String.eqb text (quick_time "tomorrow_afternoon") then
    (* [datetime.strptime('2:00PM', '%I:%M%p').time()] *)
    mret (Some (mkquick (mktime 14 0 0) (date_part (add_seconds now 86400))))
  else if String.eqb text (quick_time "this_weekend") then
    let days_until_saturday := (5 - weekday (date_part now)) mod 7 in
    (* [datetime.strptime('10:00AM', '%I:%M%p').time()] *)
    mret (Some (mkquick (mktime 10 0 0) (date_part (add_seconds now (days_until_saturday * 86400)))))
  else mret None.

(** The wall-clock instant, in local seconds, of a date at a time of day. *)
Definition wall_seconds (d : date) (t : time_of_day) : Z :=
  days_from_civil (d_year d) (d_month d) (d_day d) * 86400
  + tm_hour t * 3600 + tm_minute t * 60 + tm_second t.

(* ------------------------------------------------------------------ *)
(** ** [parse_reminder] *)

(** Text is held as its UTF-8 bytes. [str.isspace] is true of the ASCII
    characters 9-13 and 28-32 and of U+0085, U+00A0, U+1680, U+2000-U+200A,
    U+2028, U+2029, U+202F, U+205F and U+3000, whose encodings are the byte
    pairs and triples below. *)
Definition space1 (a : nat) : bool := (((9 <=? a) && (a <=? 13)) || ((28 <=? a) && (a <=? 32)))%nat.
Definition space2 (a b : nat) : bool := ((a =? 194) && ((b =? 133) || (b =? 160)))%nat.
Definition space3 (a b c : nat) : bool :=
  (((a =? 225) && (b =? 154) && (c =? 128))
   || ((a =? 226) && (b =? 128) && (((128 <=? c) && (c <=? 138)) || (c =? 168) || (c =? 169) || (c =? 175)))
   || ((a =? 226) && (b =? 129) && (c =? 159))
   || ((a =? 227) && (b =? 128) && (c =? 128)))%nat.

(** Leading whitespace characters removed ([str.lstrip]). *)
Fixpoint lstrip_bytes (s : list Ascii.ascii) : list Ascii.ascii :=
  match s with
  | [] => []
  | a :: rest =>
      if space1 (Ascii.nat_of_ascii a) then lstrip_bytes rest
      else match rest with
           | b :: rest2 =>
               if space2 (Ascii.nat_of_ascii a) (Ascii.nat_of_ascii b) then lstrip_bytes rest2
               else match rest2 with
                    | c :: rest3 =>
                        if space3 (Ascii.nat_of_ascii a) (Ascii.nat_of_ascii b) (Ascii.nat_of_ascii c)
                        then lstrip_bytes rest3 else s
                    | [] => s
                    end
           | [] => s
           end
  end.

(** The same on the reversed bytes: trailing whitespace characters, whose
    encodings end the string in reverse order. In valid UTF-8 a byte below
    128 is a whole character and the bytes 194, 225, 226, 227 only start one,
    so a matched suffix is a whole character. *)
Fixpoint rstrip_rev (s : list Ascii.ascii) : list Ascii.ascii :=
  match s with
  | [] => []
  | z :: rest =>
      if space1 (Ascii.nat_of_ascii z) then rstrip_rev rest
      else match rest with
           | y :: rest2 =>
               if space2 (Ascii.nat_of_ascii y) (Ascii.nat_of_ascii z) then rstrip_rev rest2
               else match rest2 with
                    | x :: rest3 =>
                        if space3 (Ascii.nat_of_ascii x) (Ascii.nat_of_ascii y) (Ascii.nat_of_ascii z)
                        then rstrip_rev rest3 else s
                    | [] => s
                    end
           | [] => s
           end
  end.

(** [s.strip()]. *)
Definition py_strip (s : string) : string :=
  String.string_of_list_ascii (rev (rstrip_rev (rev (lstrip_bytes (String.list_ascii_of_string s))))).

(** [s.lower()], as far as [startswith] with an ASCII key can see it: the
    bytes of [A]-[Z] become [a]-[z]. No other character lowers to one whose
    encoding starts with the letters of [date:] or [time:] ([İ] lowers to
    [i] and a combining dot, never followed by [m]). *)
Definition lower_byte (a : Ascii.ascii) : Ascii.ascii :=
  let n := Ascii.nat_of_ascii a in
  if ((65 <=? n) && (n <=? 90))%nat then Ascii.ascii_of_nat (n + 32)%nat else a.

Fixpoint lower (s : string) : string :=
  match s with EmptyString => EmptyString | String a rest => String (lower_byte a) (lower rest) end.

Definition newline : Ascii.ascii := Ascii.ascii_of_nat 10.
Definition space : Ascii.ascii := Ascii.ascii_of_nat 32.

(** Python truthiness of [dict.get]: a present, non-empty string. *)
Definition truthy (o : option string) : bool :=
  match o with Some (String _ _) => true | _ => false end.

(** [re.search(key + r'\s*(.+)', line, re.IGNORECASE).group(1).strip()]
    on a line without newline that starts with [key] (up to case): the
    search can only match at position 0, and does so when one character
    follows [key]; [\s*] takes the leading whitespace (giving one character
    back when nothing else is left), which [.strip()] removes. Without a
    match, [.group] is looked up on [None]: [AttributeError]. *)
Definition key_value (key line : string) : outcome string :=
  match drop (String.length key) line with
  | EmptyString => Raise AttributeError
  | rest => Ret (py_strip rest)
  end.

(** [current_reminder]: the keys ['date'], ['time'] and ['message'] it
    may hold; [dict(current_reminder)] is a copy of them. *)
Record parsed := mkparsed { pr_date : option string; pr_time : option string; pr_message : option string }.

Definition empty_parsed : parsed := mkparsed None None None.

(** The [if current_reminder.get('time') and current_reminder.get('message')]
    block: append a copy, then [clear()]. *)
Definition flush (reminders : list parsed) (cur : parsed) : list parsed * parsed :=
  if truthy (pr_time cur) && truthy (pr_message cur) then (reminders ++ [cur], empty_parsed)
  else (reminders, cur).

Definition parse_line (st : list parsed * parsed) (line : string) : outcome (list parsed * parsed) :=
  let '(reminders, cur) := st in
  let lower_line := lower line in
  if String.prefix "date:" lower_line then
    let '(reminders, cur) := flush reminders cur in
    match key_value "date:" line with
    | Ret v => Ret (reminders, mkparsed (Some v) (pr_time cur) (pr_message cur))
    | Raise e => Raise e
    end
  else if String.prefix "time:" lower_line then
    let '(reminders, cur) := flush reminders cur in
    match key_value "time:" line with
    | Ret v => Ret (reminders, mkparsed (pr_date cur) (Some v) (pr_message cur))
    | Raise e => Raise e
    end
  else if truthy (pr_time cur) then
    let old := match pr_message cur with Some m => m | None => EmptyString end in
    Ret (reminders, mkparsed (pr_date cur) (pr_time cur) (Some (String.append old (String space line))))
  else Ret (reminders, cur).

Fixpoint parse_lines (st : list parsed * parsed) (lines : list string) : outcome (list parsed * parsed) :=
  match lines with
  | [] => Ret st
  | line :: rest =>
      match parse_line st line with
      | Ret st' => parse_lines st' rest
      | Raise e => Raise e
      end
  end.

(** [[line.strip() for line in text.split('\n') if line.strip()]] *)
Definition reminder_lines (text : string) : list string :=
  map py_strip (List.filter (fun l => truthy (Some (py_strip l))) (split_on newline text)).

Definition parse_reminder (text : string) : outcome (list parsed) :=
  match parse_lines ([], empty_parsed) (reminder_lines text) with
  | Ret (reminders, cur) => Ret (fst (flush reminders cur))
  | Raise e => Raise e
  end.

(* ------------------------------------------------------------------ *)
(** ** [ReminderParser.format_reminder_text] *)

(** [t.strftime('%I:%M%p')] in the C locale. *)
Definition strftime_I_M_p (t : time_of_day) : string :=
  let h := tm_hour t mod 12 in
  String.append (two_digits (if h =? 0 then 12 else h))
    (String ":" (String.append (two_digits (tm_minute t)) (if tm_hour t <? 12 then "AM" else "PM"))).

(** [d.strftime('%d/%m/%Y')]; glibc prints [%Y] without padding. *)
Definition strftime_d_m_Y (d : date) : string :=
  String.append (two_digits (d_day d))
    (String "/" (String.append (two_digits (d_month d)) (String "/" (py_str_int (d_year d))))).

Definition date_eqb (a b : date) : bool :=
  (d_year a =? d_year b) && (d_month a =? d_month b) && (d_day a =? d_day b).

(** The dict [parse_natural_time] returns; [recurrence_interval] is only
    read when [recurrence_type] is set, and is an [int] then. *)
Record nl_parsed := mknl {
  nl_time : time_of_day; nl_date : date;
  nl_recurrence_type : option string; nl_recurrence_interval : Z;
  nl_priority : string; nl_message : string }.

Definition line (s : string) : string := String.append s (String newline EmptyString).

(** [today] is [datetime.now().date()], the server's local date. *)
Definition format_reminder_text (today : date) (parsed : nl_parsed) : string :=
  let reminder_text := line "reminder" in
  let reminder_text :=
    if negb (String.eqb (nl_priority parsed) "medium")
    then String.append reminder_text (line (String.append "priority: " (nl_priority parsed)))
    else reminder_text in
  let reminder_text :=
    if negb (date_eqb (nl_date parsed) today)
    then String.append reminder_text (line (String.append "date: " (strftime_d_m_Y (nl_date parsed))))
    else reminder_text in
  let reminder_text :=
    String.append reminder_text (line (String.append "time: " (lower (strftime_I_M_p (nl_time parsed))))) in
  let reminder_text :=
    match nl_recurrence_type parsed with
    | Some rt =>
        if truthy (Some rt)
        then String.append reminder_text
               (line (String.append "repeat: every "
                        (String.append (py_str_int (nl_recurrence_interval parsed))
                           (String " " (String.append rt "(s)")))))
        else reminder_text
    | None => reminder_text
    end in
  String.append reminder_text (nl_message parsed).

(* ------------------------------------------------------------------ *)
(** ** Auxiliary notions used by the properties *)

(** What a saved reminder looks like: a non-empty time, and a message made
    of [' ' + line] pieces. *)
Definition saved_ok (r : parsed) : Prop :=
  truthy (pr_time r) = true /\ exists m, pr_message r = Some (String space m).

Definition message_ok (cur : parsed) : Prop :=
  pr_message cur = None \/ exists m, pr_message cur = Some (String space m).

Definition time_lines (lines : list string) : nat :=
  length (List.filter (fun l => String.prefix "time:" (lower l)) lines).

Definition pending_count (st : list parsed * parsed) : nat :=
  (length (fst st) + (if truthy (pr_time (snd st)) then 1 else 0))%nat.

Definition parse_inv (st : list parsed * parsed) : Prop :=
  Forall saved_ok (fst st) /\ message_ok (snd st).

Definition bytes (s : string) : list Ascii.ascii := String.list_ascii_of_string s.

Definition no_newline (s : string) : bool :=
  forallb (fun c => negb (Ascii.eqb c newline)) (bytes s).

(** Printable ASCII other than space. *)
Definition safe_byte (c : Ascii.ascii) : bool :=
  let n := Ascii.nat_of_ascii c in ((33 <=? n) && (n <=? 126))%nat.

Definition all_safe (s : string) : bool := forallb safe_byte (bytes s).

Definition first_ok (s : string) : bool :=
  match s with String c _ => safe_byte c | EmptyString => false end.

Definition last_ok (s : string) : bool :=
  match rev (bytes s) with c :: _ => safe_byte c | [] => false end.

(** Lines joined with newlines, the last one without. *)
Fixpoint join (ls : list string) (last : string) : string :=
  match ls with [] => last | x :: xs => String.append x (String newline (join xs last)) end.

Definition line_ok (x : string) : Prop := no_newline x = true /\ py_strip x = x /\ x <> EmptyString.

(** The text as [format_reminder_text] lays it out: its lines, then the message. *)
Definition format_lines (today : date) (parsed : nl_parsed) : list string :=
  ["reminder"%string] ++
  (if negb (String.eqb (nl_priority parsed) "medium")
   then [String.append "priority: " (nl_priority parsed)] else []) ++
  (if negb (date_eqb (nl_date parsed) today)
   then [String.append "date: " (strftime_d_m_Y (nl_date parsed))] else []) ++
  [String.append "time: " (lower (strftime_I_M_p (nl_time parsed)))] ++
  (match nl_recurrence_type parsed with
   | Some rt =>
       if truthy (Some rt)
       then [String.append "repeat: every "
               (String.append (py_str_int (nl_recurrence_interval parsed))
                  (String " " (String.append rt "(s)")))]
       else []
   | None => []
   end).

(* ================================================================== *)
(** * Properties *)

(** Unfold the state-and-exception monad. *)
Ltac unfold_M :=
  unfold mbind, M_bind, mret, M_ret, mthrow, M_throw, get, modify in *; cbn in *.

(* ------------------------------------------------------------------ *)
(** ** Month arithmetic of [calculate_next_occurrence] *)

Lemma utcoffset_set_date (t : datetime) (y m d : Z) :
  utcoffset (set_date t y m d) = utcoffset t.
Proof. reflexivity. Qed.

Lemma month_roll (y m : Z) (yy mm : Z) :
  1 <= m ->
  (if 12 <? m then
     (if (m mod 12) =? 0 then (y + m / 12 - 1, 12) else (y + m / 12, m mod 12))
   else (y, m)) = (yy, mm) ->
  yy * 12 + mm = y * 12 + m /\ (m <= 12 -> mm = m).
Proof.
  intros Hm Hp.
  pose proof (Z.div_mod m 12 ltac:(lia)) as Hdm.
  pose proof (Z.mod_pos_bound m 12 ltac:(lia)) as Hb.
  destruct (12 <? m) eqn:Hlt.
  - apply Z.ltb_lt in Hlt.
    destruct ((m mod 12) =? 0) eqn:E0; injection Hp as <- <-.
    + apply Z.eqb_eq in E0. lia.
    + apply Z.eqb_neq in E0. lia.
  - apply Z.ltb_ge in Hlt. injection Hp as <- <-. lia.
Qed.
Lemma month_roll_range (y m : Z) (yy mm : Z) :
  1 <= m ->
  (if 12 <? m then
     (if (m mod 12) =? 0 then (y + m / 12 - 1, 12) else (y + m / 12, m mod 12))
   else (y, m)) = (yy, mm) ->
  1 <= mm <= 12 \/ m < 1.
Proof.
  intros Hm Hp.
  pose proof (Z.mod_pos_bound m 12 ltac:(lia)) as Hb.
  destruct (12 <? m) eqn:Hlt.
  - destruct ((m mod 12) =? 0) eqn:E0; injection Hp as <- <-.
    + lia.
    + apply Z.eqb_neq in E0. lia.
  - apply Z.ltb_ge in Hlt. injection Hp as <- <-. lia.
Qed.

(** Claim C3. For every datetime [t] (month 1..12, year from 1) and every
    positive interval [n], [calculate_next_occurrence t "month" n] moves
    [n] calendar months forward, carrying the year past December, keeps the
    time of day and the tzinfo, and takes as day of month the original day
    clamped to the length of the target month (31 January + 1 month is the
    last day of February, never March); the only proviso is that the target
    year is at most 9999, the largest year a Python [datetime] holds. *)
Theorem next_month_clamps_day (t : datetime) (n : Z) :
  1 <= dt_month t <= 12 -> 1 <= dt_year t -> 0 < n ->
  (dt_year t * 12 + dt_month t - 1 + n) / 12 <= 9999 ->
  exists r, calculate_next_occurrence t "month" n = NextTime r /\
    dt_year r * 12 + dt_month r = dt_year t * 12 + dt_month t + n /\
    1 <= dt_month r <= 12 /\
    dt_day r = Z.min (dt_day t) (days_in_month (dt_year r) (dt_month r)) /\
    dt_hour r = dt_hour t /\ dt_minute r = dt_minute t /\ dt_second r = dt_second t /\
    dt_offset r = dt_offset t.
Proof.
  intros Hm Hy Hn Hmax.
  unfold calculate_next_occurrence. simpl.
  destruct (if 12 <? dt_month t + n then _ else _) as [yy mm] eqn:Hp.
  destruct (month_roll (dt_year t) (dt_month t + n) yy mm ltac:(lia) Hp) as [Hsum _].
  destruct (month_roll_range (dt_year t) (dt_month t + n) yy mm ltac:(lia) Hp) as [Hmm | Hbad]; [| lia].
  assert (Hyy : yy = (dt_year t * 12 + dt_month t - 1 + n) / 12).
  { apply Z.div_unique with (r := mm - 1); lia. }
  assert (dt_year t <= (dt_year t * 12 + dt_month t - 1 + n) / 12).
  { apply Z.div_le_lower_bound; lia. }
  replace ((mm <? 1) || (12 <? mm) || (yy <? 1) || (9999 <? yy)) with false
    by (symmetry; repeat rewrite Bool.orb_false_iff; rewrite !Z.ltb_ge; lia).
  rewrite utcoffset_set_date, Z.eqb_refl. simpl.
  exists (set_date t yy mm (Z.min (dt_day t) (days_in_month yy mm))).
  destruct (dt_offset t) eqn:Ho; (split; [reflexivity|]); simpl; repeat split; try reflexivity; try assumption; lia.
Qed.


(** The claim's own example: 2024-01-31 09:00 New York + 1 month is
    2024-02-29 09:00 with the same tzinfo. *)
Lemma next_month_clamps_day_witness :
  calculate_next_occurrence (localize new_york_2024 (mkdt 2024 1 31 9 0 0 None)) "month" 1
  = NextTime (mkdt 2024 2 29 9 0 0 (Some (-18000))) /\
  exists r, calculate_next_occurrence (localize new_york_2024 (mkdt 2024 1 31 9 0 0 None)) "month" 1
              = NextTime r /\
    dt_year r * 12 + dt_month r = 2024 * 12 + 1 + 1 /\ 1 <= dt_month r <= 12 /\
    dt_day r = Z.min 31 (days_in_month (dt_year r) (dt_month r)) /\
    dt_hour r = 9 /\ dt_minute r = 0 /\ dt_second r = 0 /\ dt_offset r = Some (-18000).
Proof.
  split; [vm_compute; reflexivity|].
  apply (next_month_clamps_day (localize new_york_2024 (mkdt 2024 1 31 9 0 0 None)) 1);
    vm_compute; try discriminate; split; discriminate.
Defined.

(* ------------------------------------------------------------------ *)
(** ** Observations on concrete runs *)

(** Claim C2 (code defect). The day, week and month branches of
    [calculate_next_occurrence] keep the fixed UTC offset of the previous
    occurrence, and the month branch's offset comparison compares that
    offset with itself, so nothing re-localizes the result: a New York
    reminder at 09:00 EST before the March 2024 transition comes back at
    10:00 EDT after it (daily, weekly and monthly alike), and one at
    09:00 EDT before the November transition comes back at 08:00 EST. *)
Theorem recurrence_keeps_stale_offset :
  next_local new_york_2024 nine_am_0309 "day" 1 = Some (mkdt 2024 3 10 10 0 0 (Some (-14400))) /\
  next_local new_york_2024 (localize new_york_2024 (mkdt 2024 3 8 9 0 0 None)) "week" 1
    = Some (mkdt 2024 3 15 10 0 0 (Some (-14400))) /\
  next_local new_york_2024 (localize new_york_2024 (mkdt 2024 2 10 9 0 0 None)) "month" 1
    = Some (mkdt 2024 3 10 10 0 0 (Some (-14400))) /\
  next_local new_york_2024 (localize new_york_2024 (mkdt 2024 11 2 9 0 0 None)) "day" 1
    = Some (mkdt 2024 11 3 8 0 0 (Some (-18000))).
Proof. vm_compute. repeat split. Qed.

(** Claim C1 (code defect). [schedule_reminder] overwrites
    [active_reminders[reminder_id]] without cancelling the timer already
    stored there: a second startup sweep with no time passing arms the same
    future reminder a second time, both timers fire, the reminder is
    delivered twice and two successor rows are created. *)
Theorem rearm_keeps_previous_timer :
  armed_count "abcd1234" armed_world = 1%nat /\
  armed_count "abcd1234" (snd (handle_missed_reminders armed_world)) = 2%nat /\
  w_sent (snd ((handle_missed_reminders ;; fire_timer 0 ;; fire_timer 1) armed_world))
    = [(42, ReminderText "medium" "Call mom"); (42, ReminderText "medium" "Call mom")] /\
  pending_children "abcd1234" (snd ((handle_missed_reminders ;; fire_timer 0 ;; fire_timer 1) armed_world))
    = 2%nat.
Proof. vm_compute. repeat split. Qed.

(** Claim C6 (code defect). The cancel button marks the row cancelled and
    then calls [.cancel()] on the dict stored in [active_reminders], which
    raises [AttributeError]; the [/cancel] command never touches the timer.
    In both cases the timer stays live and, when it fires, the cancelled
    reminder is delivered. *)
Theorem cancel_leaves_timer_live :
  fst (button_callback 42 42 "cancel_abcd1234" armed_world) = Raise AttributeError /\
  row_status "abcd1234" (snd (button_callback 42 42 "cancel_abcd1234" armed_world)) = Some Cancelled /\
  armed_count "abcd1234" (snd (button_callback 42 42 "cancel_abcd1234" armed_world)) = 1%nat /\
  w_sent (snd (fire_timer 0 (snd (button_callback 42 42 "cancel_abcd1234" armed_world))))
    = [(42, ReminderText "medium" "Call mom")] /\
  row_status "abcd1234" (snd (cancel_reminder ["abcd1234"] armed_world)) = Some Cancelled /\
  armed_count "abcd1234" (snd (cancel_reminder ["abcd1234"] armed_world)) = 1%nat /\
  w_sent (snd ((cancel_reminder ["abcd1234"] ;; fire_timer 0) armed_world))
    = [(42, ReminderText "medium" "Call mom")].
Proof. vm_compute. repeat split. Qed.

(* ------------------------------------------------------------------ *)
(** ** [schedule_reminder] with a non-positive delay *)

(** Claim C4 (amended). When the computed delay [fire_time - now] is zero
    or negative, [schedule_reminder] does nothing at all: no timer is armed,
    no entry is stored, nothing is delivered and the store is untouched, so
    the reminder stays [pending] and unarmed. *)
Theorem schedule_nonpositive_delay_noop (chat_id user_id : Z) (reminder_id : string)
    (t t' : datetime) (message priority : string) (rtype : option string) (rint : option Z)
    (w : world) :
  resolved_time w user_id t = Some t' -> to_utc t' <= w_now w ->
  schedule_reminder chat_id user_id reminder_id t message priority rtype rint w = (Ret tt, w).
Proof.
  intros Hres Hle.
  unfold schedule_reminder, resolved_time in *.
  destruct (dt_offset t) as [o|] eqn:Ho.
  - injection Hres as <-. unfold_M.
    destruct (0 <? to_utc t - w_now w) eqn:E; [apply Z.ltb_lt in E; lia | reflexivity].
  - unfold get_user_timezone. unfold_M.
    destruct (find_user user_id (users (w_db w))) as [u|]; [|discriminate].
    destruct (u_tz u) as [n|]; [|discriminate].
    unfold pytz_timezone. destruct (tz_database n) as [z|]; [|discriminate].
    injection Hres as <-. unfold_M.
    destruct (0 <? to_utc (localize z t) - w_now w) eqn:E; [apply Z.ltb_lt in E; lia | reflexivity].
Qed.

Lemma schedule_nonpositive_delay_noop_witness :
  resolved_time (boot db1 (to_utc nine_am_0309)) 42 nine_am_0309 = Some nine_am_0309 /\
  schedule_reminder 42 42 "abcd1234" nine_am_0309 "Call mom" "medium" (Some "day"%string) (Some 1)
    (boot db1 (to_utc nine_am_0309)) = (Ret tt, boot db1 (to_utc nine_am_0309)).
Proof.
  split; [reflexivity|].
  apply (schedule_nonpositive_delay_noop 42 42 "abcd1234" nine_am_0309 nine_am_0309);
    [reflexivity | vm_compute; discriminate].
Defined.

(** Claim C4 does not hold: scheduling the daily reminder exactly at its
    due instant arms nothing and changes nothing; with no timer nothing
    will ever deliver it, and the row stays [pending]. *)
Lemma schedule_zero_delay_dropped :
  let w := boot db1 (to_utc nine_am_0309) in
  let w' := snd (schedule_reminder 42 42 "abcd1234" nine_am_0309 "Call mom" "medium"
                   (Some "day"%string) (Some 1) w) in
  armed_count "abcd1234" w' = 0%nat /\ w_sent w' = [] /\ row_status "abcd1234" w' = Some Pending.
Proof. vm_compute. repeat split. Qed.

(* ------------------------------------------------------------------ *)
(** ** [send_reminder] when delivery fails *)

(** Claim C7 (amended). When [context.bot.send_message] raises, the
    callback logs the error and only drops the in-memory entry: there is
    no retry, no delivery, no successor, and the store is untouched, so the
    reminder's row is left [pending] rather than marked completed. *)
Theorem send_failure_leaves_row_pending (a : send_args) (w : world) :
  w_sink_ok w = false ->
  send_reminder a w = (Ret tt, set_active (delete (a_id a) (w_active w)) w).
Proof.
  intros Hs. unfold send_reminder, try_except, send_message, del_active. unfold_M.
  rewrite Hs. reflexivity.
Qed.

Lemma send_failure_leaves_row_pending_witness :
  w_sink_ok (set_sink_ok false armed_world) = false /\
  send_reminder (mkargs 42 42 "abcd1234" "Call mom" "medium" (Some "day"%string) (Some 1) nine_am_0309)
    (set_sink_ok false armed_world)
  = (Ret tt, set_active (delete "abcd1234"%string (w_active (set_sink_ok false armed_world)))
                        (set_sink_ok false armed_world)).
Proof.
  split; [reflexivity|].
  apply (send_failure_leaves_row_pending
           (mkargs 42 42 "abcd1234" "Call mom" "medium" (Some "day"%string) (Some 1) nine_am_0309)).
  reflexivity.
Defined.

(** Claim C7 does not hold: with the chat transport failing, the armed
    daily reminder's timer fires, and after the callback its row is still
    [pending] and no successor exists. *)
Lemma send_failure_row_not_completed :
  let w' := snd (fire_timer 0 (set_sink_ok false armed_world)) in
  row_status "abcd1234" w' = Some Pending /\ pending_children "abcd1234" w' = 0%nat /\
  w_sent w' = [] /\ armed_count "abcd1234" w' = 0%nat.
Proof. vm_compute. repeat split. Qed.

(* ------------------------------------------------------------------ *)
(** ** [update_reminder] with only [None] values and the recurrence buttons *)

Lemma split_on_nonempty (sep : Ascii.ascii) (s : string) : split_on sep s <> [].
Proof.
  destruct s as [|c s]; simpl; [discriminate|].
  destruct (Ascii.eqb c sep); [discriminate|].
  destruct (split_on sep s); discriminate.
Qed.

Lemma split_on_app (sep : Ascii.ascii) (a b : string) :
  split_on sep (String.append a (String sep b)) = split_on sep a ++ split_on sep b.
Proof.
  induction a as [|c a IH]; simpl.
  - rewrite Ascii.eqb_refl. reflexivity.
  - rewrite IH. destruct (Ascii.eqb c sep); [reflexivity|].
    destruct (split_on sep a) as [|y ys] eqn:E; [exfalso; exact (split_on_nonempty sep a E)|].
    reflexivity.
Qed.

Lemma set_clauses_all_none (updates : list (string * option value)) :
  Forall (fun kv => snd kv = None) updates -> set_clauses updates = [].
Proof.
  induction 1 as [|[k v] rest Hv _ IH]; simpl in *; [reflexivity|]. subst v. exact IH.
Qed.

(** Claim C9 (code bug). [update_reminder] called with only [None] values
    returns [False] and changes nothing. The "No Recurrence" choice of the
    edit menu never gets that far: its callback data is
    [set_recur_<id>_none_<n>], the prefix [set_recur_] itself contains a
    [_], so splitting on [_] gives at least five fields, and unpacking them
    into four names raises [ValueError] before [update_reminder] is called.
    Whatever the reminder id, the button changes no state and sends no
    reply. *)
Theorem update_all_none_changes_nothing (reminder_id : string) (user_id : option Z)
    (updates : list (string * option value)) (w : world) (chat_id from_user : Z) (rid x : string) :
  Forall (fun kv => snd kv = None) updates ->
  update_reminder reminder_id user_id updates w = (Ret false, w) /\
  button_callback chat_id from_user
    (String.append "set_recur_" (String.append rid (String.append "_none_" x))) w
  = (Raise ValueError, w).
Proof.
  intros Hn. split.
  - unfold update_reminder. rewrite (set_clauses_all_none updates Hn).
    destruct updates; reflexivity.
  - assert (Hs : split_on underscore
                  (String.append "set_recur_" (String.append rid (String.append "_none_" x)))
                = ("set" :: "recur" :: split_on underscore rid ++ "none" :: split_on underscore x)%string).
    { assert (E1 : String.append "set_recur_" (String.append rid (String.append "_none_" x))
                   = String.append "set" (String underscore (String.append "recur" (String underscore
                       (String.append rid (String underscore
                          (String.append "none" (String underscore x))))))))
        by reflexivity.
      rewrite E1, !split_on_app. reflexivity. }
    revert Hs.
    generalize (String.append rid (String.append "_none_" x)) as y. intros y Hs.
    change (String.append "set_recur_" y) with
      (String "s"%char (String "e"%char (String "t"%char (String "_"%char (String "r"%char
       (String "e"%char (String "c"%char (String "u"%char (String "r"%char (String "_"%char y)))))))))) in *.
    unfold button_callback. cbn -[split_on]. rewrite Hs.
    replace (String.prefix "" y) with true by (destruct y; reflexivity).
    destruct (split_on underscore rid) as [|a l1] eqn:E1;
      [exfalso; exact (split_on_nonempty _ _ E1)|].
    destruct (split_on underscore x) as [|b l2] eqn:E2;
      [exfalso; exact (split_on_nonempty _ _ E2)|].
    destruct l1 as [|c l1]; [reflexivity|]. destruct l1; reflexivity.
Qed.

Lemma update_all_none_changes_nothing_witness :
  Forall (fun kv : string * option value => snd kv = None)
    [("recurrence_type", None); ("recurrence_interval", None)]%string /\
  update_reminder "abcd1234" None [("recurrence_type", None); ("recurrence_interval", None)]%string
    armed_world = (Ret false, armed_world) /\
  button_callback 42 42
    (String.append "set_recur_" (String.append "abcd1234" (String.append "_none_" "0")))
    armed_world = (Raise ValueError, armed_world).
Proof.
  assert (H : Forall (fun kv : string * option value => snd kv = None)
                [("recurrence_type", None); ("recurrence_interval", None)]%string)
    by (repeat constructor).
  split; [exact H|].
  exact (update_all_none_changes_nothing "abcd1234" None _ armed_world 42 42 "abcd1234" "0" H).
Defined.

(* ------------------------------------------------------------------ *)
(** ** The cached [reminder_count] *)

Lemma update_status_fold (sel : row -> bool) (s : status) (us : list user) (rs : list row) :
  fst (fold_right (update_status_step sel s) (mkdb us [], 0%nat) rs) =
  mkdb (if status_eqb s Pending then us else dec_users sel rs us) (map (status_row sel s) rs).
Proof.
  induction rs as [|r rs IH]; cbn.
  - destruct s; cbn; [reflexivity| |]; unfold dec_users; f_equal;
      rewrite <- (map_id us) at 1; apply map_ext; intros [] ; cbn; f_equal; lia.
  - destruct (fold_right (update_status_step sel s) (mkdb us [], 0%nat) rs) as [d' n] eqn:E.
    cbn in IH; subst d'; unfold update_status_step.
    assert (Hrow : status_row sel s r =
                   if sel r && status_eqb (r_status r) Pending then set_status s r else r)
      by reflexivity.
    rewrite Hrow.
    destruct (sel r && status_eqb (r_status r) Pending) eqn:Hr; cbn; f_equal.
    + destruct s; cbn; try reflexivity; unfold bump_count, dec_users; rewrite map_map;
        apply map_ext; intros u; cbn; rewrite Hr;
        destruct (Z.eqb_spec (u_id u) (r_user r)), (Z.eqb_spec (r_user r) (u_id u));
        cbn; f_equal; lia.
    + destruct s; cbn; try reflexivity; unfold dec_users; apply map_ext; intros u; cbn;
        rewrite Hr; reflexivity.
Qed.


Lemma pending_of_status_row (sel : row -> bool) (s : status) (uid : Z) (rs : list row) :
  s <> Pending ->
  (pending_of uid (map (status_row sel s) rs) + changed_of sel uid rs = pending_of uid rs)%nat.
Proof.
  intros Hs; induction rs as [|r rs IH]; cbn [map pending_of changed_of]; [reflexivity|].
  rewrite <- IH; unfold status_row at 1.
  destruct (sel r), (r_status r) eqn:Er; cbn [andb status_eqb]; unfold is_pending_of;
    cbn [set_status r_user r_status]; rewrite ?Er;
    destruct (Z.eqb_spec (r_user r) uid), s; cbn; try congruence; lia.
Qed.

Lemma count_inv_status_update (sel : row -> bool) (s : status) (d : db) :
  s <> Pending -> count_inv d -> count_inv (fst (update_status sel s d)).
Proof.
  intros Hs [HA HB]; unfold update_status; rewrite update_status_fold.
  replace (status_eqb s Pending) with false by (destruct s; cbn; congruence).
  split; cbn.
  - apply List.Forall_forall; intros r' Hr'.
    apply List.in_map_iff in Hr' as (r & <- & Hr).
    rewrite List.Forall_forall in HA; specialize (HA r Hr).
    apply List.Exists_exists in HA as (u & Hu & Hid).
    apply List.Exists_exists; eexists; split; [apply List.in_map, Hu|].
    cbn; unfold status_row; destruct (sel r && _); exact Hid.
  - apply List.Forall_forall; intros u' Hu'.
    apply List.in_map_iff in Hu' as (u & <- & Hu).
    rewrite List.Forall_forall in HB; specialize (HB u Hu); cbn.
    pose proof (pending_of_status_row sel s (u_id u) (rows d) Hs). lia.
Qed.











Lemma changed_of_pos (sel : row -> bool) (r : row) (rs : list row) :
  In r rs -> sel r = true -> r_status r = Pending -> (1 <= changed_of sel (r_user r) rs)%nat.
Proof.
  intros Hin Hs Hp; induction rs as [|r0 rs IH]; [destruct Hin|]; cbn [changed_of].
  destruct Hin as [<-|Hin]; [rewrite Hs, Hp, Z.eqb_refl; cbn; lia|specialize (IH Hin); lia].
Qed.

Lemma pending_of_pos (r : row) (rs : list row) :
  In r rs -> r_status r = Pending -> (1 <= pending_of (r_user r) rs)%nat.
Proof.
  intros Hin Hp; induction rs as [|r0 rs IH]; [destruct Hin|]; cbn [pending_of].
  destruct Hin as [<-|Hin]; [unfold is_pending_of; rewrite Hp, Z.eqb_refl; cbn; lia|].
  specialize (IH Hin); lia.
Qed.

(** A status update that moves a row of a user whose count is 0 out of
    [pending] violates [CHECK (reminder_count >= 0)]: nothing is written. *)
Lemma status_update_fails (sel : row -> bool) (s : status) (w : world) (r : row) (u : user) :
  s <> Pending -> In r (rows (w_db w)) -> sel r = true -> r_status r = Pending ->
  In u (users (w_db w)) -> u_id u = r_user r -> u_count u = 0 ->
  run_status_update sel s w = (Raise DatabaseError, w).
Proof.
  intros Hs Hr Hsel Hp Hu Hid Hc.
  assert (E : fst (update_status sel s (w_db w))
              = mkdb (dec_users sel (rows (w_db w)) (users (w_db w)))
                     (map (status_row sel s) (rows (w_db w))))
    by (unfold update_status; rewrite update_status_fold; destruct s; [congruence|reflexivity|reflexivity]).
  unfold run_status_update, mbind, M_bind, get, mthrow, M_throw.
  destruct (update_status sel s (w_db w)) as [d' n]; cbn in E; subst d'; cbn [users].
  destruct (users_checks _) eqn:Hc2; [|reflexivity]; exfalso.
  unfold users_checks, dec_users in Hc2; rewrite List.forallb_forall in Hc2.
  specialize (Hc2 _ (List.in_map _ _ _ Hu)); cbn in Hc2; apply Z.leb_le in Hc2.
  pose proof (changed_of_pos sel r (rows (w_db w)) Hr Hsel Hp); rewrite Hid in Hc2; lia.
Qed.









(** Claim C8 (code bug). Migration 004 adds [reminder_count] with
    [DEFAULT 0] and does not count the rows already stored. So for any
    pending row whose owner exists, the migrated store breaks the count
    invariant, and completing or cancelling that row makes the
    [AFTER UPDATE] trigger violate [CHECK (reminder_count >= 0)]: the call
    raises and nothing is written, so the row stays pending. *)
Theorem migration_004_zeroes_counts (d : db) (r : row) (u : user) (w : world) :
  In r (rows d) -> r_status r = Pending -> find_user (r_user r) (users d) = Some u ->
  w_db w = migrate_004 d ->
  ~ count_inv (migrate_004 d) /\
  mark_reminder_complete (r_id r) w = (Raise DatabaseError, w) /\
  delete_reminder (r_id r) None w = (Raise DatabaseError, w).
Proof.
  intros Hr Hp Hf Hw.
  apply List.find_some in Hf as [Hu Hid]; apply Z.eqb_eq in Hid.
  set (u0 := mkuser (u_id u) (u_tz u) 50 0).
  assert (Hu0 : In u0 (users (migrate_004 d)))
    by (apply (List.in_map (fun u => mkuser (u_id u) (u_tz u) 50 0)), Hu).
  assert (Hsel : String.eqb (r_id r) (r_id r) = true) by apply String.eqb_refl.
  split; [|split].
  - intros [_ HB]; rewrite List.Forall_forall in HB; specialize (HB u0 Hu0); cbn in HB.
    pose proof (pending_of_pos r (rows d) Hr Hp); rewrite Hid in HB; lia.
  - unfold mark_reminder_complete.
    apply (status_update_fails _ _ w r u0); try discriminate; rewrite ?Hw; auto.
  - unfold delete_reminder; cbn [truthy_user].
    apply (status_update_fails _ _ w r u0); try discriminate; rewrite ?Hw; auto.
Qed.

(** Witness of C8 at the daily row of user 42 stored before migration 004. *)
Lemma migration_004_zeroes_counts_witness :
  In daily_row (rows pre_004) /\ r_status daily_row = Pending /\
  find_user (r_user daily_row) (users pre_004)
    = Some (mkuser 42 (Some "America/New_York"%string) 0 0) /\
  w_db (boot (migrate_004 pre_004) before_due) = migrate_004 pre_004 /\
  (~ count_inv (migrate_004 pre_004) /\
   mark_reminder_complete (r_id daily_row) (boot (migrate_004 pre_004) before_due)
     = (Raise DatabaseError, boot (migrate_004 pre_004) before_due) /\
   delete_reminder (r_id daily_row) None (boot (migrate_004 pre_004) before_due)
     = (Raise DatabaseError, boot (migrate_004 pre_004) before_due)).
Proof.
  assert (H1 : In daily_row (rows pre_004)) by (left; reflexivity).
  assert (H2 : r_status daily_row = Pending) by reflexivity.
  assert (H3 : find_user (r_user daily_row) (users pre_004)
               = Some (mkuser 42 (Some "America/New_York"%string) 0 0)) by reflexivity.
  assert (H4 : w_db (boot (migrate_004 pre_004) before_due) = migrate_004 pre_004)
    by reflexivity.
  exact (conj H1 (conj H2 (conj H3 (conj H4
           (migration_004_zeroes_counts _ _ _ _ H1 H2 H3 H4))))).
Defined.

(* ------------------------------------------------------------------ *)
(** ** Recipients of the recovery sweep *)

Section Footprint.
Variable P : Z -> Prop.

Lemma fp_ret {A} (a : A) : footprint P (mret a).
Proof. intros w; exists [], []; repeat split; constructor. Qed.

Lemma fp_throw {A} (e : exn) : footprint P (mthrow (A := A) e).
Proof. intros w; exists [], []; repeat split; constructor. Qed.

Lemma fp_modify (f : world -> world) :
  (forall w, w_sent (f w) = w_sent w /\ w_timers (f w) = w_timers w) -> footprint P (modify f).
Proof.
  intros Hf w; destruct (Hf w) as [H1 H2]; exists [], []; cbn; rewrite H1, H2;
    repeat split; constructor.
Qed.

Lemma fp_bind {A B} (m : M A) (k : A -> M B) :
  footprint P m -> (forall a, footprint P (k a)) -> footprint P (m ≫= k).
Proof.
  intros Hm Hk w; pose proof (Hm w) as (s1 & t1 & Hs1 & Ht1 & Fs1 & Ft1).
  unfold mbind, M_bind, fp_at in *; destruct (m w) as [[a|e] w'] eqn:E; cbn in *.
  - destruct (Hk a w') as (s2 & t2 & Hs2 & Ht2 & Fs2 & Ft2).
    exists (s2 ++ s1), (t2 ++ t1).
    rewrite Hs2, Ht2, Hs1, Ht1, <- !app_assoc.
    repeat split; auto; apply Forall_app; auto.
  - exists s1, t1; auto.
Qed.

Lemma fp_get_bind {B} (k : world -> M B) :
  (forall w, fp_at P (k w) w) -> footprint P (get ≫= k).
Proof. intros Hk w; exact (Hk w). Qed.

Lemma fp_try {A} (m : M A) (h : exn -> M A) :
  footprint P m -> (forall e, footprint P (h e)) -> footprint P (try_except m h).
Proof.
  intros Hm Hh w; pose proof (Hm w) as (s1 & t1 & Hs1 & Ht1 & Fs1 & Ft1).
  unfold try_except, fp_at in *; destruct (m w) as [[a|e] w'] eqn:E; cbn in *.
  - exists s1, t1; auto.
  - destruct (Hh e w') as (s2 & t2 & Hs2 & Ht2 & Fs2 & Ft2).
    exists (s2 ++ s1), (t2 ++ t1).
    rewrite Hs2, Ht2, Hs1, Ht1, <- !app_assoc.
    repeat split; auto; apply Forall_app; auto.
Qed.

Lemma fp_for_each {A} (f : A -> M unit) (l : list A) :
  (forall x, In x l -> footprint P (f x)) -> footprint P (for_each f l).
Proof.
  induction l as [|x l IH]; intros Hl; cbn; [apply fp_ret|].
  apply fp_bind; [apply Hl; left; reflexivity|intros _; apply IH; intros y Hy; apply Hl; right; exact Hy].
Qed.

End Footprint.

Ltac fp_step :=
  match goal with
  | |- footprint _ (mret _) => apply fp_ret
  | |- footprint _ (mthrow _) => apply fp_throw
  | |- footprint _ get => intros ?; exists [], []; repeat split; constructor
  | |- footprint _ (modify _) => apply fp_modify; intros ?; split; reflexivity
  | |- footprint _ (get ≫= _) => apply fp_bind; [|intros ?; cbv beta zeta]
  | |- footprint _ (_ ≫= _) => apply fp_bind; [|intros ?; cbv beta zeta]
  | |- footprint _ (match ?x with _ => _ end) => destruct x
  end.

Lemma fp_save P u rid m t p rt ri par :
  footprint P (save_reminder u rid m t p rt ri par).
Proof. unfold save_reminder; repeat fp_step. Qed.

Lemma fp_status P sel s : footprint P (run_status_update sel s).
Proof. unfold run_status_update; repeat fp_step. Qed.

Lemma fp_mark P rid : footprint P (mark_reminder_complete rid).
Proof. apply fp_status. Qed.

Lemma fp_fresh P : footprint P fresh_id.
Proof. unfold fresh_id; repeat fp_step. Qed.

Lemma fp_should P rid t : footprint P (should_create_next_occurrence rid t).
Proof. unfold should_create_next_occurrence, dt_le; repeat fp_step. Qed.

Lemma fp_next P t rt ri : footprint P (next_occurrence t rt ri).
Proof. unfold next_occurrence; repeat fp_step. Qed.

Lemma fp_pytz P tz : footprint P (pytz_timezone tz).
Proof. unfold pytz_timezone; repeat fp_step. Qed.

Lemma fp_get_user_timezone P u : footprint P (get_user_timezone u).
Proof. unfold get_user_timezone; repeat fp_step. Qed.

Lemma fp_send_message (P : Z -> Prop) chat t : P chat -> footprint P (send_message chat t).
Proof.
  intros Hc w; unfold send_message, fp_at; unfold_M.
  destruct (w_sink_ok w); [exists [(chat, t)], []|exists [], []]; cbn;
    repeat split; repeat constructor; auto.
Qed.

Lemma fp_schedule (P : Z -> Prop) u rid t msg prio rt ri :
  P u -> footprint P (schedule_reminder u u rid t msg prio rt ri).
Proof.
  intros Hu; unfold schedule_reminder; apply fp_bind.
  - destruct (dt_offset t); repeat first [fp_step | apply fp_get_user_timezone | apply fp_pytz].
  - intros t'; apply fp_get_bind; intros w; cbv beta zeta.
    destruct (0 <? to_utc t' - w_now w).
    + unfold fp_at; unfold_M.
      eexists [], [_]; cbn; split; [reflexivity|split; [reflexivity|split; repeat constructor]];
        cbn; auto.
    + apply fp_ret.
Qed.

Lemma fp_handle_one (P : Z -> Prop) now p : P (p_user p) -> footprint P (handle_one now p).
Proof.
  intros Hu; unfold handle_one.
  repeat first [ apply fp_send_message; exact Hu | apply fp_schedule; exact Hu
               | apply fp_save | apply fp_mark | apply fp_fresh | apply fp_should
               | apply fp_next | apply fp_pytz | fp_step ].
Qed.

Lemma insert_by_time_in (p x : pending) (l : list pending) :
  In x (insert_by_time p l) <-> p = x \/ In x l.
Proof.
  induction l as [|q l IH]; cbn; [tauto|].
  destruct (local_seconds (p_time q) <=? local_seconds (p_time p)); cbn; rewrite ?IH; tauto.
Qed.

Lemma get_all_pending_spec (w : world) :
  exists l, get_all_pending_reminders w = (Ret l, w) /\
    Forall (fun p => exists r, In r (rows (w_db w)) /\ r_status r = Pending /\
                               p_user p = r_user r /\ p_id p = r_id r) l.
Proof.
  unfold get_all_pending_reminders; unfold_M; eexists; split; [reflexivity|].
  apply List.Forall_forall; intros p Hp.
  assert (Hin : forall l, In p (fold_right insert_by_time [] l) -> In p l).
  { induction l as [|q l IH]; cbn; [tauto|]; intros H; apply insert_by_time_in in H.
    destruct H as [<-|H]; auto. }
  apply Hin, List.in_flat_map in Hp as (r & Hr & Hp).
  destruct (r_status r) eqn:Hs; cbn in Hp; [|contradiction|contradiction].
  destruct (find_user (r_user r) (users (w_db w))); [|contradiction].
  destruct Hp as [<-|[]]; exists r; cbn; auto.
Qed.

(** The sweep over the records [l], split into what each record's
    iteration adds: the run stops after the record that raised, so the
    segments cover a prefix of [l]. *)
Lemma for_each_segments (now : Z) (l : list pending) (w : world) :
  exists segs : list (list (Z * text) * list timer),
    (length segs <= length l)%nat /\
    Forall2 (fun p sg =>
      Forall (fun s => fst s = p_user p) (fst sg) /\
      Forall (fun t => a_chat (t_args t) = p_user p /\ a_user (t_args t) = p_user p) (snd sg))
      (firstn (length segs) l) segs /\
    w_sent (snd (for_each (handle_one now) l w)) = concat (rev (map fst segs)) ++ w_sent w /\
    w_timers (snd (for_each (handle_one now) l w)) = concat (rev (map snd segs)) ++ w_timers w.
Proof.
  revert w; induction l as [|p l IH]; intros w.
  - exists []; cbn; repeat split; constructor.
  - destruct (fp_handle_one (fun z => z = p_user p) now p eq_refl w)
      as (s1 & t1 & Hs1 & Ht1 & Fs1 & Ft1).
    assert (Ft : Forall (fun t => a_chat (t_args t) = p_user p /\ a_user (t_args t) = p_user p) t1).
    { eapply List.Forall_impl; [|exact Ft1]; intros t [Hc Hu]; split; congruence. }
    cbn [for_each]; unfold mbind, M_bind.
    destruct (handle_one now p w) as [[[]|e] w1] eqn:E; cbn [snd] in Hs1, Ht1.
    + destruct (IH w1) as (segs & Hlen & HF & Hs & Ht).
      exists ((s1, t1) :: segs); cbn [length firstn map rev].
      split; [lia|split; [constructor; [split; cbn; assumption|exact HF]|]].
      rewrite Hs, Ht, Hs1, Ht1, !concat_app; cbn [concat]; rewrite !app_nil_r, <- !app_assoc.
      split; reflexivity.
    + exists [(s1, t1)]; cbn [length firstn map rev app concat]; rewrite !app_nil_r.
      split; [lia|split; [constructor; [split; cbn; assumption|constructor]|]].
      split; assumption.
Qed.

Lemma try_except_ignore_snd (m : M unit) (w : world) :
  snd (try_except m (fun _ => mret tt) w) = snd (m w).
Proof. unfold try_except; destruct (m w) as [[]]; reflexivity. Qed.

(** Claim C10. Rows carry no chat id. The recovery sweep reads the pending
    rows as records [ps], each naming a pending row by its [id] and its
    [user_id]. It handles a prefix of [ps] in turn (it stops after the first
    record that raised), and what the iteration for record [p] adds is sent
    to the chat whose id is [p]'s [user_id] (missed notices and everything
    else), and every timer it starts (the re-armed row or its successor) has
    chat id = user id = that [user_id], whatever chat the reminder was
    created in. *)
Theorem recovery_sends_to_user_id (w : world) :
  exists ps segs,
    get_all_pending_reminders w = (Ret ps, w) /\
    Forall (fun p => exists r, In r (rows (w_db w)) /\ r_status r = Pending /\
                               r_id r = p_id p /\ r_user r = p_user p) ps /\
    (length segs <= length ps)%nat /\
    Forall2 (fun p sg =>
      Forall (fun s => fst s = p_user p) (fst sg) /\
      Forall (fun t => a_chat (t_args t) = p_user p /\ a_user (t_args t) = p_user p) (snd sg))
      (firstn (length segs) ps) segs /\
    w_sent (snd (handle_missed_reminders w)) = concat (rev (map fst segs)) ++ w_sent w /\
    w_timers (snd (handle_missed_reminders w)) = concat (rev (map snd segs)) ++ w_timers w.
Proof.
  destruct (get_all_pending_spec w) as (l & Hl & Fl).
  assert (Heq : handle_missed_reminders w =
                try_except (for_each (handle_one (w_now w)) l) (fun _ => mret tt) w).
  { unfold handle_missed_reminders, try_except, mbind, M_bind at 1 2, get; cbv beta.
    rewrite Hl; reflexivity. }
  destruct (for_each_segments (w_now w) l w) as (segs & Hlen & HF & Hs & Ht).
  exists l, segs; rewrite Heq, !try_except_ignore_snd.
  split; [exact Hl|split; [|split; [exact Hlen|split; [exact HF|split; assumption]]]].
  eapply List.Forall_impl; [|exact Fl]; intros p (r & H1 & H2 & H3 & H4); exists r; auto.
Qed.

(* ------------------------------------------------------------------ *)
(** ** One iteration of the recovery sweep *)

Lemma bind_ret_inv {A B} (m : M A) (k : A -> M B) (w w2 : world) (b : B) :
  (m ≫= k) w = (Ret b, w2) -> exists a w1, m w = (Ret a, w1) /\ k a w1 = (Ret b, w2).
Proof.
  unfold mbind, M_bind; destruct (m w) as [[a|e] w1]; intros H; [eauto|discriminate].
Qed.

Lemma handle_one_unfold (p : pending) (t : datetime) (w : world) :
  pending_instant p = Some t ->
  handle_one (w_now w) p w = (if to_utc t <? w_now w then
    send_message (p_user p) (MissedText t (p_message p)) ;;
    (match truthy_str (p_rtype p) with
     | Some rt =>
         next_time ← next_occurrence t rt (p_rint p);
         if w_now w <? to_utc next_time then
           (should_create_next_occurrence (p_id p) next_time ≫= fun (ok : bool) =>
            if ok then
              (next_reminder_id ← fresh_id;
               save_reminder (p_user p) next_reminder_id (p_message p) next_time
                 (p_priority p) (p_rtype p) (p_rint p) (Some (p_id p)) ;;
               schedule_reminder (p_user p) (p_user p) next_reminder_id next_time
                 (p_message p) (p_priority p) (p_rtype p) (p_rint p))
            else mret tt)
         else mret tt
     | None => mret tt
     end) ;;
    mark_reminder_complete (p_id p) ;; mret tt
  else
    schedule_reminder (p_user p) (p_user p) (p_id p) t (p_message p)
      (p_priority p) (p_rtype p) (p_rint p)) w.
Proof.
  unfold pending_instant, handle_one; intros Hi.
  unfold mbind at 1, M_bind at 1.
  destruct (dt_offset (p_time p)).
  - inversion Hi; subst; reflexivity.
  - destruct (p_timezone p) as [n|]; [|discriminate]; cbn in Hi.
    unfold pytz_timezone; destruct (tz_database n); [|discriminate].
    inversion Hi; subst; reflexivity.
Qed.

Lemma send_ret (c : Z) (m : text) (w w1 : world) (u : unit) :
  send_message c m w = (Ret u, w1) -> w1 = push_sent (c, m) w.
Proof.
  unfold send_message; unfold_M; destruct (w_sink_ok w); intros H; inversion H; reflexivity.
Qed.

Lemma mark_ret (rid : string) (w w1 : world) (b : bool) :
  mark_reminder_complete rid w = (Ret b, w1) ->
  rows (w_db w1) = map (status_row (fun r => String.eqb (r_id r) rid) Completed) (rows (w_db w)).
Proof.
  unfold mark_reminder_complete, run_status_update; unfold_M.
  pose proof (update_status_fold (fun r => String.eqb (r_id r) rid) Completed
                (users (w_db w)) (rows (w_db w))) as E.
  unfold update_status in *.
  destruct (fold_right _ _ (rows (w_db w))) as [d' n]; cbn in E; subst d'.
  destruct (users_checks _); intros H; inversion H; reflexivity.
Qed.

Lemma schedule_db c u rid t m p rt ri (w w1 : world) o :
  schedule_reminder c u rid t m p rt ri w = (o, w1) -> w_db w1 = w_db w.
Proof.
  unfold schedule_reminder, get_user_timezone, pytz_timezone; unfold_M.
  repeat match goal with
         | |- context [match ?x with _ => _ end] =>
             lazymatch x with context [match _ with _ => _ end] => fail | _ => destruct x; cbn end
         end;
    intros H; inversion H; reflexivity.
Qed.

Lemma fresh_db (w w1 : world) o : fresh_id w = (o, w1) -> w_db w1 = w_db w.
Proof.
  unfold fresh_id; unfold_M; destruct (w_uuids w); intros H; inversion H; reflexivity.
Qed.

Lemma save_ret (u : Z) (rid m : string) (t : datetime) (p : string) (rt : option string)
    (ri : option Z) (par : option string) (w w1 : world) (b : bool) :
  save_reminder u rid m t p rt ri par w = (Ret b, w1) ->
  rows (w_db w1) = rows (w_db w) ++ [mkrow rid u m t Pending p rt ri None par] /\
  find_row rid (rows (w_db w)) = None.
Proof.
  unfold save_reminder; unfold_M.
  destruct (find_user u (users (w_db w))); [|discriminate].
  destruct (_ <=? _); [discriminate|].
  destruct (find_row rid (rows (w_db w))); [discriminate|].
  destruct (row_checks _); [|discriminate].
  intros H; inversion H; subst; split; reflexivity.
Qed.

Lemma status_row_not_pending (rid : string) (rs : list row) :
  Forall (fun r => r_id r = rid -> r_status r <> Pending)
    (map (status_row (fun r => String.eqb (r_id r) rid) Completed) rs).
Proof.
  apply List.Forall_forall; intros r' Hr'; apply List.in_map_iff in Hr' as (r & <- & _).
  unfold status_row; destruct (String.eqb_spec (r_id r) rid), (r_status r) eqn:Hs; cbn;
    rewrite ?Hs; try discriminate; intros; try contradiction; congruence.
Qed.

Lemma pending_instant_aware (p : pending) (t : datetime) :
  pending_instant p = Some t -> exists o, dt_offset t = Some o.
Proof.
  unfold pending_instant; destruct (dt_offset (p_time p)) as [o|] eqn:Ho.
  - intros H; inversion H; subst; eauto.
  - destruct (p_timezone p) as [n|]; [|discriminate]; cbn.
    destruct (tz_database n); [|discriminate]; intros H; inversion H; subst; cbn; eauto.
Qed.

Lemma add_seconds_offset (t : datetime) (n : Z) : dt_offset (add_seconds t n) = dt_offset t.
Proof.
  unfold add_seconds, of_local_seconds; destruct (civil_from_days _) as [[y m] d]; reflexivity.
Qed.

(** [calculate_next_occurrence] keeps the tzinfo of [last_time]. *)
Lemma calc_offset (t nx : datetime) (rt : string) (n : Z) :
  calculate_next_occurrence t rt n = NextTime nx -> dt_offset nx = dt_offset t.
Proof.
  unfold calculate_next_occurrence, add_days.
  destruct (String.eqb rt "day").
  { destruct (999999999 <? Z.abs n); [discriminate|].
    destruct (_ || _); [discriminate|]; intros H; inversion H; apply add_seconds_offset. }
  destruct (String.eqb rt "week").
  { destruct (999999999 <? Z.abs (n * 7)); [discriminate|].
    destruct (_ || _); [discriminate|]; intros H; inversion H; apply add_seconds_offset. }
  destruct (String.eqb rt "month"); [|discriminate].
  destruct (if 12 <? _ then _ else _) as [y m].
  destruct (_ || _ || _ || _); [discriminate|]; unfold set_date; cbn [dt_offset].
  destruct (dt_offset t) as [o|]; cbn; [|intros H; inversion H; reflexivity].
  destruct (negb _); intros H; inversion H; [apply add_seconds_offset|reflexivity].
Qed.

Lemma fresh_now (w w1 : world) o : fresh_id w = (o, w1) -> w_now w1 = w_now w.
Proof.
  unfold fresh_id; unfold_M; destruct (w_uuids w); intros H; inversion H; reflexivity.
Qed.

Lemma save_now (u : Z) (rid m : string) (t : datetime) (p : string) (rt : option string)
    (ri : option Z) (par : option string) (w w1 : world) o :
  save_reminder u rid m t p rt ri par w = (o, w1) -> w_now w1 = w_now w.
Proof.
  unfold save_reminder; unfold_M.
  destruct (find_user u (users (w_db w))); [|intros H; inversion H; reflexivity].
  destruct (_ <=? _); [intros H; inversion H; reflexivity|].
  destruct (find_row rid (rows (w_db w))); [intros H; inversion H; reflexivity|].
  destruct (row_checks _); intros H; inversion H; reflexivity.
Qed.

Lemma mark_timers (rid : string) (w w1 : world) o :
  mark_reminder_complete rid w = (o, w1) -> w_timers w1 = w_timers w.
Proof.
  unfold mark_reminder_complete, run_status_update; unfold_M.
  destruct (update_status _ _ (w_db w)) as [d' n].
  destruct (users_checks _); intros H; inversion H; reflexivity.
Qed.

(** [schedule_reminder] of an aware time after now starts a timer due then. *)
Lemma schedule_arms (c u : Z) (rid : string) (t : datetime) (m p : string)
    (rt : option string) (ri : option Z) (o : Z) (w w1 : world) (x : unit) :
  dt_offset t = Some o -> w_now w < to_utc t ->
  schedule_reminder c u rid t m p rt ri w = (Ret x, w1) ->
  exists tm, In tm (w_timers w1) /\ a_id (t_args tm) = rid /\ t_due tm = to_utc t /\
             a_chat (t_args tm) = c /\ a_user (t_args tm) = u.
Proof.
  intros Ho Hlt; unfold schedule_reminder; unfold_M; rewrite Ho; cbn.
  rewrite (proj2 (Z.ltb_lt 0 (to_utc t - w_now w)) ltac:(lia)).
  intros H; inversion H; subst; cbn.
  eexists; split; [left; reflexivity|cbn; repeat split; lia].
Qed.

(** Claim C5 (amended). One iteration of the recovery sweep, when it
    completes. A row whose instant is past gets a missed notice to chat
    [user_id] and is completed. If it recurs, the next instant is computed
    once from the missed one: when that instant is not after now, no
    successor is created and the series ends; when it is after now and not
    after the row's [recurrence_end_date] (or there is none), a pending
    successor is created with that instant and armed with a timer due then,
    to chat [user_id]; when it is after the end date, no successor is
    created (a naive end date makes the comparison raise [TypeError], and
    the iteration does not complete). A future row is armed with a timer
    due at its instant; a row due exactly now is left as it was, neither
    armed nor completed. *)
Theorem missed_completed_or_armed (p : pending) (t : datetime) (w w' : world) :
  pending_instant p = Some t ->
  handle_one (w_now w) p w = (Ret tt, w') ->
  (to_utc t < w_now w ->
     In (p_user p, MissedText t (p_message p)) (w_sent w') /\
     Forall (fun r => r_id r = p_id p -> r_status r <> Pending) (rows (w_db w')) /\
     (forall rt n nx, truthy_str (p_rtype p) = Some rt -> p_rint p = Some n ->
        calculate_next_occurrence t rt n = NextTime nx ->
        (to_utc nx <= w_now w -> length (rows (w_db w')) = length (rows (w_db w))) /\
        (w_now w < to_utc nx ->
         (exists r0, find_row (p_id p) (rows (w_db w)) = Some r0 /\
            (r_end r0 = None \/ exists e, r_end r0 = Some e /\ to_utc nx <= to_utc e)) ->
         exists r tm, In r (rows (w_db w')) /\ r_parent r = Some (p_id p) /\
                      r_status r = Pending /\ r_time r = nx /\
                      In tm (w_timers w') /\ a_id (t_args tm) = r_id r /\
                      t_due tm = to_utc nx /\
                      a_chat (t_args tm) = p_user p /\ a_user (t_args tm) = p_user p) /\
        (forall r0 e, find_row (p_id p) (rows (w_db w)) = Some r0 -> r_end r0 = Some e ->
         w_now w < to_utc nx ->
         dt_offset e <> None /\
         (to_utc e < to_utc nx -> length (rows (w_db w')) = length (rows (w_db w)))))) /\
  (w_now w < to_utc t ->
     w_db w' = w_db w /\
     exists tm, In tm (w_timers w') /\ a_id (t_args tm) = p_id p /\ t_due tm = to_utc t) /\
  (to_utc t = w_now w -> w' = w).
Proof.
  intros Hi Hh; rewrite (handle_one_unfold p t w Hi) in Hh.
  destruct (pending_instant_aware p t Hi) as [o Ho].
  split; [|split].
  - intros Hlt; rewrite (proj2 (Z.ltb_lt _ _) Hlt) in Hh.
    apply bind_ret_inv in Hh as (u1 & w1 & H1 & H2); apply send_ret in H1; subst w1.
    apply bind_ret_inv in H2 as (u2 & w2 & H3 & H4).
    apply bind_ret_inv in H4 as (u3 & w3 & H5 & H6).
    unfold mret, M_ret in H6; inversion H6; subst w3.
    destruct (fp_mark (fun _ => True) (p_id p) w2) as (ns & nt & Hs & _).
    rewrite H5 in Hs; cbn in Hs.
    match type of H3 with ?m _ = _ =>
      assert (Hm : footprint (fun _ => True) m)
        by (repeat first [ apply fp_schedule; exact I | apply fp_save | apply fp_mark
                         | apply fp_fresh | apply fp_should | apply fp_next | fp_step ])
    end.
    destruct (Hm (push_sent (p_user p, MissedText t (p_message p)) w)) as (ns' & nt' & Hs' & _).
    rewrite H3 in Hs'; cbn in Hs'.
    split; [|split].
    + rewrite Hs, Hs'; apply List.in_or_app; right; apply List.in_or_app; right; left;
        reflexivity.
    + rewrite (mark_ret _ _ _ _ H5); apply status_row_not_pending.
    + intros rt n nx Hrt Hn Hnx; rewrite Hrt, Hn in H3.
      pose proof (calc_offset _ _ _ _ Hnx) as Hnxo; rewrite Ho in Hnxo.
      apply bind_ret_inv in H3 as (nx' & w4 & H7 & H8).
      unfold next_occurrence, mret, M_ret in H7; rewrite Hnx in H7; inversion H7; subst nx' w4.
      change (w_now (push_sent (p_user p, MissedText t (p_message p)) w)) with (w_now w) in H8.
      split; [|split].
      * intros Hle; rewrite (proj2 (Z.ltb_ge _ _) Hle) in H8.
        unfold mret, M_ret in H8; inversion H8; subst w2.
        rewrite (mark_ret _ _ _ _ H5), length_map; reflexivity.
      * intros Hgt (r0 & Hr0 & Hend); rewrite (proj2 (Z.ltb_lt _ _) Hgt) in H8.
        apply bind_ret_inv in H8 as (ok & w5 & H9 & H10).
        assert (Hok : ok = true /\ w5 = push_sent (p_user p, MissedText t (p_message p)) w).
        { unfold should_create_next_occurrence, mbind, M_bind, get, mret, M_ret in H9.
          cbn in H9; rewrite Hr0 in H9.
          destruct Hend as [He0|(e & He & Hle)]; rewrite ?He0, ?He in H9.
          - inversion H9; split; reflexivity.
          - unfold dt_le, mret, M_ret, mthrow, M_throw in H9; rewrite Hnxo in H9.
            destruct (dt_offset e); [|discriminate].
            inversion H9; split; [apply Z.leb_le; exact Hle|reflexivity]. }
        destruct Hok; subst ok w5.
        apply bind_ret_inv in H10 as (nid & w6 & H11 & H12).
        apply bind_ret_inv in H12 as (b & w7 & H13 & H14).
        pose proof (fresh_now _ _ _ H11) as Hn6; pose proof (save_now _ _ _ _ _ _ _ _ _ _ _ H13) as Hn7.
        cbn in Hn6.
        destruct (schedule_arms _ _ _ _ _ _ _ _ o _ _ _ Hnxo ltac:(rewrite Hn7, Hn6; exact Hgt) H14)
          as (tm & Htm & Hid & Hdue & Hc & Hu).
        apply fresh_db in H11; apply schedule_db in H14; apply save_ret in H13 as [Hr7 Hnid].
        rewrite H11 in Hnid; cbn in Hnid.
        set (r := mkrow nid (p_user p) (p_message p) nx Pending (p_priority p) (p_rtype p)
                        (Some n) None (Some (p_id p))).
        exists r, tm; split; [|split; [reflexivity|split; [reflexivity|split; [reflexivity|]]]].
        -- rewrite (mark_ret _ _ _ _ H5), H14, Hr7.
           apply List.in_map_iff; exists r; split; [|apply List.in_or_app; right; left; reflexivity].
           unfold status_row; cbn.
           destruct (String.eqb_spec nid (p_id p)) as [E|E]; [|reflexivity].
           rewrite E in Hnid; congruence.
        -- rewrite (mark_timers _ _ _ _ H5); repeat split; assumption.
      * intros r0 e Hr0 He Hgt; rewrite (proj2 (Z.ltb_lt _ _) Hgt) in H8.
        apply bind_ret_inv in H8 as (ok & w5 & H9 & H10).
        unfold should_create_next_occurrence, mbind, M_bind, get, mret, M_ret in H9.
        cbn in H9; rewrite Hr0, He in H9.
        unfold dt_le, mret, M_ret, mthrow, M_throw in H9; rewrite Hnxo in H9.
        destruct (dt_offset e); [|discriminate].
        inversion H9; subst ok w5; split; [discriminate|].
        intros Hlt'; rewrite (proj2 (Z.leb_gt _ _) Hlt') in H10.
        unfold mret, M_ret in H10; inversion H10; subst w2.
        rewrite (mark_ret _ _ _ _ H5), length_map; reflexivity.
  - intros Hgt; rewrite (proj2 (Z.ltb_ge (to_utc t) (w_now w)) ltac:(lia)) in Hh.
    revert Hh; unfold schedule_reminder; unfold_M; rewrite Ho; cbn.
    rewrite (proj2 (Z.ltb_lt 0 (to_utc t - w_now w)) ltac:(lia)).
    intros H; inversion H; subst; cbn; split; [reflexivity|].
    eexists; split; [left; reflexivity|split; cbn; [reflexivity|lia]].
  - intros Heq; rewrite (proj2 (Z.ltb_ge (to_utc t) (w_now w)) ltac:(lia)) in Hh.
    revert Hh; unfold schedule_reminder; unfold_M; rewrite Ho; cbn.
    rewrite (proj2 (Z.ltb_ge 0 (to_utc t - w_now w)) ltac:(lia)).
    intros H; inversion H; reflexivity.
Qed.

(** Witness of C5: the daily row found an hour late (its successor, due
    10 March 09:00 EST, is created and armed), three days late, and before
    it is due. *)
Lemma missed_completed_or_armed_witness :
  (exists r tm,
     In r (rows (w_db (snd (handle_one (w_now (boot db1 one_hour_late)) p_daily
                                       (boot db1 one_hour_late))))) /\
     r_parent r = Some "abcd1234"%string /\ r_status r = Pending /\
     r_time r = mkdt 2024 3 10 9 0 0 (Some (-18000)) /\
     In tm (w_timers (snd (handle_one (w_now (boot db1 one_hour_late)) p_daily
                                      (boot db1 one_hour_late)))) /\
     a_id (t_args tm) = r_id r /\ t_due tm = to_utc (mkdt 2024 3 10 9 0 0 (Some (-18000))) /\
     a_chat (t_args tm) = 42 /\ a_user (t_args tm) = 42) /\
  In (42, MissedText nine_am_0309 "Call mom")
     (w_sent (snd (handle_one (w_now (boot db1 three_days_late)) p_daily
                              (boot db1 three_days_late)))) /\
  w_db (snd (handle_one (w_now (boot db1 before_due)) p_daily (boot db1 before_due)))
    = w_db (boot db1 before_due).
Proof.
  assert (Hi : pending_instant p_daily = Some nine_am_0309) by (vm_compute; reflexivity).
  split; [|split].
  - assert (Hh : handle_one (w_now (boot db1 one_hour_late)) p_daily (boot db1 one_hour_late)
                 = (Ret tt, snd (handle_one (w_now (boot db1 one_hour_late)) p_daily
                                           (boot db1 one_hour_late))))
      by (vm_compute; reflexivity).
    destruct (missed_completed_or_armed p_daily nine_am_0309 _ _ Hi Hh) as [Hpast _].
    destruct (Hpast ltac:(vm_compute; reflexivity)) as (_ & _ & Hrec).
    assert (Hnx : calculate_next_occurrence nine_am_0309 "day" 1
                  = NextTime (mkdt 2024 3 10 9 0 0 (Some (-18000)))) by (vm_compute; reflexivity).
    destruct (Hrec "day"%string 1 _ eq_refl eq_refl Hnx) as (_ & Hsucc & _).
    exact (Hsucc ltac:(vm_compute; reflexivity)
                 (ex_intro _ daily_row (conj eq_refl (or_introl eq_refl)))).
  - assert (Hh : handle_one (w_now (boot db1 three_days_late)) p_daily (boot db1 three_days_late)
                 = (Ret tt, snd (handle_one (w_now (boot db1 three_days_late)) p_daily
                                           (boot db1 three_days_late))))
      by (vm_compute; reflexivity).
    destruct (missed_completed_or_armed p_daily nine_am_0309 _ _ Hi Hh) as [Hpast _].
    exact (proj1 (Hpast ltac:(vm_compute; reflexivity))).
  - assert (Hh : handle_one (w_now (boot db1 before_due)) p_daily (boot db1 before_due)
                 = (Ret tt, snd (handle_one (w_now (boot db1 before_due)) p_daily
                                           (boot db1 before_due))))
      by (vm_compute; reflexivity).
    destruct (missed_completed_or_armed p_daily nine_am_0309 _ _ Hi Hh) as [_ [Hfut _]].
    exact (proj1 (Hfut ltac:(vm_compute; reflexivity))).
Defined.

(** Claim C5 (counterexample). The daily row of 9 March 09:00, swept on
    12 March: the missed notice is sent and the row completed, but its next
    occurrence (10 March) is already past, so no successor is created and
    nothing is armed: the series ends although it has no end date. *)
Lemma sweep_drops_daily_series :
  fst (handle_missed_reminders (boot db1 three_days_late)) = Ret tt /\
  w_sent (snd (handle_missed_reminders (boot db1 three_days_late)))
    = [(42, MissedText nine_am_0309 "Call mom")] /\
  row_status "abcd1234" (snd (handle_missed_reminders (boot db1 three_days_late)))
    = Some Completed /\
  pending_children "abcd1234" (snd (handle_missed_reminders (boot db1 three_days_late))) = 0%nat /\
  w_timers (snd (handle_missed_reminders (boot db1 three_days_late))) = [] /\
  r_end daily_row = None.
Proof. repeat split; vm_compute; reflexivity. Qed.

(* ================================================================== *)
(** * Further properties of the store and of the handlers *)

(** ** Helpers *)

Lemma prefix_nil (s : string) : String.prefix "" s = true.
Proof. destruct s; reflexivity. Qed.

Lemma substring_full (s : string) : String.substring 0 (String.length s) s = s.
Proof. induction s as [|c s IH]; cbn; [reflexivity|]. rewrite IH. reflexivity. Qed.

Lemma drop_append (a b : string) : drop (String.length a) (String.append a b) = b.
Proof.
  unfold drop. induction a as [|c a IH]; cbn.
  - rewrite Nat.sub_0_r. apply substring_full.
  - exact IH.
Qed.

(** Decide [String.prefix p (q ++ r)] for literal [p] and [q]. *)
Ltac prefix_simpl :=
  repeat match goal with
  | |- context [String.prefix ?p (String.append ?q ?r)] =>
      let H := fresh in
      first [ assert (H : String.prefix p (String.append q r) = false) by reflexivity
            | assert (H : String.prefix p (String.append q r) = true) by (simpl; apply prefix_nil) ];
      rewrite H; clear H
  end.

Lemma count_inv_users_checks (d : db) : count_inv d -> users_checks (users d) = true.
Proof.
  intros [_ HB]; unfold users_checks; apply List.forallb_forall; intros u Hu.
  rewrite List.Forall_forall in HB; rewrite (HB u Hu); apply Z.leb_le; lia.
Qed.

Lemma update_status_snd (sel : row -> bool) (s : status) (d : db) :
  snd (update_status sel s d) =
  length (List.filter (fun r => sel r && status_eqb (r_status r) Pending) (rows d)).
Proof.
  unfold update_status; induction (rows d) as [|r rs IH]; cbn; [reflexivity|].
  destruct (fold_right (update_status_step sel s) _ rs) as [d' n]; cbn in *.
  destruct (sel r && status_eqb (r_status r) Pending); cbn; congruence.
Qed.

(** A status update from a store where the counts are right. *)
Lemma run_status_update_inv (sel : row -> bool) (s : status) (w : world) :
  s <> Pending -> count_inv (w_db w) ->
  run_status_update sel s w =
  (Ret (Nat.ltb 0 (length (List.filter (fun r => sel r && status_eqb (r_status r) Pending)
                                       (rows (w_db w))))),
   set_db (fst (update_status sel s (w_db w))) w).
Proof.
  intros Hs Hc.
  pose proof (count_inv_users_checks _ (count_inv_status_update sel s _ Hs Hc)) as Hu.
  rewrite <- (update_status_snd sel s (w_db w)).
  unfold run_status_update; unfold_M.
  destruct (update_status sel s (w_db w)) as [d' n]; cbn in *.
  rewrite Hu; reflexivity.
Qed.

Lemma update_status_cancel_rows (sel : row -> bool) (s : status) (d : db) :
  s <> Pending ->
  fst (update_status sel s d) = mkdb (dec_users sel (rows d) (users d)) (map (status_row sel s) (rows d)).
Proof.
  intros Hs; unfold update_status; rewrite update_status_fold.
  destruct s; [congruence|reflexivity|reflexivity].
Qed.

Lemma filter_exists_length {A} (f : A -> bool) (l : list A) :
  Exists (fun x => f x = true) l -> Nat.ltb 0 (length (List.filter f l)) = true.
Proof.
  induction 1 as [x l Hx|x l _ IH]; cbn; [rewrite Hx; reflexivity|].
  destruct (f x); [reflexivity|exact IH].
Qed.

(** ** Cancelling by id *)

(** X1: [/cancel <id>] and the [cancel_<id>] button, from a store where every
    user's count is right and [<id>] names a pending row: every pending row
    with that id is cancelled, whoever owns it (neither the command's sender
    nor the button's presser is compared with the owner), and the owner's
    count goes down accordingly. *)
Theorem cancel_ignores_owner (rid : string) (chat from_user : Z) (w : world) :
  count_inv (w_db w) ->
  Exists (fun r => r_id r = rid /\ r_status r = Pending) (rows (w_db w)) ->
  cancel_reminder [rid] w =
    (Ret tt, push_reply (ReplyCancelled rid)
               (set_db (mkdb (dec_users (fun r => String.eqb (r_id r) rid)
                                        (rows (w_db w)) (users (w_db w)))
                             (map (status_row (fun r => String.eqb (r_id r) rid) Cancelled)
                                  (rows (w_db w)))) w)) /\
  w_db (snd (button_callback chat from_user (String.append "cancel_" rid) w)) =
    mkdb (dec_users (fun r => String.eqb (r_id r) rid) (rows (w_db w)) (users (w_db w)))
         (map (status_row (fun r => String.eqb (r_id r) rid) Cancelled) (rows (w_db w))).
Proof.
  intros Hc Hex.
  assert (Hd : delete_reminder rid None w =
               (Ret true, set_db (mkdb (dec_users (fun r => String.eqb (r_id r) rid)
                                                  (rows (w_db w)) (users (w_db w)))
                                       (map (status_row (fun r => String.eqb (r_id r) rid) Cancelled)
                                            (rows (w_db w)))) w)).
  { unfold delete_reminder; cbn [truthy_user].
    rewrite run_status_update_inv by (discriminate || exact Hc).
    rewrite update_status_cancel_rows by discriminate.
    rewrite filter_exists_length; [reflexivity|].
    eapply List.Exists_impl; [|exact Hex]; cbn; intros r [E1 E2].
    rewrite E1, E2, String.eqb_refl; reflexivity. }
  split.
  - unfold cancel_reminder; unfold mbind, M_bind; rewrite Hd; reflexivity.
  - unfold button_callback.
    assert (Hdrop : drop 7 (String.append "cancel_" rid) = rid) by exact (drop_append "cancel_" rid).
    prefix_simpl; rewrite Hdrop.
    unfold mbind at 1, M_bind at 1; rewrite Hd; unfold_M.
    destruct (_ !! rid); reflexivity.
Qed.

Lemma cancel_ignores_owner_witness :
  count_inv (w_db armed_world) /\
  Exists (fun r => r_id r = "abcd1234"%string /\ r_status r = Pending) (rows (w_db armed_world)) /\
  w_db (snd (button_callback 7 7 (String.append "cancel_" "abcd1234") armed_world)) =
    mkdb (dec_users (fun r => String.eqb (r_id r) "abcd1234") (rows (w_db armed_world))
                    (users (w_db armed_world)))
         (map (status_row (fun r => String.eqb (r_id r) "abcd1234") Cancelled)
              (rows (w_db armed_world))).
Proof.
  assert (Hc : count_inv (w_db armed_world)).
  { vm_compute. split; repeat constructor. }
  assert (He : Exists (fun r => r_id r = "abcd1234"%string /\ r_status r = Pending)
                      (rows (w_db armed_world))).
  { vm_compute. constructor. split; reflexivity. }
  split; [exact Hc|split; [exact He|]].
  exact (proj2 (cancel_ignores_owner "abcd1234" 7 7 armed_world Hc He)).
Defined.

(** ** Completing or cancelling twice *)

Lemma update_status_noop_fold (sel : row -> bool) (s : status) (us : list user) (rs : list row) :
  (forall r, In r rs -> sel r && status_eqb (r_status r) Pending = false) ->
  fold_right (update_status_step sel s) (mkdb us [], 0%nat) rs = (mkdb us rs, 0%nat).
Proof.
  induction rs as [|r rs IH]; intros Hn; cbn; [reflexivity|].
  rewrite IH by (intros x Hx; apply Hn; right; exact Hx).
  cbn; rewrite (Hn r (or_introl eq_refl)); reflexivity.
Qed.

Lemma run_status_update_ret (sel : row -> bool) (s : status) (w w1 : world) (b : bool) :
  run_status_update sel s w = (Ret b, w1) ->
  w1 = set_db (fst (update_status sel s (w_db w))) w /\
  users_checks (users (fst (update_status sel s (w_db w)))) = true.
Proof.
  unfold run_status_update; unfold_M.
  destruct (update_status sel s (w_db w)) as [d' n]; cbn.
  destruct (users_checks (users d')) eqn:E; intros H; inversion H; auto.
Qed.

Lemma set_db_same (w : world) : set_db (w_db w) w = w.
Proof. destruct w; reflexivity. Qed.

Lemma status_update_again (sel sel' : row -> bool) (s s' : status) (w w1 : world) (b : bool) :
  s <> Pending -> (forall r, sel' r = true -> sel r = true) ->
  run_status_update sel s w = (Ret b, w1) -> run_status_update sel' s' w1 = (Ret false, w1).
Proof.
  intros Hs Hsel H; apply run_status_update_ret in H as [-> Hu].
  rewrite update_status_cancel_rows in * by exact Hs.
  unfold run_status_update; unfold_M.
  unfold update_status; cbn.
  rewrite update_status_noop_fold; cbn.
  - rewrite Hu; reflexivity.
  - intros r' Hr'; apply List.in_map_iff in Hr' as (r & <- & _).
    unfold status_row.
    destruct (sel r) eqn:E1, (r_status r) eqn:E2; cbn [andb status_eqb];
      cbn [set_status r_status]; rewrite ?E2;
      destruct s; try congruence; cbn; try apply andb_false_r.
    all: destruct (sel' r) eqn:E3; [rewrite (Hsel r E3) in E1; discriminate|reflexivity].
Qed.

(** X2: Once [mark_reminder_complete] or [delete_reminder] has returned for an
    id, whether it changed a row or not, completing it or cancelling it
    again (with or without a user filter) returns [False] and changes
    nothing: no row with that id is pending any more. *)
Theorem complete_or_cancel_once (rid : string) (u : option Z) (w w1 : world) (b : bool) :
  mark_reminder_complete rid w = (Ret b, w1) \/ delete_reminder rid None w = (Ret b, w1) ->
  mark_reminder_complete rid w1 = (Ret false, w1) /\ delete_reminder rid u w1 = (Ret false, w1).
Proof.
  intros H.
  assert (Hfirst : exists s, s <> Pending /\
                   run_status_update (fun r => String.eqb (r_id r) rid) s w = (Ret b, w1)).
  { destruct H as [H|H]; [exists Completed|exists Cancelled]; split; try discriminate; exact H. }
  destruct Hfirst as (s & Hs & H1).
  split.
  - unfold mark_reminder_complete. eapply status_update_again; [exact Hs| |exact H1]; auto.
  - unfold delete_reminder. destruct (truthy_user u) as [v|].
    + eapply status_update_again; [exact Hs| |exact H1].
      intros r Hr; apply andb_true_iff in Hr as [Hr _]; exact Hr.
    + eapply status_update_again; [exact Hs| |exact H1]; auto.
Qed.

Lemma complete_or_cancel_once_witness :
  mark_reminder_complete "abcd1234" armed_world =
    (Ret true, snd (mark_reminder_complete "abcd1234" armed_world)) /\
  delete_reminder "abcd1234" (Some 42) (snd (mark_reminder_complete "abcd1234" armed_world)) =
    (Ret false, snd (mark_reminder_complete "abcd1234" armed_world)).
Proof.
  assert (H : mark_reminder_complete "abcd1234" armed_world =
              (Ret true, snd (mark_reminder_complete "abcd1234" armed_world)))
    by (vm_compute; reflexivity).
  split; [exact H|].
  exact (proj2 (complete_or_cancel_once "abcd1234" (Some 42) armed_world _ true (or_introl H))).
Defined.

(** ** What [update_reminder] may change *)









(** ** Saving, then looking up *)

Lemma find_app_single {A} (f : A -> bool) (l : list A) (x : A) :
  (forall y, In y l -> f y = false) -> f x = true -> List.find f (l ++ [x]) = Some x.
Proof.
  induction l as [|y l IH]; intros Hl Hx; cbn; [rewrite Hx; reflexivity|].
  rewrite (Hl y (or_introl eq_refl)); apply IH; auto.
  intros z Hz; apply Hl; right; exact Hz.
Qed.

(** X4: After a successful [save_reminder], [get_reminder_by_id] finds the new
    row under its id, as pending, with the saved fields, both without a user
    filter and with the owner's id. *)
Theorem saved_reminder_found (user_id : Z) (rid message : string) (t : datetime)
    (priority : string) (rt : option string) (ri : option Z) (parent : option string)
    (w w1 : world) :
  save_reminder user_id rid message t priority rt ri parent w = (Ret true, w1) ->
  get_reminder_by_id rid None w1 =
    (Ret (Some (mkrow rid user_id message t Pending priority rt ri None parent)), w1) /\
  get_reminder_by_id rid (Some user_id) w1 =
    (Ret (Some (mkrow rid user_id message t Pending priority rt ri None parent)), w1).
Proof.
  intros H; apply save_ret in H as [Hrows Hnone].
  assert (Hl : forall u, (u = None \/ u = Some user_id) ->
                 List.find (pending_sel rid u) (rows (w_db w1)) =
                 Some (mkrow rid user_id message t Pending priority rt ri None parent)).
  { intros u Hu; rewrite Hrows; apply find_app_single.
    - intros y Hy; pose proof (List.find_none _ _ Hnone y Hy) as Hy'; cbn in Hy'.
      unfold pending_sel; rewrite Hy'; reflexivity.
    - unfold pending_sel; cbn; rewrite String.eqb_refl; cbn.
      destruct Hu as [-> | ->]; cbn; [reflexivity|].
      destruct (Z.eqb user_id 0); [reflexivity|]. apply Z.eqb_refl. }
  unfold get_reminder_by_id; unfold_M.
  rewrite (Hl None (or_introl eq_refl)), (Hl (Some user_id) (or_intror eq_refl)).
  split; reflexivity.
Qed.

Lemma saved_reminder_found_witness :
  save_reminder 42 "feed0001" "Water plants" nine_am_0309 "low" None None None armed_world =
    (Ret true, snd (save_reminder 42 "feed0001" "Water plants" nine_am_0309 "low" None None None
                     armed_world)) /\
  get_reminder_by_id "feed0001" (Some 42)
    (snd (save_reminder 42 "feed0001" "Water plants" nine_am_0309 "low" None None None armed_world)) =
    (Ret (Some (mkrow "feed0001" 42 "Water plants" nine_am_0309 Pending "low" None None None None)),
     snd (save_reminder 42 "feed0001" "Water plants" nine_am_0309 "low" None None None armed_world)).
Proof.
  assert (H : save_reminder 42 "feed0001" "Water plants" nine_am_0309 "low" None None None armed_world =
    (Ret true, snd (save_reminder 42 "feed0001" "Water plants" nine_am_0309 "low" None None None
                     armed_world))) by (vm_compute; reflexivity).
  split; [exact H|].
  exact (proj2 (saved_reminder_found 42 "feed0001" "Water plants" nine_am_0309 "low" None None None
                  armed_world _ H)).
Defined.

(** ** [cleanup_old_reminders] *)

(** X5: [cleanup_old_reminders] never removes a pending row nor a row at or
    after the cutoff, leaves the [users] table as it was, and returns the
    number of rows it removed. *)
Theorem cleanup_only_old_finished (cutoff : datetime) (w : world) :
  users (w_db (snd (cleanup_old_reminders cutoff w))) = users (w_db w) /\
  (forall r, In r (rows (w_db (snd (cleanup_old_reminders cutoff w)))) -> In r (rows (w_db w))) /\
  (forall r, In r (rows (w_db w)) -> ~ In r (rows (w_db (snd (cleanup_old_reminders cutoff w)))) ->
             r_status r <> Pending /\ local_seconds (r_time r) < local_seconds cutoff) /\
  fst (cleanup_old_reminders cutoff w) =
    Ret (length (rows (w_db w)) - length (rows (w_db (snd (cleanup_old_reminders cutoff w)))))%nat.
Proof.
  unfold cleanup_old_reminders; unfold_M.
  split; [reflexivity|split; [|split]].
  - intros r Hr; apply List.filter_In in Hr; tauto.
  - intros r Hr Hn.
    destruct (negb (status_eqb (r_status r) Pending) &&
              (local_seconds (r_time r) <? local_seconds cutoff)) eqn:Ho.
    + apply andb_true_iff in Ho as [H1 H2].
      split; [destruct (r_status r); cbn in H1; congruence|apply Z.ltb_lt; exact H2].
    + exfalso; apply Hn, List.filter_In; split; [exact Hr|rewrite Ho; reflexivity].
  - pose proof (List.filter_length
                  (fun r => negb (status_eqb (r_status r) Pending) &&
                            (local_seconds (r_time r) <? local_seconds cutoff))
                  (rows (w_db w))) as E; cbn beta in E.
    f_equal; lia.
Qed.

(** ** The [edit_] callbacks *)

Lemma edit_button_reply (chat from_user : Z) (rest : string) (w : world) :
  button_callback chat from_user (String.append "edit_" rest) w =
  (Ret tt, push_reply (match List.find (pending_sel rest None) (rows (w_db w)) with
                       | Some _ => ReplyOther | None => ReplyNotFound end) w).
Proof.
  unfold button_callback.
  assert (Hdrop : drop 5 (String.append "edit_" rest) = rest) by exact (drop_append "edit_" rest).
  prefix_simpl; rewrite Hdrop.
  unfold get_reminder_by_id, reply_text; unfold_M.
  destruct (List.find _ _); reflexivity.
Qed.

(** X6: Every callback whose data starts with [edit_] only sends one reply
    ("not found" or the edit menu); it changes neither the store, nor the
    armed timers, nor [active_reminders], and sends no message. *)
Theorem edit_callback_only_replies (chat from_user : Z) (rest : string) (w : world) :
  exists rep, button_callback chat from_user (String.append "edit_" rest) w =
              (Ret tt, push_reply rep w) /\ (rep = ReplyOther \/ rep = ReplyNotFound).
Proof.
  rewrite edit_button_reply.
  destruct (List.find _ _); eexists; split; eauto.
Qed.

Lemma index_cons (s1 : string) (c : Ascii.ascii) (s2 : string) :
  String.index 0 s1 (String c s2) =
  if String.prefix s1 (String c s2) then Some 0%nat
  else match String.index 0 s1 s2 with Some n => Some (S n) | None => None end.
Proof. reflexivity. Qed.

Lemma prefix_cons (a : Ascii.ascii) (s1 : string) (b : Ascii.ascii) (s2 : string) :
  String.prefix (String a s1) (String b s2) =
  if Ascii.ascii_dec a b then String.prefix s1 s2 else false.
Proof. reflexivity. Qed.

Lemma append_cons (c : Ascii.ascii) (s t : string) :
  String.append (String c s) t = String c (String.append s t).
Proof. reflexivity. Qed.

Lemma append_empty (t : string) : String.append "" t = t.
Proof. reflexivity. Qed.

Lemma index_underscore_append (k rid : string) :
  String.index 0 "_" k = None ->
  String.index 0 "_" (String.append k (String "_"%char rid)) = Some (String.length k).
Proof.
  induction k as [|c k IH]; intros H.
  - rewrite append_empty, index_cons, prefix_cons, prefix_nil.
    destruct (Ascii.ascii_dec "_"%char "_"%char) as [_|Hn]; [reflexivity|congruence].
  - rewrite append_cons, index_cons, prefix_cons. rewrite index_cons, prefix_cons in H.
    destruct (Ascii.ascii_dec "_"%char c) as [<-|Hc].
    + rewrite prefix_nil in H; discriminate.
    + destruct (String.index 0 "_" k) eqn:E; [discriminate|].
      rewrite IH by reflexivity. reflexivity.
Qed.


Lemma find_none_intro {A} (f : A -> bool) (l : list A) :
  (forall x, In x l -> f x = false) -> List.find f l = None.
Proof.
  induction l as [|x l IH]; intros H; cbn; [reflexivity|].
  rewrite (H x (or_introl eq_refl)); apply IH; intros y Hy; apply H; right; exact Hy.
Qed.

(** X7: The sub-buttons [edit_time_<id>], [edit_msg_<id>], [edit_recur_<id>],
    [edit_prio_<id>] and [edit_cancel_<id>] are caught by the [edit_]
    branch tested before them, which looks up the id [time_<id>] (and so
    on). While no reminder id contains [_] (as none made by
    [str(uuid.uuid4())[:8]] does), each of them only replies "not found". *)
Theorem edit_sub_buttons_not_found (chat from_user : Z) (k rid : string) (w : world) :
  In k ["time"; "msg"; "recur"; "prio"; "cancel"]%string ->
  no_underscore_ids (w_db w) = true ->
  button_callback chat from_user
    (String.append "edit_" (String.append k (String.append "_" rid))) w =
  (Ret tt, push_reply ReplyNotFound w).
Proof.
  intros Hk Hids; rewrite edit_button_reply.
  assert (Hidx : String.index 0 "_" (String.append k (String.append "_" rid))
                 = Some (String.length k)).
  { apply index_underscore_append.
    repeat (destruct Hk as [<-|Hk]; [reflexivity|]); destruct Hk. }
  replace (List.find _ _) with (@None row); [reflexivity|].
  symmetry; apply find_none_intro; intros r Hr.
  unfold no_underscore_ids in Hids; rewrite List.forallb_forall in Hids; specialize (Hids r Hr).
  unfold pending_sel.
  destruct (String.eqb_spec (r_id r) (String.append k (String.append "_" rid))) as [E|E];
    [|reflexivity].
  rewrite E, Hidx in Hids; discriminate.
Qed.

Lemma edit_sub_buttons_not_found_witness :
  In "recur"%string ["time"; "msg"; "recur"; "prio"; "cancel"]%string /\
  no_underscore_ids (w_db armed_world) = true /\
  button_callback 42 42 (String.append "edit_" (String.append "recur" (String.append "_" "abcd1234")))
    armed_world = (Ret tt, push_reply ReplyNotFound armed_world).
Proof.
  assert (Hk : In "recur"%string ["time"; "msg"; "recur"; "prio"; "cancel"]%string)
    by (right; right; left; reflexivity).
  assert (Hi : no_underscore_ids (w_db armed_world) = true) by (vm_compute; reflexivity).
  split; [exact Hk|split; [exact Hi|]].
  exact (edit_sub_buttons_not_found 42 42 "recur" "abcd1234" armed_world Hk Hi).
Defined.

(** ** The priority and recurrence choices *)

(** X8: The buttons of the priority menu carry [set_prio_<id>_<priority>] and
    those of the recurrence menu [set_recur_<id>_<unit>_<n>]. Splitting on
    [_] gives at least four, resp. five, fields, and unpacking them into
    three, resp. four, names raises [ValueError] before anything is read
    or written: whatever the id and the choice, these buttons change
    nothing and send no reply. *)
Theorem choice_buttons_raise (chat from_user : Z) (rid p t n : string) (w : world) :
  button_callback chat from_user
    (String.append "set_prio_" (String.append rid (String.append "_" p))) w = (Raise ValueError, w) /\
  button_callback chat from_user
    (String.append "set_recur_" (String.append rid (String.append "_"
       (String.append t (String.append "_" n))))) w = (Raise ValueError, w).
Proof.
  split.
  - assert (Hs : split_on underscore
                   (String.append "set_prio_" (String.append rid (String.append "_" p)))
                 = ("set" :: "prio" :: split_on underscore rid ++ split_on underscore p)%string).
    { change (String.append "set_prio_" (String.append rid (String.append "_" p))) with
        (String.append "set" (String underscore (String.append "prio" (String underscore
           (String.append rid (String underscore p)))))).
      rewrite !split_on_app. reflexivity. }
    unfold button_callback; rewrite Hs; prefix_simpl.
    destruct (split_on underscore rid) as [|a l1] eqn:E1;
      [exfalso; exact (split_on_nonempty _ _ E1)|].
    destruct (split_on underscore p) as [|b l2] eqn:E2;
      [exfalso; exact (split_on_nonempty _ _ E2)|].
    destruct l1; reflexivity.
  - assert (Hs : split_on underscore
                   (String.append "set_recur_" (String.append rid (String.append "_"
                      (String.append t (String.append "_" n)))))
                 = ("set" :: "recur" :: split_on underscore rid ++ split_on underscore t
                      ++ split_on underscore n)%string).
    { change (String.append "set_recur_" (String.append rid (String.append "_"
                (String.append t (String.append "_" n))))) with
        (String.append "set" (String underscore (String.append "recur" (String underscore
           (String.append rid (String underscore (String.append t (String underscore n)))))))).
      rewrite !split_on_app. reflexivity. }
    unfold button_callback; rewrite Hs; prefix_simpl.
    destruct (split_on underscore rid) as [|a l1] eqn:E1;
      [exfalso; exact (split_on_nonempty _ _ E1)|].
    destruct (split_on underscore t) as [|b l2] eqn:E2;
      [exfalso; exact (split_on_nonempty _ _ E2)|].
    destruct (split_on underscore n) as [|c l3] eqn:E3;
      [exfalso; exact (split_on_nonempty _ _ E3)|].
    destruct l1 as [|? [|? ?]], l2 as [|? [|? ?]]; reflexivity.
Qed.

(** ** [reschedule_reminder] *)

Lemma schedule_timers c u rid t m p rt ri (w w1 : world) o :
  schedule_reminder c u rid t m p rt ri w = (o, w1) ->
  w_timers w1 = w_timers w \/
  exists tm, t_handle tm = w_handle w /\ w_timers w1 = tm :: w_timers w.
Proof.
  unfold schedule_reminder, get_user_timezone, pytz_timezone; unfold_M.
  repeat match goal with
         | |- context [match ?x with _ => _ end] =>
             lazymatch x with context [match _ with _ => _ end] => fail | _ => destruct x; cbn end
         end;
    intros H; inversion H; subst; cbn;
    first [left; reflexivity | right; eexists; split; [|reflexivity]; reflexivity].
Qed.

(** X9: Rescheduling an armed reminder cancels its timer: afterwards no live
    timer has the old handle (the new one, if any, gets a fresh handle), and
    the store is not written, so the row keeps its old [reminder_time]
    whatever the new time. *)
Theorem reschedule_cancels_old_timer (rid : string) (nt : option datetime) (w : world) (e : entry) :
  w_active w !! rid = Some e -> (e_timer e < w_handle w)%nat ->
  find_timer (e_timer e) (w_timers (snd (reschedule_reminder rid nt w))) = None /\
  w_db (snd (reschedule_reminder rid nt w)) = w_db w.
Proof.
  intros He Hh.
  unfold reschedule_reminder, cancel_timer; unfold_M.
  rewrite He.
  set (wc := set_timers (List.filter (fun t => negb (Nat.eqb (t_handle t) (e_timer e))) (w_timers w))
                        (w_handle w) w).
  destruct (schedule_reminder (e_chat e) (e_user e) rid
              match nt with Some t => t | None => e_scheduled e end
              (e_message e) (e_priority e) (e_rtype e) (e_rint e) wc) as [o w1] eqn:Hs.
  assert (Hdb : w_db w1 = w_db w) by (apply schedule_db in Hs; exact Hs).
  assert (Ht : forall x, In x (w_timers w1) -> Nat.eqb (t_handle x) (e_timer e) = false).
  { intros x Hx.
    destruct (schedule_timers _ _ _ _ _ _ _ _ _ _ _ Hs) as [E|(tm & Etm & E)]; rewrite E in Hx.
    - apply List.filter_In in Hx as [_ Hx]; destruct (Nat.eqb _ _); [discriminate|reflexivity].
    - destruct Hx as [<-|Hx].
      + rewrite Etm; cbn; apply Nat.eqb_neq; lia.
      + apply List.filter_In in Hx as [_ Hx]; destruct (Nat.eqb _ _); [discriminate|reflexivity]. }
  destruct o; cbn; (split; [apply find_none_intro; exact Ht|exact Hdb]).
Qed.

Lemma reschedule_cancels_old_timer_witness :
  w_active armed_world !! "abcd1234"%string = Some armed_entry /\
  (e_timer armed_entry < w_handle armed_world)%nat /\
  find_timer (e_timer armed_entry)
    (w_timers (snd (reschedule_reminder "abcd1234" None armed_world))) = None.
Proof.
  assert (He : w_active armed_world !! "abcd1234"%string = Some armed_entry)
    by (vm_compute; reflexivity).
  assert (Hh : (e_timer armed_entry < w_handle armed_world)%nat) by (vm_compute; lia).
  split; [exact He|split; [exact Hh|]].
  exact (proj1 (reschedule_cancels_old_timer "abcd1234" None armed_world armed_entry He Hh)).
Defined.

(** ** [get_user_reminders] *)

Lemma insert_by_reminder_time_perm (x : user_reminder) (l : list user_reminder) :
  Permutation (insert_by_reminder_time x l) (x :: l).
Proof.
  induction l as [|q l IH]; cbn; [reflexivity|].
  destruct (_ <=? _); [|reflexivity].
  etransitivity; [apply perm_skip, IH|apply perm_swap].
Qed.

Lemma insert_by_reminder_time_sorted (x : user_reminder) (l : list user_reminder) :
  Sorted (fun a b => local_seconds (ur_time a) <= local_seconds (ur_time b)) l ->
  Sorted (fun a b => local_seconds (ur_time a) <= local_seconds (ur_time b))
    (insert_by_reminder_time x l).
Proof.
  induction 1 as [|q l Hl IH Hd]; cbn.
  - repeat constructor.
  - destruct (Z.leb_spec (local_seconds (ur_time q)) (local_seconds (ur_time x))) as [Hq|Hq].
    + constructor; [exact IH|].
      destruct l as [|q' l]; cbn; [constructor; exact Hq|].
      destruct (_ <=? _); constructor; [inversion Hd; assumption|exact Hq].
    + constructor; [constructor; assumption|constructor; lia].
Qed.

(** X10: [get_user_reminders] reads only: it returns exactly the user's pending
    rows (each once), as dicts, in ascending order of their local reminder
    time. *)
Theorem user_reminders_pending_sorted (user_id : Z) (w : world) :
  snd (get_user_reminders user_id w) = w /\
  exists l, fst (get_user_reminders user_id w) = Ret l /\
    Permutation l (map to_user_reminder (List.filter (is_pending_of user_id) (rows (w_db w)))) /\
    Sorted (fun a b => local_seconds (ur_time a) <= local_seconds (ur_time b)) l.
Proof.
  unfold get_user_reminders; unfold_M. split; [reflexivity|].
  eexists; split; [reflexivity|].
  induction (map to_user_reminder _) as [|x l [IHp IHs]]; cbn; [split; constructor|].
  split.
  - etransitivity; [apply insert_by_reminder_time_perm|apply perm_skip, IHp].
  - apply insert_by_reminder_time_sorted, IHs.
Qed.

(* ------------------------------------------------------------------ *)
(** ** Calendar arithmetic *)

(** [civil_from_days] inverts [days_from_civil]. *)
Lemma civil_round_trip (z : Z) :
  let '(y, m, d) := civil_from_days z in days_from_civil y m d = z.
Proof.
  unfold civil_from_days.
  set (z' := z + 719468).
  set (era := z' / 146097).
  set (doe := z' - era * 146097).
  assert (Hdoe : 0 <= doe <= 146096) by (unfold doe, era; Z.to_euclidean_division_equations; lia).
  set (yoe := (doe - doe / 1460 + doe / 36524 - doe / 146096) / 365).
  assert (Hyoe : 0 <= yoe <= 399) by (unfold yoe; Z.to_euclidean_division_equations; lia).
  set (doy := doe - (365 * yoe + yoe / 4 - yoe / 100)).
  assert (Hdoy : 0 <= doy <= 365) by (unfold doy, yoe; Z.to_euclidean_division_equations; lia).
  set (mp := (5 * doy + 2) / 153).
  assert (Hmp : 0 <= mp <= 11) by (unfold mp; Z.to_euclidean_division_equations; lia).
  set (d := doy - (153 * mp + 2) / 5 + 1).
  assert (Hd : (153 * mp + 2) / 5 + d - 1 = doy) by (unfold d; lia).
  assert (Hera : (yoe + era * 400) / 400 = era).
  { rewrite Z.div_add by lia. rewrite Z.div_small by lia. lia. }
  clearbody d mp.
  unfold days_from_civil.
  destruct (mp <? 10) eqn:E.
  - apply Z.ltb_lt in E.
    replace (mp + 3 + 9) with (mp + 1 * 12) by lia. rewrite Z.mod_add, Z.mod_small by lia.
    assert (E1 : (mp + 3 <=? 2) = false) by (apply Z.leb_gt; lia).
    rewrite E1. cbn zeta. rewrite Hera, Hd.
    replace (yoe + era * 400 - era * 400) with yoe by lia. unfold doy, doe. lia.
  - apply Z.ltb_ge in E.
    replace (mp - 9 + 9) with mp by lia. rewrite Z.mod_small by lia.
    assert (E1 : (mp - 9 <=? 2) = true) by (apply Z.leb_le; lia).
    rewrite E1. cbn zeta.
    replace (yoe + era * 400 + 1 - 1) with (yoe + era * 400) by lia.
    rewrite Hera, Hd. replace (yoe + era * 400 - era * 400) with yoe by lia.
    unfold doy, doe. lia.
Qed.

Lemma days_of_local_seconds (s : Z) (off : option Z) :
  days_from_civil (dt_year (of_local_seconds s off)) (dt_month (of_local_seconds s off))
    (dt_day (of_local_seconds s off)) = s / 86400.
Proof.
  unfold of_local_seconds.
  pose proof (civil_round_trip (s / 86400)) as H.
  destruct (civil_from_days (s / 86400)) as [[y m] d]. exact H.
Qed.

Lemma of_local_seconds_fields (s : Z) (off : option Z) :
  let t := of_local_seconds s off in
  dt_hour t = (s mod 86400) / 3600 /\ dt_minute t = (s mod 86400 mod 3600) / 60 /\
  dt_second t = s mod 86400 mod 60 /\ dt_offset t = off.
Proof.
  unfold of_local_seconds. destruct (civil_from_days (s / 86400)) as [[y m] d].
  repeat split.
Qed.

Lemma local_of_local_seconds (s : Z) (off : option Z) :
  local_seconds (of_local_seconds s off) = s.
Proof.
  unfold local_seconds.
  rewrite days_of_local_seconds.
  destruct (of_local_seconds_fields s off) as (-> & -> & -> & _).
  Z.to_euclidean_division_equations; lia.
Qed.

Lemma add_seconds_of_local (s : Z) (off : option Z) (n : Z) :
  add_seconds (of_local_seconds s off) n = of_local_seconds (s + n) off.
Proof.
  unfold add_seconds. rewrite local_of_local_seconds.
  destruct (of_local_seconds_fields s off) as (_ & _ & _ & ->). reflexivity.
Qed.

Lemma to_utc_add_seconds (t : datetime) (n : Z) :
  to_utc (add_seconds t n) = to_utc t + n /\ dt_offset (add_seconds t n) = dt_offset t.
Proof.
  unfold to_utc, utcoffset, add_seconds. rewrite local_of_local_seconds.
  destruct (of_local_seconds_fields (local_seconds t + n) (dt_offset t)) as (_ & _ & _ & ->).
  split; [lia | reflexivity].
Qed.

Lemma toordinal_of_local (s : Z) (off : option Z) :
  toordinal (date_part (of_local_seconds s off)) = s / 86400 + 719163.
Proof.
  unfold toordinal, date_part; cbn [d_year d_month d_day].
  rewrite days_of_local_seconds. reflexivity.
Qed.

Lemma wall_seconds_of_local (s s' : Z) (off off' : option Z) :
  wall_seconds (date_part (of_local_seconds s off)) (time_part (of_local_seconds s' off'))
  = s / 86400 * 86400 + s' mod 86400.
Proof.
  unfold wall_seconds, date_part, time_part; cbn [d_year d_month d_day tm_hour tm_minute tm_second].
  rewrite days_of_local_seconds.
  destruct (of_local_seconds_fields s' off') as (-> & -> & -> & _).
  Z.to_euclidean_division_equations; lia.
Qed.

(** Comparisons of the fixed labels of [QUICK_TIMES]. *)
Ltac quick_labels :=
  repeat match goal with
  | |- context [String.eqb (quick_time ?a) (quick_time ?b)] =>
      let e := eval vm_compute in (String.eqb (quick_time a) (quick_time b)) in
      change (String.eqb (quick_time a) (quick_time b)) with e
  end; cbn iota.

(** [d] added to an ordinal lands on weekday [5] when [d] is
    [(5 - weekday) mod 7]. *)
Lemma saturday_offset (o : Z) :
  ((o + (5 - (o + 6) mod 7) mod 7) + 6) mod 7 = 5 /\ 0 <= (5 - (o + 6) mod 7) mod 7 <= 6.
Proof. split; Z.to_euclidean_division_equations; lia. Qed.

(** X11: with a day or week unit, [calculate_next_occurrence] computes
    the time exactly [interval] days (weeks) of 86400 seconds later in UTC,
    with the tzinfo of the previous occurrence, whatever the interval's
    sign; it returns that time unless [timedelta] overflows (more than
    999999999 days) or the result's year leaves 1..9999, where Python raises
    [OverflowError]. *)
Theorem day_week_recurrence_elapsed (last_time : datetime) (interval : Z) :
  (exists r, to_utc r = to_utc last_time + interval * 86400 /\
     dt_offset r = dt_offset last_time /\
     calculate_next_occurrence last_time "day" interval
     = if (999999999 <? Z.abs interval) || (dt_year r <? 1) || (9999 <? dt_year r)
       then NextOverflowError else NextTime r) /\
  (exists r, to_utc r = to_utc last_time + interval * 7 * 86400 /\
     dt_offset r = dt_offset last_time /\
     calculate_next_occurrence last_time "week" interval
     = if (999999999 <? Z.abs (interval * 7)) || (dt_year r <? 1) || (9999 <? dt_year r)
       then NextOverflowError else NextTime r).
Proof.
  split.
  - exists (add_seconds last_time (interval * 86400)).
    destruct (to_utc_add_seconds last_time (interval * 86400)) as [H1 H2].
    split; [exact H1|split; [exact H2|]].
    unfold calculate_next_occurrence, add_days; cbn [String.eqb Ascii.eqb Bool.eqb].
    destruct (999999999 <? Z.abs interval); reflexivity.
  - exists (add_seconds last_time (interval * 7 * 86400)).
    destruct (to_utc_add_seconds last_time (interval * 7 * 86400)) as [H1 H2].
    split; [exact H1|split; [exact H2|]].
    unfold calculate_next_occurrence, add_days; cbn [String.eqb Ascii.eqb Bool.eqb].
    destruct (999999999 <? Z.abs (interval * 7)); reflexivity.
Qed.

(** X12: the quick times "in 1 hour", "in 2 hours" and "tonight" keep the
    current date: in the last hour (two hours) of the day the result names a
    wall-clock time a day minus one (two) hours before now plus the delay,
    and after 8 PM "tonight" names a time that is not later than now. *)
Theorem quick_time_same_date (user_timezone : zone) (w : world) :
  let now := local_in_zone user_timezone (w_now w) in
  (exists t, process_quick_time (quick_time "in_1_hour") user_timezone w
             = (Ret (Some (mkquick t (date_part now))), w) /\
     wall_seconds (date_part now) t
     = local_seconds now + 3600 - (if 23 <=? dt_hour now then 86400 else 0)) /\
  (exists t, process_quick_time (quick_time "in_2_hours") user_timezone w
             = (Ret (Some (mkquick t (date_part now))), w) /\
     wall_seconds (date_part now) t
     = local_seconds now + 2 * 3600 - (if 22 <=? dt_hour now then 86400 else 0)) /\
  process_quick_time (quick_time "tonight") user_timezone w
    = (Ret (Some (mkquick (mktime 20 0 0) (date_part now))), w) /\
  (20 <= dt_hour now -> wall_seconds (date_part now) (mktime 20 0 0) <= local_seconds now).
Proof.
  cbn zeta. unfold process_quick_time, mbind, M_bind, mret, M_ret, get.
  cbv beta zeta iota. quick_labels.
  unfold local_in_zone.
  set (off := zone_offset_at user_timezone (w_now w)).
  set (s := w_now w + off).
  rewrite !add_seconds_of_local, local_of_local_seconds.
  destruct (of_local_seconds_fields s (Some off)) as (-> & _ & _ & _).
  split; [|split; [|split]].
  - eexists; split; [reflexivity|]. rewrite wall_seconds_of_local.
    destruct (23 <=? s mod 86400 / 3600) eqn:E;
      [apply Z.leb_le in E | apply Z.leb_gt in E];
      Z.to_euclidean_division_equations; lia.
  - eexists; split; [reflexivity|]. rewrite wall_seconds_of_local.
    destruct (22 <=? s mod 86400 / 3600) eqn:E;
      [apply Z.leb_le in E | apply Z.leb_gt in E];
      Z.to_euclidean_division_equations; lia.
  - reflexivity.
  - intros H. unfold wall_seconds, date_part; cbn [d_year d_month d_day tm_hour tm_minute tm_second].
    rewrite days_of_local_seconds.
    Z.to_euclidean_division_equations; lia.
Qed.

(** X13: "tomorrow morning" and "tomorrow afternoon" give the next calendar
    date at 9:00 and 14:00, and "this weekend" gives the first Saturday from
    today on (today itself on a Saturday, never a Sunday) at 10:00. *)
Theorem quick_time_dates_ahead (user_timezone : zone) (w : world) :
  let now := local_in_zone user_timezone (w_now w) in
  exists d1 d6,
    process_quick_time (quick_time "tomorrow_morning") user_timezone w
      = (Ret (Some (mkquick (mktime 9 0 0) d1)), w) /\
    process_quick_time (quick_time "tomorrow_afternoon") user_timezone w
      = (Ret (Some (mkquick (mktime 14 0 0) d1)), w) /\
    toordinal d1 = toordinal (date_part now) + 1 /\
    process_quick_time (quick_time "this_weekend") user_timezone w
      = (Ret (Some (mkquick (mktime 10 0 0) d6)), w) /\
    weekday d6 = 5 /\ 0 <= toordinal d6 - toordinal (date_part now) <= 6.
Proof.
  cbn zeta. unfold process_quick_time, mbind, M_bind, mret, M_ret, get.
  cbv beta zeta iota. quick_labels.
  unfold local_in_zone.
  set (off := zone_offset_at user_timezone (w_now w)).
  set (s := w_now w + off).
  rewrite !add_seconds_of_local.
  do 2 eexists. split; [reflexivity|]. split; [reflexivity|].
  rewrite !toordinal_of_local. split.
  { replace (s + 86400) with (s + 1 * 86400) by lia. rewrite Z.div_add by lia. lia. }
  split; [reflexivity|].
  unfold weekday. rewrite !toordinal_of_local, Z.div_add by lia.
  destruct (saturday_offset (s / 86400 + 719163)) as [H1 H2].
  split; [|lia].
  replace (s / 86400 + (5 - (s / 86400 + 719163 + 6) mod 7) mod 7 + 719163 + 6)
    with (s / 86400 + 719163 + (5 - (s / 86400 + 719163 + 6) mod 7) mod 7 + 6) by lia.
  exact H1.
Qed.

(* ------------------------------------------------------------------ *)
(** ** [parse_reminder] *)

Lemma reminder_lines_app (a b : string) :
  reminder_lines (String.append a (String newline b)) = reminder_lines a ++ reminder_lines b.
Proof.
  unfold reminder_lines. rewrite split_on_app, List.filter_app, map_app. reflexivity.
Qed.

Lemma parse_lines_app (st : list parsed * parsed) (l1 l2 : list string) :
  parse_lines st (l1 ++ l2) =
  match parse_lines st l1 with Ret st' => parse_lines st' l2 | Raise e => Raise e end.
Proof.
  revert st. induction l1 as [|x l1 IH]; intros st; [reflexivity|].
  cbn. destruct (parse_line st x); [apply IH | reflexivity].
Qed.

Lemma key_value_raises (key line : string) (e : exn) :
  key_value key line = Raise e -> e = AttributeError.
Proof.
  unfold key_value. destruct (drop (String.length key) line); congruence.
Qed.

Lemma parse_line_raises (st : list parsed * parsed) (line : string) (e : exn) :
  parse_line st line = Raise e -> e = AttributeError.
Proof.
  destruct st as [rs cur]. unfold parse_line.
  destruct (String.prefix "date:" (lower line)).
  { destruct (flush rs cur). destruct (key_value "date:" line) eqn:K; [discriminate|].
    intros [= <-]. exact (key_value_raises _ _ _ K). }
  destruct (String.prefix "time:" (lower line)).
  { destruct (flush rs cur). destruct (key_value "time:" line) eqn:K; [discriminate|].
    intros [= <-]. exact (key_value_raises _ _ _ K). }
  destruct (truthy (pr_time cur)); discriminate.
Qed.

Lemma parse_lines_raises (st : list parsed * parsed) (lines : list string) (e : exn) :
  parse_lines st lines = Raise e -> e = AttributeError.
Proof.
  revert st. induction lines as [|x l IH]; intros st; cbn; [discriminate|].
  destruct (parse_line st x) eqn:P; [apply IH|].
  intros [= <-]. exact (parse_line_raises _ _ _ P).
Qed.

Lemma flush_inv (rs : list parsed) (cur : parsed) :
  parse_inv (rs, cur) ->
  parse_inv (flush rs cur) /\ (pending_count (flush rs cur) <= pending_count (rs, cur))%nat /\
  (truthy (pr_time cur) = true -> pr_time (snd (flush rs cur)) = None \/ snd (flush rs cur) = cur).
Proof.
  intros [Hrs Hm]. unfold flush, pending_count, parse_inv in *; cbn in *.
  destruct (truthy (pr_time cur)) eqn:Ht; cbn.
  - destruct (truthy (pr_message cur)) eqn:Hmsg; cbn.
    + rewrite length_app; cbn. split; [split|split; [lia|auto]].
      * apply Forall_app; split; [exact Hrs|]. constructor; [|constructor].
        split; [exact Ht|]. destruct Hm as [Hm|Hm]; [rewrite Hm in Hmsg; discriminate|exact Hm].
      * left; reflexivity.
    + rewrite Ht. split; [split; assumption|split; [lia|auto]].
  - split; [split; assumption|]. rewrite Ht. split; [lia|discriminate].
Qed.

Lemma parse_line_inv (st st' : list parsed * parsed) (line : string) :
  parse_inv st -> parse_line st line = Ret st' ->
  parse_inv st' /\
  (pending_count st' <= pending_count st + (if String.prefix "time:" (lower line) then 1 else 0))%nat.
Proof.
  destruct st as [rs cur]. intros Hi. unfold parse_line.
  destruct (String.prefix "date:" (lower line)) eqn:Hd.
  { destruct (flush_inv rs cur Hi) as ([Hrs' Hm'] & Hc & Ht).
    destruct (flush rs cur) as [rs' cur'] eqn:F. cbn in *.
    destruct (key_value "date:" line); [|discriminate]. intros [= <-].
    unfold pending_count in *; cbn in *. split; [split; assumption|].
    destruct (String.prefix "time:" (lower line)); lia. }
  destruct (String.prefix "time:" (lower line)) eqn:Ht.
  { destruct (flush_inv rs cur Hi) as ([Hrs' Hm'] & Hc & Htc).
    destruct (flush rs cur) as [rs' cur'] eqn:F. cbn in *.
    destruct (key_value "time:" line); [|discriminate]. intros [= <-].
    unfold pending_count in *; cbn in *. split; [split; assumption|].
    destruct a as [|? ?], (truthy (pr_time cur)) eqn:E1, (truthy (pr_time cur')) eqn:E2; lia. }
  destruct (truthy (pr_time cur)) eqn:Htt.
  - cbv zeta. intros [= <-]. destruct Hi as [Hrs Hm]. cbn [fst snd] in Hrs, Hm. unfold pending_count; cbn. split.
    + split; [exact Hrs|]. right. cbn.
      destruct (pr_message cur) as [m|] eqn:Em.
      * destruct Hm as [Hm|[m' Hm]]; [congruence|]. rewrite Hm in Em. injection Em as <-.
        eexists. reflexivity.
      * eexists. reflexivity.
    + rewrite Htt. lia.
  - intros [= <-]. split; [exact Hi|lia].
Qed.

Lemma parse_lines_inv (st st' : list parsed * parsed) (lines : list string) :
  parse_inv st -> parse_lines st lines = Ret st' ->
  parse_inv st' /\ (pending_count st' <= pending_count st + time_lines lines)%nat.
Proof.
  revert st. induction lines as [|x l IH]; intros st Hi; cbn.
  - intros [= <-]. split; [exact Hi|lia].
  - destruct (parse_line st x) as [st1|e] eqn:P; [|discriminate]. intros Hl.
    destruct (parse_line_inv st st1 x Hi P) as [Hi1 Hc1].
    destruct (IH st1 Hi1 Hl) as [Hi' Hc']. split; [exact Hi'|].
    unfold time_lines in *. cbn.
    destruct (String.prefix "time:" (lower x)); cbn in *; lia.
Qed.

Lemma parse_lines_skip (st : list parsed * parsed) (lines : list string) :
  truthy (pr_time (snd st)) = false ->
  Forall (fun l => String.prefix "date:" (lower l) = false /\ String.prefix "time:" (lower l) = false) lines ->
  parse_lines st lines = Ret st.
Proof.
  destruct st as [rs cur]. intros Ht Hl. induction Hl as [|x l [Hd Htm] _ IH]; [reflexivity|].
  cbn. unfold parse_line. rewrite Hd, Htm. cbn in Ht. rewrite Ht. exact IH.
Qed.

(** X14: [parse_reminder] either raises [AttributeError] (no other
    exception) or returns reminders that each have a non-empty time and a
    message starting with a space; there are at most as many as the lines
    that start with [time:] (up to case). *)
Theorem parse_reminder_result (text : string) :
  parse_reminder text = Raise AttributeError \/
  exists l, parse_reminder text = Ret l /\ Forall saved_ok l /\
            (length l <= time_lines (reminder_lines text))%nat.
Proof.
  unfold parse_reminder.
  destruct (parse_lines ([], empty_parsed) (reminder_lines text)) as [[rs cur]|e] eqn:P.
  - right. eexists; split; [reflexivity|].
    assert (Hi0 : parse_inv ([], empty_parsed)) by (split; [constructor|left; reflexivity]).
    destruct (parse_lines_inv _ _ _ Hi0 P) as [Hi Hc].
    destruct (flush_inv rs cur Hi) as ([Hf _] & Hfc & _).
    split; [exact Hf|].
    unfold pending_count in *; cbn in *. destruct (flush rs cur) as [rs' cur']; cbn in *.
    destruct (truthy (pr_time cur')); lia.
  - left. rewrite (parse_lines_raises _ _ _ P). reflexivity.
Qed.

(** X15: a line that is only a bare [date:] or [time:] (in any of these
    spellings) makes [parse_reminder] raise [AttributeError], whatever the
    text around it. *)
Theorem parse_reminder_bare_key_raises (a b key : string) :
  In key ["date:"; "time:"; "Date:"; "Time:"; "DATE:"; "TIME:"]%string ->
  parse_reminder (String.append a (String newline (String.append key (String newline b))))
  = Raise AttributeError.
Proof.
  intros Hk.
  assert (Hl : reminder_lines key = [key] /\
               forall rs cur, parse_line (rs, cur) key = Raise AttributeError).
  { destruct Hk as [<-|[<-|[<-|[<-|[<-|[<-|[]]]]]]];
      (split; [vm_compute; reflexivity|]); intros rs cur; unfold parse_line;
      simpl lower; simpl String.prefix; cbv zeta iota;
      destruct (flush rs cur); reflexivity. }
  destruct Hl as [Hl Hr].
  unfold parse_reminder. rewrite !reminder_lines_app, Hl, parse_lines_app.
  destruct (parse_lines ([], empty_parsed) (reminder_lines a)) as [[rs cur]|e] eqn:P.
  - cbn [app parse_lines]. rewrite Hr. reflexivity.
  - rewrite (parse_lines_raises _ _ _ P). reflexivity.
Qed.

Lemma parse_reminder_bare_key_raises_witness :
  In "Time:"%string ["date:"; "time:"; "Date:"; "Time:"; "DATE:"; "TIME:"]%string /\
  parse_reminder (String.append "time: 9am" (String newline (String.append "Time:" (String newline "Call mom"))))
  = Raise AttributeError.
Proof.
  split; [right; right; right; left; reflexivity|].
  apply parse_reminder_bare_key_raises. right; right; right; left; reflexivity.
Defined.

(** X16: lines before the first [date:] or [time:] line are dropped:
    [parse_reminder] gives the same result without them. *)
Theorem parse_reminder_drops_leading_lines (a b : string) :
  Forall (fun l => String.prefix "date:" (lower l) = false /\ String.prefix "time:" (lower l) = false)
    (reminder_lines a) ->
  parse_reminder (String.append a (String newline b)) = parse_reminder b.
Proof.
  intros H. unfold parse_reminder. rewrite reminder_lines_app, parse_lines_app.
  rewrite (parse_lines_skip ([], empty_parsed) _ eq_refl H). reflexivity.
Qed.

Lemma parse_reminder_drops_leading_lines_witness :
  Forall (fun l => String.prefix "date:" (lower l) = false /\ String.prefix "time:" (lower l) = false)
    (reminder_lines "Reminders for tomorrow:"%string) /\
  parse_reminder (String.append "Reminders for tomorrow:" (String newline (String.append "time: 9am" (String newline "Call mom"))))
  = parse_reminder (String.append "time: 9am" (String newline "Call mom")).
Proof.
  split; [vm_compute; repeat constructor|].
  apply parse_reminder_drops_leading_lines. vm_compute. repeat constructor.
Defined.

(* ------------------------------------------------------------------ *)
(** ** [format_reminder_text] read back by [parse_reminder] *)

Lemma string_app_assoc (a b c : string) :
  String.append (String.append a b) c = String.append a (String.append b c).
Proof. induction a as [|x a IH]; [reflexivity|]. rewrite !append_cons, IH. reflexivity. Qed.

Lemma bytes_app (a b : string) : bytes (String.append a b) = bytes a ++ bytes b.
Proof.
  induction a as [|x a IH]; [reflexivity|]. rewrite append_cons. unfold bytes in *; cbn.
  rewrite IH. reflexivity.
Qed.

Lemma lower_app (a b : string) : lower (String.append a b) = String.append (lower a) (lower b).
Proof. induction a as [|x a IH]; [reflexivity|]. rewrite append_cons; cbn [lower]. rewrite IH. reflexivity. Qed.

Lemma prefix_app_self (a b : string) : String.prefix a (String.append a b) = true.
Proof.
  induction a as [|x a IH]; [apply prefix_nil|]. rewrite append_cons, prefix_cons.
  destruct (Ascii.ascii_dec x x) as [_|n]; [exact IH|contradiction].
Qed.

Ltac nat_cases :=
  repeat match goal with
  | |- context [(?a <=? ?b)%nat] => destruct (Nat.leb_spec a b)
  | |- context [(?a =? ?b)%nat] => destruct (Nat.eqb_spec a b)
  end; cbn; try reflexivity; try lia.

Lemma safe_not_space (c : Ascii.ascii) :
  safe_byte c = true ->
  space1 (Ascii.nat_of_ascii c) = false /\
  (forall b, space2 (Ascii.nat_of_ascii c) b = false) /\
  (forall b d, space3 (Ascii.nat_of_ascii c) b d = false) /\
  (forall a, space2 a (Ascii.nat_of_ascii c) = false) /\
  (forall a b, space3 a b (Ascii.nat_of_ascii c) = false).
Proof.
  unfold safe_byte, space1, space2, space3. set (n := Ascii.nat_of_ascii c).
  intros H. apply andb_prop in H as [H1 H2]. apply Nat.leb_le in H1, H2.
  assert (L : forall k, (k < 33)%nat -> (n <=? k)%nat = false) by (intros; apply Nat.leb_gt; lia).
  assert (G : forall k, (126 < k)%nat -> (k <=? n)%nat = false) by (intros; apply Nat.leb_gt; lia).
  assert (Q : forall k, (k < 33 \/ 126 < k)%nat -> (n =? k)%nat = false)
    by (intros; apply Nat.eqb_neq; lia).
  rewrite (L 13%nat), (L 32%nat), !(Q 194%nat), !(Q 225%nat), !(Q 226%nat), !(Q 227%nat) by lia; cbn [andb orb].
  repeat split; intros;
    rewrite ?(Q 133%nat), ?(Q 160%nat), ?(Q 154%nat), ?(Q 128%nat), ?(Q 129%nat), ?(Q 168%nat), ?(Q 169%nat), ?(Q 175%nat),
      ?(Q 159%nat), ?(G 128%nat) by lia;
    repeat match goal with
    | |- context [(?x =? ?y)%nat] => destruct (x =? y)%nat
    | |- context [(?x <=? ?y)%nat] => destruct (x <=? y)%nat
    end; reflexivity.
Qed.

Lemma lstrip_safe (c : Ascii.ascii) (l : list Ascii.ascii) :
  safe_byte c = true -> lstrip_bytes (c :: l) = c :: l.
Proof.
  intros H. destruct (safe_not_space c H) as (H1 & H2 & H3 & _).
  cbn. rewrite H1. destruct l as [|b [|d l]]; [reflexivity| |]; rewrite H2; [reflexivity|].
  rewrite H3. reflexivity.
Qed.

Lemma rstrip_safe (c : Ascii.ascii) (l : list Ascii.ascii) :
  safe_byte c = true -> rstrip_rev (c :: l) = c :: l.
Proof.
  intros H. destruct (safe_not_space c H) as (H1 & _ & _ & H4 & H5).
  cbn. rewrite H1. destruct l as [|b [|d l]]; [reflexivity| |]; rewrite H4; [reflexivity|].
  rewrite H5. reflexivity.
Qed.

Lemma strip_clean (s : string) :
  first_ok s = true -> last_ok s = true -> py_strip s = s.
Proof.
  intros Hf Hl. unfold py_strip.
  destruct s as [|c s']; [discriminate|]. cbn in Hf.
  fold (bytes (String c s')).
  replace (lstrip_bytes (bytes (String c s'))) with (bytes (String c s'))
    by (symmetry; apply lstrip_safe; exact Hf).
  unfold last_ok in Hl. destruct (rev (bytes (String c s'))) as [|z l] eqn:E; [discriminate|].
  rewrite rstrip_safe by exact Hl. rewrite <- E, rev_involutive.
  apply String.string_of_list_ascii_of_string.
Qed.

Lemma strip_space_clean (s : string) :
  first_ok s = true -> last_ok s = true -> py_strip (String space s) = s.
Proof.
  intros Hf Hl. rewrite <- (strip_clean s Hf Hl) at 2. reflexivity.
Qed.

Lemma last_ok_app (a b : string) : last_ok b = true -> last_ok (String.append a b) = true.
Proof.
  unfold last_ok. rewrite bytes_app, rev_app_distr.
  destruct (rev (bytes b)); [discriminate|]. auto.
Qed.

Lemma no_newline_app (a b : string) :
  no_newline (String.append a b) = no_newline a && no_newline b.
Proof. unfold no_newline. rewrite bytes_app, forallb_app. reflexivity. Qed.

Lemma all_safe_app (a b : string) :
  all_safe (String.append a b) = all_safe a && all_safe b.
Proof. unfold all_safe. rewrite bytes_app, forallb_app. reflexivity. Qed.

Lemma all_safe_cons (c : Ascii.ascii) (s : string) :
  all_safe (String c s) = safe_byte c && all_safe s.
Proof. reflexivity. Qed.

Lemma all_safe_no_newline (s : string) : all_safe s = true -> no_newline s = true.
Proof.
  unfold all_safe, no_newline. rewrite !forallb_forall. intros H c Hc.
  specialize (H c Hc). destruct (Ascii.eqb_spec c newline) as [->|]; [discriminate|reflexivity].
Qed.

Lemma all_safe_ends (s : string) :
  s <> EmptyString -> all_safe s = true -> first_ok s = true /\ last_ok s = true.
Proof.
  intros Hne H. unfold all_safe in H. rewrite forallb_forall in H. split.
  - destruct s as [|c s]; [contradiction|]. apply H. left; reflexivity.
  - unfold last_ok. destruct (rev (bytes s)) as [|c l] eqn:E.
    + destruct s; [contradiction|]. unfold bytes in E; cbn in E.
      apply app_eq_nil in E as [_ E]; discriminate.
    + apply H. rewrite <- (rev_involutive (bytes s)), E. apply in_rev. rewrite rev_involutive.
      left; reflexivity.
Qed.

Lemma digit_safe (k : Z) : 0 <= k <= 9 -> safe_byte (digit k) = true.
Proof.
  intros H. unfold safe_byte, digit. rewrite Ascii.nat_ascii_embedding by lia.
  apply andb_true_intro; split; apply Nat.leb_le; lia.
Qed.

Lemma two_digits_safe (n : Z) : 0 <= n <= 99 -> all_safe (two_digits n) = true.
Proof.
  intros H. unfold all_safe, two_digits; cbn.
  rewrite !digit_safe by (Z.to_euclidean_division_equations; lia). reflexivity.
Qed.

Lemma decimal_digits_safe (fuel : nat) (n : Z) (acc : string) :
  all_safe acc = true -> all_safe (decimal_digits fuel n acc) = true.
Proof.
  revert n acc. induction fuel as [|f IH]; intros n acc H; cbn; [exact H|].
  assert (Hd : all_safe (String (digit (n mod 10)) acc) = true).
  { unfold all_safe in *; cbn. rewrite digit_safe by (Z.to_euclidean_division_equations; lia).
    exact H. }
  destruct (n <? 10); [exact Hd|]. apply IH. exact Hd.
Qed.

Lemma decimal_digits_nonempty (f : nat) (n : Z) (acc : string) :
  decimal_digits (S f) n acc <> EmptyString.
Proof.
  revert n acc. induction f as [|f IH]; intros n acc; cbn.
  - destruct (n <? 10); discriminate.
  - destruct (n <? 10); [discriminate|]. apply IH.
Qed.

Lemma py_str_int_safe (n : Z) : all_safe (py_str_int n) = true /\ py_str_int n <> EmptyString.
Proof.
  unfold py_str_int.
  pose proof (decimal_digits_safe (S (Z.to_nat (Z.log2 (Z.abs n)))) (Z.abs n) EmptyString eq_refl) as H.
  pose proof (decimal_digits_nonempty (Z.to_nat (Z.log2 (Z.abs n))) (Z.abs n) EmptyString) as Hn.
  destruct (n <? 0); [|split; assumption].
  split; [|discriminate]. unfold all_safe in *; cbn. exact H.
Qed.

Lemma lower_byte_safe (c : Ascii.ascii) : safe_byte c = true -> safe_byte (lower_byte c) = true.
Proof.
  unfold lower_byte, safe_byte. set (n := Ascii.nat_of_ascii c). intros H.
  apply andb_prop in H as [H1 H2]. apply Nat.leb_le in H1, H2.
  destruct ((65 <=? n) && (n <=? 90))%nat eqn:E; [|fold n; apply andb_true_intro; split; apply Nat.leb_le; lia].
  apply andb_prop in E as [E1 E2]. apply Nat.leb_le in E1, E2.
  rewrite Ascii.nat_ascii_embedding by lia. apply andb_true_intro; split; apply Nat.leb_le; lia.
Qed.

Lemma all_safe_lower (s : string) : all_safe s = true -> all_safe (lower s) = true.
Proof.
  induction s as [|c s IH]; [reflexivity|]. unfold all_safe, bytes in *; cbn.
  intros H. apply andb_prop in H as [H1 H2]. rewrite lower_byte_safe, IH; auto.
Qed.

Lemma strftime_time_safe (t : time_of_day) :
  0 <= tm_minute t <= 59 ->
  all_safe (lower (strftime_I_M_p t)) = true /\ lower (strftime_I_M_p t) <> EmptyString.
Proof.
  intros Hm. unfold strftime_I_M_p. split; [|rewrite lower_app; unfold two_digits; discriminate].
  apply all_safe_lower. rewrite all_safe_app.
  assert (Hh : 1 <= (if tm_hour t mod 12 =? 0 then 12 else tm_hour t mod 12) <= 12).
  { destruct (Z.eqb_spec (tm_hour t mod 12) 0); [lia|].
    pose proof (Z.mod_pos_bound (tm_hour t) 12). lia. }
  rewrite two_digits_safe by lia. cbn [andb].
  rewrite all_safe_cons, all_safe_app, two_digits_safe by lia.
  destruct (tm_hour t <? 12); reflexivity.
Qed.

Lemma strftime_date_safe (d : date) :
  0 <= d_day d <= 99 -> 0 <= d_month d <= 99 ->
  all_safe (strftime_d_m_Y d) = true /\ strftime_d_m_Y d <> EmptyString.
Proof.
  intros Hd Hm. unfold strftime_d_m_Y. split; [|unfold two_digits; discriminate].
  rewrite !all_safe_app, !all_safe_cons, all_safe_app, all_safe_cons, !two_digits_safe by lia.
  rewrite (proj1 (py_str_int_safe (d_year d))). reflexivity.
Qed.

Lemma split_no_newline (s : string) : no_newline s = true -> split_on newline s = [s].
Proof.
  induction s as [|c s IH]; [reflexivity|]. unfold no_newline, bytes in *; cbn.
  intros H. apply andb_prop in H as [H1 H2]. destruct (Ascii.eqb c newline); [discriminate|].
  rewrite IH by exact H2. reflexivity.
Qed.

Lemma split_join (ls : list string) (m : string) :
  Forall (fun x => no_newline x = true) ls -> no_newline m = true ->
  split_on newline (join ls m) = ls ++ [m].
Proof.
  intros Hl Hm. induction Hl as [|x l Hx _ IH]; cbn [join app].
  - apply split_no_newline, Hm.
  - rewrite split_on_app, split_no_newline, IH by exact Hx. reflexivity.
Qed.

Lemma reminder_lines_join (ls : list string) (m : string) :
  Forall line_ok (ls ++ [m]) -> reminder_lines (join ls m) = ls ++ [m].
Proof.
  intros H. unfold reminder_lines.
  rewrite split_join.
  2: { apply Forall_app in H as [H _]. eapply Forall_impl; [exact H|]. intros x [Hx _]; exact Hx. }
  2: { apply Forall_app in H as [_ H]. inversion H as [|? ? [Hx _] _]; exact Hx. }
  revert H. generalize (ls ++ [m]) as l. intros l H.
  induction H as [|x l [_ [Hs Hne]] _ IH]; [reflexivity|].
  cbn [List.filter map]. rewrite Hs. destruct x as [|c x]; [contradiction|]. cbn [truthy map].
  rewrite Hs. f_equal. exact IH.
Qed.

Lemma line_ok_clean (s : string) :
  no_newline s = true -> first_ok s = true -> last_ok s = true -> line_ok s.
Proof.
  intros Hn Hf Hl. split; [exact Hn|]. split; [exact (strip_clean s Hf Hl)|].
  destruct s; [discriminate|]. discriminate.
Qed.

Lemma line_ok_safe (s : string) : all_safe s = true -> s <> EmptyString -> line_ok s.
Proof.
  intros Hs Hne. destruct (all_safe_ends s Hne Hs) as [Hf Hl].
  apply line_ok_clean; [apply all_safe_no_newline|..]; assumption.
Qed.

Lemma line_ok_key (key s : string) :
  no_newline key = true -> first_ok key = true -> all_safe s = true -> s <> EmptyString ->
  line_ok (String.append key s).
Proof.
  intros Hk Hf Hs Hne. destruct (all_safe_ends s Hne Hs) as [_ Hl].
  apply line_ok_clean.
  - rewrite no_newline_app, Hk, all_safe_no_newline by exact Hs. reflexivity.
  - destruct key as [|c key]; [discriminate|]. exact Hf.
  - apply last_ok_app, Hl.
Qed.

Lemma parse_lines_skip1 (rs : list parsed) (cur : parsed) (x : string) (rest : list string) :
  String.prefix "date:" (lower x) = false -> String.prefix "time:" (lower x) = false ->
  truthy (pr_time cur) = false ->
  parse_lines (rs, cur) (x :: rest) = parse_lines (rs, cur) rest.
Proof. intros Hd Ht Hc. cbn [parse_lines]. unfold parse_line. rewrite Hd, Ht, Hc. reflexivity. Qed.

Lemma parse_lines_date (rs : list parsed) (x : string) (rest : list string) :
  parse_lines (rs, mkparsed None None None) (String.append "date: " x :: rest)
  = parse_lines (rs, mkparsed (Some (py_strip (String space x))) None None) rest.
Proof.
  change (String.append "date: " x) with (String.append "date:" (String space x)).
  cbn [parse_lines]. unfold parse_line.
  rewrite lower_app. change (lower "date:") with "date:"%string. rewrite prefix_app_self.
  unfold key_value. rewrite drop_append. reflexivity.
Qed.

Lemma parse_lines_time (rs : list parsed) (d : option string) (x : string) (rest : list string) :
  parse_lines (rs, mkparsed d None None) (String.append "time: " x :: rest)
  = parse_lines (rs, mkparsed d (Some (py_strip (String space x))) None) rest.
Proof.
  change (String.append "time: " x) with (String.append "time:" (String space x)).
  cbn [parse_lines]. unfold parse_line.
  rewrite lower_app. change (lower "time:") with "time:"%string. rewrite prefix_app_self.
  change (String.prefix "date:" (String.append "time:" (lower (String space x)))) with false.
  cbv iota. unfold key_value. rewrite drop_append. reflexivity.
Qed.

Lemma parse_lines_message (rs : list parsed) (cur : parsed) (x : string) (rest : list string) :
  String.prefix "date:" (lower x) = false -> String.prefix "time:" (lower x) = false ->
  truthy (pr_time cur) = true ->
  parse_lines (rs, cur) (x :: rest)
  = parse_lines (rs, mkparsed (pr_date cur) (pr_time cur)
                   (Some (String.append (match pr_message cur with Some m => m | None => EmptyString end)
                            (String space x)))) rest.
Proof. intros Hd Ht Hc. cbn [parse_lines]. unfold parse_line. rewrite Hd, Ht, Hc. reflexivity. Qed.

Lemma format_join (today : date) (parsed : nl_parsed) :
  format_reminder_text today parsed = join (format_lines today parsed) (nl_message parsed).
Proof.
  unfold format_reminder_text, format_lines. cbv zeta.
  destruct (negb (String.eqb (nl_priority parsed) "medium")),
           (negb (date_eqb (nl_date parsed) today)),
           (nl_recurrence_type parsed) as [rt|]; try destruct (truthy (Some rt));
    cbn [app join]; unfold line; rewrite ?string_app_assoc; reflexivity.
Qed.

Lemma truthy_nonempty (s : string) : s <> EmptyString -> truthy (Some s) = true.
Proof. destruct s; [contradiction|reflexivity]. Qed.

Lemma repeat_line_ok (n : Z) (u : string) :
  In u ["day"; "week"; "month"]%string ->
  line_ok (String.append "repeat: every " (String.append (py_str_int n) (String " " (String.append u "(s)")))).
Proof.
  intros Hu. destruct (py_str_int_safe n) as [Hs Hne].
  apply line_ok_clean.
  - rewrite !no_newline_app, (all_safe_no_newline _ Hs).
    destruct Hu as [<-|[<-|[<-|[]]]]; reflexivity.
  - reflexivity.
  - apply last_ok_app, last_ok_app. destruct Hu as [<-|[<-|[<-|[]]]]; reflexivity.
Qed.

Ltac closed_negb :=
  repeat match goal with
  | |- context [negb (String.eqb ?a ?b)] =>
      let v := eval vm_compute in (negb (String.eqb a b)) in change (negb (String.eqb a b)) with v
  end.

(** X17: for a parse result with a valid time of day (minute 0..59), a
    valid day and month, a priority among [high], [medium] and [low], a
    recurrence unit that is absent or one of [day], [week] and [month], and
    a message of one non-empty, stripped line that does not begin with
    [date:] or [time:] in any letter case (such a message would be read as
    a date or time line), the text [format_reminder_text] builds, as
    [handle_message] feeds it to [parse_reminder], reads back as one
    reminder: its time is the formatted time, its date the formatted date
    when it is not the server's today, and its message the [repeat: ...]
    line (when there is a recurrence) followed by the message, each after a
    space; the priority line precedes the time line and is dropped. *)
Theorem format_reminder_text_parses (today : date) (parsed : nl_parsed) :
  0 <= tm_minute (nl_time parsed) <= 59 ->
  1 <= d_day (nl_date parsed) <= 31 -> 1 <= d_month (nl_date parsed) <= 12 ->
  In (nl_priority parsed) ["high"; "medium"; "low"]%string ->
  (nl_recurrence_type parsed = None \/
   exists u, nl_recurrence_type parsed = Some u /\ In u ["day"; "week"; "month"]%string) ->
  line_ok (nl_message parsed) ->
  String.prefix "date:" (lower (nl_message parsed)) = false ->
  String.prefix "time:" (lower (nl_message parsed)) = false ->
  parse_reminder (format_reminder_text today parsed) =
  Ret [mkparsed
         (if date_eqb (nl_date parsed) today then None else Some (strftime_d_m_Y (nl_date parsed)))
         (Some (lower (strftime_I_M_p (nl_time parsed))))
         (Some (String.append
                  (match nl_recurrence_type parsed with
                   | Some u => String space (String.append "repeat: every "
                                 (String.append (py_str_int (nl_recurrence_interval parsed))
                                    (String " " (String.append u "(s)"))))
                   | None => EmptyString
                   end)
                  (String space (nl_message parsed))))].
Proof.
  intros Hmin Hday Hmon Hprio Hrt Hm Hmd Hmt.
  destruct (strftime_time_safe _ Hmin) as [HTs HTne].
  destruct (strftime_date_safe (nl_date parsed) ltac:(lia) ltac:(lia)) as [HDs HDne].
  destruct (all_safe_ends _ HTne HTs) as [HTf HTl].
  destruct (all_safe_ends _ HDne HDs) as [HDf HDl].
  rewrite format_join. unfold parse_reminder, format_lines.
  set (T := lower (strftime_I_M_p (nl_time parsed))) in *.
  set (D := strftime_d_m_Y (nl_date parsed)) in *.
  set (M := nl_message parsed) in *.
  assert (HT : truthy (Some T) = true) by (apply truthy_nonempty; exact HTne).
  rewrite reminder_lines_join.
  2: { rewrite Forall_app; split; [|constructor; [exact Hm|constructor]].
       repeat rewrite Forall_app. split; [constructor; [|constructor]; split; [reflexivity|split; [reflexivity|discriminate]]|].
       split; [destruct Hprio as [<-|[<-|[<-|[]]]]; closed_negb; repeat constructor; try reflexivity; discriminate|].
       split; [destruct (negb (date_eqb (nl_date parsed) today)); repeat constructor;
               apply line_ok_key; first [reflexivity | assumption]|].
       split; [constructor; [|constructor]; apply line_ok_key; first [reflexivity | assumption]|].
       destruct Hrt as [->|[u [-> Hu]]]; [constructor|].
       rewrite (truthy_nonempty u) by (destruct Hu as [<-|[<-|[<-|[]]]]; discriminate).
       constructor; [|constructor]. apply repeat_line_ok, Hu. }
  unfold empty_parsed.
  destruct Hprio as [<-|[<-|[<-|[]]]]; closed_negb;
    destruct (date_eqb (nl_date parsed) today); cbn [negb];
    (destruct Hrt as [->|[u [-> Hu]]]; [|destruct Hu as [<-|[<-|[<-|[]]]]]);
    cbn [app truthy];
    repeat first
      [ rewrite parse_lines_skip1 by reflexivity
      | rewrite parse_lines_date, strip_space_clean by assumption
      | rewrite parse_lines_time, strip_space_clean by assumption
      | rewrite parse_lines_message by (first [exact Hmd | exact Hmt | exact HT | rewrite lower_app; reflexivity]) ];
    cbn [parse_lines]; unfold flush; cbn [pr_time pr_message pr_date]; rewrite HT; reflexivity.
Qed.

Lemma format_reminder_text_parses_witness :
  parse_reminder (format_reminder_text (mkdate 2026 10 14)
    (mknl (mktime 21 5 0) (mkdate 2026 10 15) (Some "day"%string) 3 "high" "call mom")) =
  Ret [mkparsed
         (if date_eqb (mkdate 2026 10 15) (mkdate 2026 10 14) then None
          else Some (strftime_d_m_Y (mkdate 2026 10 15)))
         (Some (lower (strftime_I_M_p (mktime 21 5 0))))
         (Some (String.append
                  (String space (String.append "repeat: every "
                     (String.append (py_str_int 3) (String " " (String.append "day" "(s)")))))
                  (String space "call mom")))].
Proof.
  apply (format_reminder_text_parses (mkdate 2026 10 14)
           (mknl (mktime 21 5 0) (mkdate 2026 10 15) (Some "day"%string) 3 "high" "call mom")).
  - cbn; lia.
  - cbn; lia.
  - cbn; lia.
  - left; reflexivity.
  - right; exists "day"%string; split; [reflexivity|left; reflexivity].
  - split; [vm_compute; reflexivity|split; [vm_compute; reflexivity|discriminate]].
  - vm_compute; reflexivity.
  - vm_compute; reflexivity.
Defined.

(* ------------------------------------------------------------------ *)
(** ** The [tz_] button and [set_user_timezone] *)

Lemma find_user_update (fu v : Z) (tz : string) (us : list user) :
  find_user v (map (fun u => if Z.eqb (u_id u) fu
                             then mkuser (u_id u) (Some tz) (u_max u) (u_count u) else u) us)
  = match find_user v us with
    | Some u => Some (if Z.eqb v fu then mkuser (u_id u) (Some tz) (u_max u) (u_count u) else u)
    | None => None
    end.
Proof.
  unfold find_user. induction us as [|u us IH]; [reflexivity|]. cbn.
  destruct (Z.eqb_spec (u_id u) fu) as [E|E]; cbn.
  - destruct (Z.eqb_spec (u_id u) v) as [E'|E']; [|exact IH].
    subst. rewrite Z.eqb_refl. reflexivity.
  - destruct (Z.eqb_spec (u_id u) v) as [E'|E']; [|exact IH].
    subst. destruct (Z.eqb_spec (u_id u) fu); [contradiction|reflexivity].
Qed.

Lemma find_user_snoc (v : Z) (us : list user) (n : user) :
  find_user v (us ++ [n]) =
  match find_user v us with Some u => Some u | None => if Z.eqb (u_id n) v then Some n else None end.
Proof.
  unfold find_user. induction us as [|u us IH]; cbn; [destruct (u_id n =? v); reflexivity|].
  destruct (u_id u =? v); [reflexivity|exact IH].
Qed.

(** X18: the [tz_] button stores the text after [tz_] as the user's time
    zone, whatever it is (no check that it names a zone): an existing user
    keeps the reminder quota and count; a new user row gets the quota 50 and
    the count 0. No other user and no reminder row changes. *)
Theorem tz_button_upserts_timezone (chat_id from_user : Z) (tz : string) (w : world) :
  let '(o, w') := button_callback chat_id from_user (String.append "tz_" tz) w in
  o = Ret tt /\ rows (w_db w') = rows (w_db w) /\
  find_user from_user (users (w_db w')) =
    Some (match find_user from_user (users (w_db w)) with
          | Some u => mkuser from_user (Some tz) (u_max u) (u_count u)
          | None => mkuser from_user (Some tz) 50 0
          end) /\
  (forall v, v <> from_user -> find_user v (users (w_db w')) = find_user v (users (w_db w))).
Proof.
  unfold button_callback. rewrite prefix_app_self.
  change 3%nat with (String.length "tz_"). rewrite drop_append.
  unfold set_user_timezone, reply_text, mbind, M_bind, get, modify, mret, M_ret.
  cbv beta iota zeta.
  destruct (find_user from_user (users (w_db w))) as [u|] eqn:F;
    cbn [w_db set_db push_reply rows users].
  - refine (conj eq_refl (conj eq_refl (conj _ _))).
    + rewrite find_user_update, F, Z.eqb_refl.
      unfold find_user in F. apply List.find_some in F as [_ F]. apply Z.eqb_eq in F.
      rewrite F. reflexivity.
    + intros v Hv. rewrite find_user_update. destruct (find_user v (users (w_db w))); [|reflexivity].
      apply Z.eqb_neq in Hv. rewrite Hv. reflexivity.
  - refine (conj eq_refl (conj eq_refl (conj _ _))).
    + rewrite find_user_snoc, F. cbn. rewrite Z.eqb_refl. reflexivity.
    + intros v Hv. rewrite find_user_snoc. destruct (find_user v (users (w_db w))); [reflexivity|].
      cbn. apply Z.eqb_neq in Hv. rewrite Z.eqb_sym, Hv. reflexivity.
Qed.
